(** * advanced-thermo: the bisection property solver, the unit operations of
    the throttle / flash-separator chain and the counterflow pinch evaluator.

    Embedded sources:
    - [hw-1/programs/property_solver.py]  (modules [PropertySolver] and
                                           [PropertySolverCLI])
    - [programs/coolprop_cli.py]          (module [CoolPropCLI])
    - [hw-3/fluid-separator.py]           (modules [FluidSeparator] and
                                           [SeparatorScript])
    - [hw-3/counterflow-hx.py]            (module [CounterflowHX])

    Python [float] is IEEE-754 binary64, which is Rocq's primitive [float].
    The arithmetic of the solver and of the unit operations is written
    against the interface [Arith], of which binary64 is the instance the
    programs run: what is proved for every instance holds of the programs,
    and every worked run is a binary64 run.
    Console output is kept as a list of structured lines, one constructor per
    [print] statement; exceptions are values of [exn]. *)

From Stdlib Require Import Floats Uint63 ZArith Lia Bool Ascii String List.
Import ListNotations.

(* ================================================================== *)
(** * Part I. The Python runtime the sources rely on *)
(* ================================================================== *)

(** Exceptions that can travel through the embedded code.  All of them are
    subclasses of Python's [Exception], so [except Exception] catches each. *)
Inductive exn : Type :=
| ZeroDivisionError
| UnboundLocalError (name : string)
| TypeError (msg : string)
| RuntimeError (msg : string)
| ValueError (msg : string).

(** A call either raises or returns. *)
Definition result (A : Type) : Type := (exn + A)%type.

Definition ok {A} (a : A) : result A := inr a.
Definition throw {A} (e : exn) : result A := inl e.

Definition rbind {A B} (r : result A) (k : A -> result B) : result B :=
  match r with
  | inl e => inl e
  | inr a => k a
  end.

Declare Scope result_scope.
Delimit Scope result_scope with result.
Notation "x <~ r ;; k" := (rbind r (fun x => k))
  (at level 100, r at next level, right associativity) : result_scope.

(** The line break of Python's ["\n"]. *)
Definition newline : string := String "010"%char EmptyString.

(** ** Arithmetic interface *)

(** The operators the sources apply to numbers.  [lit z] is a literal with an
    integer value ([0], [1], [2.0], [1e6]); [fdiv] is the raw quotient, and
    Python's [/] is [truediv] below, which raises on a zero divisor. *)
Class Arith (F : Type) : Type := {
  lit : Z -> F;
  add : F -> F -> F;
  sub : F -> F -> F;
  mul : F -> F -> F;
  fdiv : F -> F -> F;
  fabs : F -> F;
  flt : F -> F -> bool;
  feq : F -> F -> bool
}.

(** An integer-valued literal as a binary64 number (exact below [2^53]). *)
Definition float_of_Z (z : Z) : float :=
  match z with
  | Z0 => 0%float
  | Zpos _ => PrimFloat.of_uint63 (Uint63.of_Z z)
  | Zneg p => PrimFloat.opp (PrimFloat.of_uint63 (Uint63.of_Z (Zpos p)))
  end.

(** CPython's [float]: binary64, round to nearest even.  [==] and [<] are the
    IEEE comparisons (false on NaN, [-0.0 == 0.0]). *)
#[export] Instance float_arith : Arith float := {
  lit := float_of_Z;
  add := PrimFloat.add;
  sub := PrimFloat.sub;
  mul := PrimFloat.mul;
  fdiv := PrimFloat.div;
  fabs := PrimFloat.abs;
  flt := PrimFloat.ltb;
  feq := PrimFloat.eqb
}.

(** [a / b] on Python floats: [ZeroDivisionError] when [b == 0] (either sign
    of zero), the IEEE quotient otherwise.  The other float operators never
    raise (overflow gives an infinity). *)
Definition truediv {F} `{Arith F} (a b : F) : result F :=
  if feq b (lit 0) then throw ZeroDivisionError else ok (fdiv a b).

(** ** Procedures: local state, console output, exceptions *)

(** A procedure over a store [S] printing lines of type [L]: from the store at
    entry it gives the lines printed, the store at exit and the outcome.
    A raised exception keeps what was printed and assigned before it. *)
Definition M (L S A : Type) : Type := S -> list L * S * result A.

Section Procedures.
Context {L S : Type}.

Definition ret {A} (a : A) : M L S A := fun s => ([], s, inr a).

Definition raise {A} (e : exn) : M L S A := fun s => ([], s, inl e).

Definition bind {A B} (m : M L S A) (k : A -> M L S B) : M L S B :=
  fun s =>
    match m s with
    | (o, s1, inl e) => (o, s1, inl e)
    | (o, s1, inr a) =>
        match k a s1 with
        | (o', s2, r) => (o ++ o', s2, r)
        end
    end.

Definition print (l : L) : M L S unit := fun s => ([l], s, inr tt).

Definition get : M L S S := fun s => ([], s, inr s).

Definition modify (f : S -> S) : M L S unit := fun s => ([], f s, inr tt).

Definition lift {A} (r : result A) : M L S A := fun s => ([], s, r).

(** [try: body  except Exception as e: handler e]. *)
Definition try_except {A} (body : M L S A) (handler : exn -> M L S A) : M L S A :=
  fun s =>
    match body s with
    | (o, s1, inl e) =>
        match handler e s1 with
        | (o', s2, r) => (o ++ o', s2, r)
        end
    | (o, s1, inr a) => (o, s1, inr a)
    end.

(** [for i in range(n): body i], where the body may [return] from the
    enclosing function ([Some r]) or fall through to the next round ([None]).
    [count] rounds are left and the next index is [i]. *)
Fixpoint for_from {R} (count : nat) (i : Z) (body : Z -> M L S (option R))
  : M L S (option R) :=
  match count with
  | O => ret None
  | Datatypes.S count' =>
      bind (body i) (fun r =>
        match r with
        | Some x => ret (Some x)
        | None => for_from count' (i + 1)%Z body
        end)
  end.

(** [range(n)] is empty for [n <= 0]. *)
Definition for_range {R} (n : Z) (body : Z -> M L S (option R)) : M L S (option R) :=
  for_from (Z.to_nat n) 0%Z body.

End Procedures.

Declare Scope proc_scope.
Delimit Scope proc_scope with proc.
Notation "x <- m ;; k" := (bind m (fun x => k))
  (at level 100, m at next level, right associativity) : proc_scope.
Notation "m ;; k" := (bind m (fun _ => k))
  (at level 100, right associativity) : proc_scope.

(* ================================================================== *)
(** * Part II. hw-1/programs/property_solver.py *)
(* ================================================================== *)

Module PropertySolver.

(** One constructor per [print] of [solve_property]; the multi-line summaries
    (lines 95-98 and 125-129) are one line each, carrying what they format. *)
Inductive line (F : Type) : Type :=
| Solving (unknown_prop target_prop : string) (target_value : F)
          (known_prop : string) (known_value : F) (fluid : string)
| SearchRange (min_guess max_guess : F)
| Settings (tolerance : F) (max_iterations : Z)
| Rule
| Iter (number : Z) (guess actual_value error : F)
| IterError (number : Z) (guess : F) (e : exn)
| Converged (guess actual_value error : F) (iterations : Z)
| MaxIterationsReached (final_guess final_value final_error : F) (iterations : Z).

Arguments Solving {F}.
Arguments SearchRange {F}.
Arguments Settings {F}.
Arguments Rule {F}.
Arguments Iter {F}.
Arguments IterError {F}.
Arguments Converged {F}.
Arguments MaxIterationsReached {F}.

(** The local variables of [solve_property] that the loop assigns.
    [actual_value] is unbound until the first lookup returns. *)
Record locals (F : Type) : Type := Locals {
  low : F;
  high : F;
  actual_value : option F
}.

Arguments Locals {F}.
Arguments low {F}.
Arguments high {F}.
Arguments actual_value {F}.

Section Solve.
Context {F : Type} `{Arith F}.

(** The PropertyService behind [call_coolprop_cli]:
    [(prop, input1_type, input1_value, input2_type, input2_value, fluid)]. *)
Variable call_coolprop_cli : string -> string -> F -> string -> F -> string -> result F.

Variables (target_prop : string) (target_value : F)
          (known_prop : string) (known_value : F) (unknown_prop : string)
          (min_guess max_guess : F) (fluid : string)
          (tolerance : F) (max_iterations : Z).

Local Open Scope proc_scope.

Definition set_low (x : F) : M (line F) (locals F) unit :=
  modify (fun s => Locals x (high s) (actual_value s)).

Definition set_high (x : F) : M (line F) (locals F) unit :=
  modify (fun s => Locals (low s) x (actual_value s)).

Definition set_actual_value (x : F) : M (line F) (locals F) unit :=
  modify (fun s => Locals (low s) (high s) (Some x)).

(** Reading [actual_value]: Python raises [UnboundLocalError] when the name
    was never assigned. *)
Definition read_actual_value : M (line F) (locals F) F :=
  s <- get ;;
  match actual_value s with
  | Some a => ret a
  | None => raise (UnboundLocalError "actual_value")
  end.

(** [if actual_value < target_value: low = guess  else: high = guess]
    (lines 102-105, and again 113-116 in the handler). *)
Definition narrow (guess : F) : M (line F) (locals F) unit :=
  a <- read_actual_value ;;
  if flt a target_value then set_low guess else set_high guess.

Definition lookup (x : F) : result F :=
  call_coolprop_cli target_prop known_prop known_value unknown_prop x fluid.

(** [abs(value - target_value) / abs(target_value)]. *)
Definition relative_error (value : F) : result F :=
  truediv (fabs (sub value target_value)) (fabs target_value).

(** The midpoint [(low + high) / 2.0]; the divisor is a non-zero literal. *)
Definition midpoint (s : locals F) : F := fdiv (add (low s) (high s)) (lit 2).

(** One round of the loop (lines 77-116). *)
Definition iteration_body (iteration : Z) : M (line F) (locals F) (option (F * F * Z)) :=
  s <- get ;;
  let guess := midpoint s in
  try_except
    (v <- lift (lookup guess) ;;
     set_actual_value v ;;
     error <- lift (relative_error v) ;;
     print (Iter (iteration + 1) guess v error) ;;
     if flt error tolerance then
       (print Rule ;;
        print (Converged guess v error (iteration + 1)) ;;
        ret (Some (guess, v, (iteration + 1)%Z)))
     else
       (narrow guess ;; ret None))
    (fun e =>
       print (IterError (iteration + 1) guess e) ;;
       if (iteration =? 0)%Z then raise e
       else (narrow guess ;; ret None)).

(** Lines 118-131: the code after the loop. *)
Definition after_loop : M (line F) (locals F) (F * F * Z) :=
  s <- get ;;
  let final_guess := midpoint s in
  final_value <- lift (lookup final_guess) ;;
  final_error <- lift (relative_error final_value) ;;
  print Rule ;;
  print (MaxIterationsReached final_guess final_value final_error max_iterations) ;;
  ret (final_guess, final_value, max_iterations).

Definition bisection_loop : M (line F) (locals F) (option (F * F * Z)) :=
  for_range max_iterations iteration_body.

Definition solve_property_body : M (line F) (locals F) (F * F * Z) :=
  print (Solving unknown_prop target_prop target_value known_prop known_value fluid) ;;
  print (SearchRange min_guess max_guess) ;;
  print (Settings tolerance max_iterations) ;;
  print Rule ;;
  r <- bisection_loop ;;
  match r with
  | Some answer => ret answer
  | None => after_loop
  end.

(** Lines 73-74 bind [low] and [high]; [actual_value] is not yet bound. *)
Definition entry_locals : locals F := Locals min_guess max_guess None.

(** [solve_property(...)]: what it prints, and what it returns or raises. *)
Definition solve_property : list (line F) * result (F * F * Z) :=
  match solve_property_body entry_locals with
  | (o, _, r) => (o, r)
  end.

End Solve.

End PropertySolver.

(* ================================================================== *)
(** * Part III. hw-3/fluid-separator.py *)
(* ================================================================== *)

Module FluidSeparator.

(** ** class Throttle *)
Module Throttle.

Record t (F : Type) : Type := Make {
  fluid : string;
  T_in : F;
  P_in : F;
  P_out : F;
  m_dot : F;
  h_in : F;
  s_in : F;
  h_out : F;
  s_out : F;
  x_out : F
}.

Arguments Make {F}.
Arguments fluid {F}.
Arguments T_in {F}.
Arguments P_in {F}.
Arguments P_out {F}.
Arguments m_dot {F}.
Arguments h_in {F}.
Arguments s_in {F}.
Arguments h_out {F}.
Arguments s_out {F}.
Arguments x_out {F}.

Section Methods.
Context {F : Type} `{Arith F}.
Variable PropsSI : string -> string -> F -> string -> F -> string -> result F.

Local Open Scope result_scope.

(** [Throttle.__init__]: an exception in a lookup leaves no object. *)
Definition __init__ (fluid : string) (T_in P_in P_out m_dot : F) : result (t F) :=
  h_in <~ PropsSI "H" "T" T_in "P" P_in fluid ;;
  s_in <~ PropsSI "S" "T" T_in "P" P_in fluid ;;
  let h_out := h_in in
  s_out <~ PropsSI "S" "H" h_out "P" P_out fluid ;;
  x_out <~ PropsSI "Q" "H" h_out "P" P_out fluid ;;
  ok (Make fluid T_in P_in P_out m_dot h_in s_in h_out s_out x_out).

Definition exergy_destruction (self : t F) (T0 : F) : F :=
  let s_gen := mul (m_dot self) (sub (s_out self) (s_in self)) in
  mul T0 s_gen.

End Methods.
End Throttle.

(** ** class FlashSeparator *)
Module FlashSeparator.

(** [s_in] is [None] when the constructor's optional argument is omitted. *)
Record t (F : Type) : Type := Make {
  fluid : string;
  P : F;
  x_in : F;
  m_dot : F;
  s_in : option F;
  m_dot_vap : F;
  m_dot_liq : F;
  h_vap : F;
  s_vap : F;
  T_vap : F;
  h_liq : F;
  s_liq : F;
  T_liq : F
}.

Arguments Make {F}.
Arguments fluid {F}.
Arguments P {F}.
Arguments x_in {F}.
Arguments m_dot {F}.
Arguments s_in {F}.
Arguments m_dot_vap {F}.
Arguments m_dot_liq {F}.
Arguments h_vap {F}.
Arguments s_vap {F}.
Arguments T_vap {F}.
Arguments h_liq {F}.
Arguments s_liq {F}.
Arguments T_liq {F}.

(** The assignment [self.s_in = v]. *)
Definition set_s_in {F} (v : option F) (self : t F) : t F :=
  Make (fluid self) (P self) (x_in self) (m_dot self) v
       (m_dot_vap self) (m_dot_liq self)
       (h_vap self) (s_vap self) (T_vap self)
       (h_liq self) (s_liq self) (T_liq self).

Section Methods.
Context {F : Type} `{Arith F}.
Variable PropsSI : string -> string -> F -> string -> F -> string -> result F.

(** [FlashSeparator.__init__(fluid, P, x_in, m_dot, s_in=None)]. *)
Definition __init__ (fluid : string) (P x_in m_dot : F) (s_in : option F) : result (t F) :=
  (let m_dot_vap := mul x_in m_dot in
   let m_dot_liq := mul (sub (lit 1) x_in) m_dot in
   h_vap <~ PropsSI "H" "P" P "Q" (lit 1) fluid ;;
   s_vap <~ PropsSI "S" "P" P "Q" (lit 1) fluid ;;
   T_vap <~ PropsSI "T" "P" P "Q" (lit 1) fluid ;;
   h_liq <~ PropsSI "H" "P" P "Q" (lit 0) fluid ;;
   s_liq <~ PropsSI "S" "P" P "Q" (lit 0) fluid ;;
   T_liq <~ PropsSI "T" "P" P "Q" (lit 0) fluid ;;
   ok (Make fluid P x_in m_dot s_in m_dot_vap m_dot_liq
            h_vap s_vap T_vap h_liq s_liq T_liq))%result.

Local Open Scope proc_scope.

(** [FlashSeparator.exergy_destruction(self, T0)]: a procedure on the object;
    it prints nothing. *)
Definition exergy_destruction (T0 : F) : M Empty_set (t F) F :=
  self <- get ;;
  (match s_in self with
   | None =>
       h_mix <- lift (PropsSI "H" "P" (P self) "Q" (x_in self) (fluid self)) ;;
       s <- lift (PropsSI "S" "H" h_mix "P" (P self) (fluid self)) ;;
       modify (set_s_in (Some s))
   | Some _ => ret tt
   end) ;;
  self <- get ;;
  match s_in self with
  | None => raise (TypeError "unsupported operand type(s) for *: 'float' and 'NoneType'")
  | Some s_in_value =>
      let s_gen := sub (add (mul (m_dot_vap self) (s_vap self))
                            (mul (m_dot_liq self) (s_liq self)))
                       (mul (m_dot self) s_in_value) in
      ret (mul T0 s_gen)
  end.

(** [FlashSeparator.__repr__(self)]; [fmt digits x] stands for the format
    specification [{x:.<digits>f}], and the divisor [1e6] is a non-zero
    literal. *)
Variable fmt : nat -> F -> string.

Definition __repr__ : M Empty_set (t F) string :=
  self <- get ;;
  ret ("FlashSeparator @ " ++ fmt 2 (fdiv (P self) (lit 1000000)) ++ " MPa" ++ newline
       ++ "  Vapor: m_dot=" ++ fmt 4 (m_dot_vap self) ++ " kg/s, "
       ++ "h=" ++ fmt 2 (h_vap self) ++ " J/kg, T=" ++ fmt 2 (T_vap self) ++ " K" ++ newline
       ++ "  Liquid: m_dot=" ++ fmt 4 (m_dot_liq self) ++ " kg/s, "
       ++ "h=" ++ fmt 2 (h_liq self) ++ " J/kg, T=" ++ fmt 2 (T_liq self) ++ " K")%string.

End Methods.
End FlashSeparator.

(** ** class HeatExchanger *)
Module HeatExchanger.

Record t (F : Type) : Type := Make {
  fluid : string;
  P : F;
  m_dot : F;
  h_in : F;
  s_in : F;
  T_out : F;
  h_out : F;
  s_out : F;
  q_dot : F
}.

Arguments Make {F}.
Arguments fluid {F}.
Arguments P {F}.
Arguments m_dot {F}.
Arguments h_in {F}.
Arguments s_in {F}.
Arguments T_out {F}.
Arguments h_out {F}.
Arguments s_out {F}.
Arguments q_dot {F}.

Section Methods.
Context {F : Type} `{Arith F}.
Variable PropsSI : string -> string -> F -> string -> F -> string -> result F.

Local Open Scope result_scope.

Definition __init__ (fluid : string) (h_in s_in P T_out m_dot : F) : result (t F) :=
  h_out <~ PropsSI "H" "T" T_out "P" P fluid ;;
  s_out <~ PropsSI "S" "T" T_out "P" P fluid ;;
  let q_dot := mul m_dot (sub h_out h_in) in
  ok (Make fluid P m_dot h_in s_in T_out h_out s_out q_dot).

(** [T_boundary] defaults to [T0]; the quotient raises on a zero boundary
    temperature. *)
Definition exergy_destruction (self : t F) (T0 : F) (T_boundary : option F) : result F :=
  let T_boundary := match T_boundary with None => T0 | Some T => T end in
  q <~ truediv (q_dot self) T_boundary ;;
  let s_gen := sub (mul (m_dot self) (sub (s_out self) (s_in self))) q in
  ok (mul T0 s_gen).

End Methods.
End HeatExchanger.

(** ** class Mixer *)
Module Mixer.

Record t (F : Type) : Type := Make {
  fluid : string;
  P : F;
  h_1 : F;
  s_1 : F;
  m_dot_1 : F;
  h_2 : F;
  s_2 : F;
  m_dot_2 : F;
  m_dot_out : F;
  h_out : F;
  T_out : F;
  s_out : F
}.

Arguments Make {F}.
Arguments fluid {F}.
Arguments P {F}.
Arguments h_1 {F}.
Arguments s_1 {F}.
Arguments m_dot_1 {F}.
Arguments h_2 {F}.
Arguments s_2 {F}.
Arguments m_dot_2 {F}.
Arguments m_dot_out {F}.
Arguments h_out {F}.
Arguments T_out {F}.
Arguments s_out {F}.

Section Methods.
Context {F : Type} `{Arith F}.
Variable PropsSI : string -> string -> F -> string -> F -> string -> result F.

Local Open Scope result_scope.

(** [Mixer.__init__]: the energy balance divides by the total flow. *)
Definition __init__ (fluid : string) (h_1 s_1 m_dot_1 h_2 s_2 m_dot_2 P : F) : result (t F) :=
  let m_dot_out := add m_dot_1 m_dot_2 in
  h_out <~ truediv (add (mul m_dot_1 h_1) (mul m_dot_2 h_2)) m_dot_out ;;
  T_out <~ PropsSI "T" "H" h_out "P" P fluid ;;
  s_out <~ PropsSI "S" "H" h_out "P" P fluid ;;
  ok (Make fluid P h_1 s_1 m_dot_1 h_2 s_2 m_dot_2 m_dot_out h_out T_out s_out).

Definition exergy_destruction (self : t F) (T0 : F) : F :=
  let s_gen := sub (sub (mul (m_dot_out self) (s_out self))
                        (mul (m_dot_1 self) (s_1 self)))
                   (mul (m_dot_2 self) (s_2 self)) in
  mul T0 s_gen.

End Methods.
End Mixer.

(** ** The script's Part A (lines 156-164): the Propane scenario *)
Section Script.
Variable PropsSI : string -> string -> float -> string -> float -> string -> result float.

Local Open Scope result_scope.

Definition part_A : result (Throttle.t float * FlashSeparator.t float) :=
  let fluid := "Propane"%string in
  let m_dot := 1.5%float in
  let T1 := 330%float in
  let P1 := 2500000%float in
  let P2 := 650000%float in
  valve <~ Throttle.__init__ PropsSI fluid T1 P1 P2 m_dot ;;
  separator <~ FlashSeparator.__init__ PropsSI fluid P2 (Throttle.x_out valve) m_dot
                 (Some (Throttle.s_out valve)) ;;
  ok (valve, separator).

End Script.

End FluidSeparator.

(* ================================================================== *)
(** * Part IV. hw-3/counterflow-hx.py *)
(* ================================================================== *)

Module CounterflowHX.

Local Open Scope float_scope.

Inductive verdict : Type := FEASIBLE | INFEASIBLE.

(** Console output, one constructor per [print] (blank lines and the fixed
    headings that carry no value are left out; the three-line blocks of
    [compute_boundary_temperatures] and of the "Given" preamble are one line
    each).  Values are stored as they are formatted. *)
Inductive line : Type :=
| BoundaryTemperatures (T_b_H T_b_C Q_dot_kW : float)
| ExergyDestructionLayer (X_dest_kW : float)
| EntropyGenerationCheck (X_check_kW : float)
| ExergeticEfficiency (eta_ex : float)
| Given (P_h T_h_in P_c T_c_in : float)
| InletEnthalpies (h_h_in_kJ h_c_in_kJ : float)
| MassFlows (m_dot_h m_dot_c mu : float)
| Case1_T_h_out (T_h_out : float)
| Case1_h_h_out (h_h_out_kJ : float)
| Case1_h_c_out (h_c_out_kJ : float)
| Case1_T_c_out (T_c_out : float)
| Case1_dT_cold_outlet (dT : float) (v : verdict)
| Case1_no_inversion
| Case1_implied_mu (mu_calc : float)
| Case2_T_c_out (T_c_out : float)
| Case2_h_c_out (h_c_out_kJ : float)
| Case2_h_h_out (h_h_out_kJ : float)
| Case2_T_h_out (T_h_out : float)
| Case2_dT_hot_outlet (dT : float) (v : verdict)
| Case2_no_inversion
| Case2_implied_mu (mu_calc : float)
| Case2_mu_zero.

(** The 11-tuple returned by [compute_boundary_temperatures]. *)
Record boundary : Type := Boundary {
  T_b_H : float;
  T_b_C : float;
  Q_dot : float;
  b_h_h_in : float;
  b_h_h_out : float;
  b_s_h_in : float;
  b_s_h_out : float;
  b_h_c_in : float;
  b_h_c_out : float;
  b_s_c_in : float;
  b_s_c_out : float
}.

(** The 5-tuple returned by [evaluate_case]; a component is [None] where the
    Python value may be [None]. *)
Record candidate : Type := Candidate {
  T_h_out : option float;
  h_h_out : option float;
  h_c_out : float;
  T_c_out : option float;
  dT_other : option float
}.

(** The "Given conditions" of [main] (lines 130-139). *)
Definition P_h : float := 12000000.
Definition T_h_in : float := 720.
Definition P_c : float := 10000000.
Definition T_c_in : float := 310.
Definition dTmin : float := 12.
Definition fluid_h : string := "CO2".
Definition fluid_c : string := "Water".

(** The dead-state temperature passed at lines 245 and 249. *)
Definition T_0 : float := 300.

Definition Jperkg_to_kJperkg (x : float) : float := x / 1000.

(** Using a value that may be [None] where a float is required. *)
Definition as_float (x : option float) : result float :=
  match x with
  | Some v => ok v
  | None => throw (TypeError "NoneType where a float is required")
  end.

Section Program.
Variable PropsSI : string -> string -> float -> string -> float -> string -> result float.

Definition safe_T_from_h (h P : float) (fluid : string) : option float :=
  match PropsSI "T" "H" h "P" P fluid with
  | inr T => Some T
  | inl _ => None
  end.

Local Open Scope proc_scope.

Definition compute_boundary_temperatures
    (T_h_in T_h_out P_h T_c_in T_c_out P_c m_dot_h m_dot_c : float)
    (fluid_h fluid_c : string) : M line unit boundary :=
  h_h_in <- lift (PropsSI "H" "T" T_h_in "P" P_h fluid_h) ;;
  h_h_out <- lift (PropsSI "H" "T" T_h_out "P" P_h fluid_h) ;;
  s_h_in <- lift (PropsSI "S" "T" T_h_in "P" P_h fluid_h) ;;
  s_h_out <- lift (PropsSI "S" "T" T_h_out "P" P_h fluid_h) ;;
  h_c_in <- lift (PropsSI "H" "T" T_c_in "P" P_c fluid_c) ;;
  h_c_out <- lift (PropsSI "H" "T" T_c_out "P" P_c fluid_c) ;;
  s_c_in <- lift (PropsSI "S" "T" T_c_in "P" P_c fluid_c) ;;
  s_c_out <- lift (PropsSI "S" "T" T_c_out "P" P_c fluid_c) ;;
  T_b_H <- lift (truediv (h_h_in - h_h_out) (s_h_in - s_h_out)) ;;
  T_b_C <- lift (truediv (h_c_out - h_c_in) (s_c_out - s_c_in)) ;;
  let Q_dot := m_dot_h * (h_h_in - h_h_out) in
  print (BoundaryTemperatures T_b_H T_b_C (Q_dot / 1000)) ;;
  ret (Boundary T_b_H T_b_C Q_dot
                h_h_in h_h_out s_h_in s_h_out
                h_c_in h_c_out s_c_in s_c_out).

Definition compute_exergy_destruction
    (T_b_H T_b_C Q_dot T_0 m_dot_h m_dot_c s_h_in s_h_out s_c_in s_c_out : float)
    : M line unit (float * float) :=
  inv_C <- lift (truediv 1 T_b_C) ;;
  inv_H <- lift (truediv 1 T_b_H) ;;
  let X_dest := T_0 * Q_dot * (inv_C - inv_H) in
  let S_gen := m_dot_h * (s_h_out - s_h_in) + m_dot_c * (s_c_out - s_c_in) in
  let X_check := T_0 * S_gen in
  print (ExergyDestructionLayer (X_dest / 1000)) ;;
  print (EntropyGenerationCheck (X_check / 1000)) ;;
  ret (X_dest, X_check).

Definition compute_exergetic_efficiency
    (m_dot_h m_dot_c T_0 h_h_in h_h_out s_h_in s_h_out
     h_c_in h_c_out s_c_in s_c_out : float) : M line unit float :=
  let dX_c := m_dot_c * ((h_c_out - h_c_in) - T_0 * (s_c_out - s_c_in)) in
  let dX_h := m_dot_h * ((h_h_in - h_h_out) - T_0 * (s_h_in - s_h_out)) in
  eta_ex <- lift (if negb (dX_h =? 0) then truediv dX_c dX_h else ok nan) ;;
  print (ExergeticEfficiency eta_ex) ;;
  ret eta_ex.

(** The closure [evaluate_case] of [main]; [mu], [h_h_in] and [h_c_in] are the
    variables of [main] it reads. *)
Definition evaluate_case (mu h_h_in h_c_in : float) (pinch_hot : bool) : result candidate :=
  (if pinch_hot then
     let T_h_out := T_c_in + dTmin in
     h_h_out <~ PropsSI "H" "T" T_h_out "P" P_h fluid_h ;;
     let h_c_out := h_c_in + mu * (h_h_in - h_h_out) in
     let T_c_out := safe_T_from_h h_c_out P_c fluid_c in
     let dT_other := T_h_in - (match T_c_out with Some T => T | None => T_c_in end) in
     ok (Candidate (Some T_h_out) (Some h_h_out) h_c_out T_c_out (Some dT_other))
   else
     let T_c_out := T_h_in - dTmin in
     h_c_out <~ PropsSI "H" "T" T_c_out "P" P_c fluid_c ;;
     h_h_out <~ (if negb (mu =? 0) then
                   q <~ truediv (h_c_out - h_c_in) mu ;; ok (Some (h_h_in - q))
                 else ok None) ;;
     let T_h_out := match h_h_out with
                    | Some h => safe_T_from_h h P_h fluid_h
                    | None => None
                    end in
     let dT_other := match T_h_out with
                     | None => None
                     | Some T => Some (T - T_c_in)
                     end in
     ok (Candidate T_h_out h_h_out h_c_out (Some T_c_out) dT_other))%result.

(** ["FEASIBLE" if dT >= dTmin else "INFEASIBLE"]. *)
Definition classify (dT : float) : verdict :=
  if dTmin <=? dT then FEASIBLE else INFEASIBLE.

(** Lines 181-194. *)
Definition report_case1 (h_h_in h_c_in : float) (c : candidate) : M line unit unit :=
  T_h_out_case1 <- lift (as_float (T_h_out c)) ;;
  print (Case1_T_h_out T_h_out_case1) ;;
  h_h_out_case1 <- lift (as_float (h_h_out c)) ;;
  print (Case1_h_h_out (Jperkg_to_kJperkg h_h_out_case1)) ;;
  print (Case1_h_c_out (Jperkg_to_kJperkg (h_c_out c))) ;;
  (match T_c_out c with
   | Some T_c_out_case1 =>
       print (Case1_T_c_out T_c_out_case1) ;;
       dT_other1 <- lift (as_float (dT_other c)) ;;
       print (Case1_dT_cold_outlet dT_other1 (classify dT_other1))
   | None => print Case1_no_inversion
   end) ;;
  if negb (h_h_in - h_h_out_case1 =? 0) then
    mu_calc_case1 <- lift (truediv (h_c_out c - h_c_in) (h_h_in - h_h_out_case1)) ;;
    print (Case1_implied_mu mu_calc_case1)
  else ret tt.

(** Lines 196-211. *)
Definition report_case2 (h_h_in h_c_in : float) (c : candidate) : M line unit unit :=
  T_c_out_case2 <- lift (as_float (T_c_out c)) ;;
  print (Case2_T_c_out T_c_out_case2) ;;
  print (Case2_h_c_out (Jperkg_to_kJperkg (h_c_out c))) ;;
  match h_h_out c with
  | Some h_h_out_case2 =>
      print (Case2_h_h_out (Jperkg_to_kJperkg h_h_out_case2)) ;;
      (match T_h_out c with
       | Some T_h_out_case2 =>
           print (Case2_T_h_out T_h_out_case2) ;;
           dT_other2 <- lift (as_float (dT_other c)) ;;
           print (Case2_dT_hot_outlet dT_other2 (classify dT_other2))
       | None => print Case2_no_inversion
       end) ;;
      if negb (h_h_in - h_h_out_case2 =? 0) then
        mu_calc_case2 <- lift (truediv (h_c_out c - h_c_in) (h_h_in - h_h_out_case2)) ;;
        print (Case2_implied_mu mu_calc_case2)
      else ret tt
  | None => print Case2_mu_zero
  end.

(** [T is not None and dT_other >= dTmin], with Python's short-circuit. *)
Definition passes (T : option float) (dT_other : option float) : result bool :=
  match T with
  | None => ok false
  | Some _ => (dT <~ as_float dT_other ;; ok (dTmin <=? dT))%result
  end.

(** Lines 215-241: the candidate carried forward, if any.  [None] is the
    state in which [TbH] is still [None] at line 243. *)
Definition choose_case (m_dot_h m_dot_c : float) (case1 case2 : candidate)
    : M line unit (option boundary) :=
  use1 <- lift (passes (T_c_out case1) (dT_other case1)) ;;
  if use1 then
    T_h_out_case1 <- lift (as_float (T_h_out case1)) ;;
    T_c_out_case1 <- lift (as_float (T_c_out case1)) ;;
    b <- compute_boundary_temperatures T_h_in T_h_out_case1 P_h
                                       T_c_in T_c_out_case1 P_c
                                       m_dot_h m_dot_c fluid_h fluid_c ;;
    ret (Some b)
  else
    use2 <- lift (passes (T_h_out case2) (dT_other case2)) ;;
    if use2 then
      T_h_out_case2 <- lift (as_float (T_h_out case2)) ;;
      T_c_out_case2 <- lift (as_float (T_c_out case2)) ;;
      b <- compute_boundary_temperatures T_h_in T_h_out_case2 P_h
                                         T_c_in T_c_out_case2 P_c
                                         m_dot_h m_dot_c fluid_h fluid_c ;;
      ret (Some b)
    else ret None.

(** Lines 243-252. *)
Definition exergy_analysis (m_dot_h m_dot_c : float) (chosen : option boundary)
    : M line unit unit :=
  match chosen with
  | Some b =>
      compute_exergy_destruction (T_b_H b) (T_b_C b) (Q_dot b) T_0 m_dot_h m_dot_c
                                 (b_s_h_in b) (b_s_h_out b) (b_s_c_in b) (b_s_c_out b) ;;
      compute_exergetic_efficiency m_dot_h m_dot_c T_0
                                   (b_h_h_in b) (b_h_h_out b) (b_s_h_in b) (b_s_h_out b)
                                   (b_h_c_in b) (b_h_c_out b) (b_s_c_in b) (b_s_c_out b) ;;
      ret tt
  | None => ret tt
  end.

(** [mu = m_dot_h / m_dot_c if m_dot_c != 0 else float('inf')] (line 127). *)
Definition mass_flow_ratio (m_dot_h m_dot_c : float) : result float :=
  if negb (m_dot_c =? 0) then truediv m_dot_h m_dot_c else ok infinity.

(** [main], with the parsed [--m_h] and [--m_c] as arguments. *)
Definition main (m_dot_h m_dot_c : float) : M line unit unit :=
  mu <- lift (mass_flow_ratio m_dot_h m_dot_c) ;;
  h_h_in <- lift (PropsSI "H" "T" T_h_in "P" P_h fluid_h) ;;
  h_c_in <- lift (PropsSI "H" "T" T_c_in "P" P_c fluid_c) ;;
  print (Given P_h T_h_in P_c T_c_in) ;;
  print (InletEnthalpies (Jperkg_to_kJperkg h_h_in) (Jperkg_to_kJperkg h_c_in)) ;;
  print (MassFlows m_dot_h m_dot_c mu) ;;
  case1 <- lift (evaluate_case mu h_h_in h_c_in true) ;;
  case2 <- lift (evaluate_case mu h_h_in h_c_in false) ;;
  report_case1 h_h_in h_c_in case1 ;;
  report_case2 h_h_in h_c_in case2 ;;
  chosen <- choose_case m_dot_h m_dot_c case1 case2 ;;
  exergy_analysis m_dot_h m_dot_c chosen.

End Program.

End CounterflowHX.

(* ================================================================== *)
(** * Part V. Vocabulary of the properties *)
(* ================================================================== *)

(** ** Stand-ins for the PropertyService used in the worked examples *)

(** A service that answers every query with the same value. *)
Definition constant_service {F} (v : F)
  : string -> string -> F -> string -> F -> string -> result F :=
  fun _ _ _ _ _ _ => ok v.

(** ** FlashSeparator *)

(** Two separators that agree on every attribute other than [s_in]. *)
Definition same_but_s_in {F} (a b : FluidSeparator.FlashSeparator.t F) : Prop :=
  FluidSeparator.FlashSeparator.fluid a = FluidSeparator.FlashSeparator.fluid b /\
  FluidSeparator.FlashSeparator.P a = FluidSeparator.FlashSeparator.P b /\
  FluidSeparator.FlashSeparator.x_in a = FluidSeparator.FlashSeparator.x_in b /\
  FluidSeparator.FlashSeparator.m_dot a = FluidSeparator.FlashSeparator.m_dot b /\
  FluidSeparator.FlashSeparator.m_dot_vap a = FluidSeparator.FlashSeparator.m_dot_vap b /\
  FluidSeparator.FlashSeparator.m_dot_liq a = FluidSeparator.FlashSeparator.m_dot_liq b /\
  FluidSeparator.FlashSeparator.h_vap a = FluidSeparator.FlashSeparator.h_vap b /\
  FluidSeparator.FlashSeparator.s_vap a = FluidSeparator.FlashSeparator.s_vap b /\
  FluidSeparator.FlashSeparator.T_vap a = FluidSeparator.FlashSeparator.T_vap b /\
  FluidSeparator.FlashSeparator.h_liq a = FluidSeparator.FlashSeparator.h_liq b /\
  FluidSeparator.FlashSeparator.s_liq a = FluidSeparator.FlashSeparator.s_liq b /\
  FluidSeparator.FlashSeparator.T_liq a = FluidSeparator.FlashSeparator.T_liq b.

(** ** PropertySolver *)

(** The store after [if a < target_value: low = guess  else: high = guess]. *)
Definition narrowed {F} `{Arith F} (target_value a guess : F)
    (s : PropertySolver.locals F) : PropertySolver.locals F :=
  if flt a target_value
  then PropertySolver.Locals guess (PropertySolver.high s) (PropertySolver.actual_value s)
  else PropertySolver.Locals (PropertySolver.low s) guess (PropertySolver.actual_value s).

(** The store after [actual_value = v]. *)
Definition bound {F} (v : F) (s : PropertySolver.locals F) : PropertySolver.locals F :=
  PropertySolver.Locals (PropertySolver.low s) (PropertySolver.high s) (Some v).

(** The four lines printed before the loop. *)
Definition banner {F} (target_prop : string) (target_value : F) (known_prop : string)
    (known_value : F) (unknown_prop : string) (min_guess max_guess : F) (fluid : string)
    (tolerance : F) (max_iterations : Z) : list (PropertySolver.line F) :=
  [PropertySolver.Solving unknown_prop target_prop target_value known_prop known_value fluid;
   PropertySolver.SearchRange min_guess max_guess;
   PropertySolver.Settings tolerance max_iterations;
   PropertySolver.Rule].

(** A service defined by a partial function of the unknown property alone. *)
Definition service_of {F} (f : F -> result F)
  : string -> string -> F -> string -> F -> string -> result F :=
  fun _ _ _ _ x _ => f x.

(** The synthetic property [f(x) = a*x + b]. *)
Definition linear_property {F} `{Arith F} (a b : F) : F -> result F :=
  fun x => ok (add (mul a x) b).

(** The identity, except that the state at [hole] cannot be resolved. *)
Definition identity_but (hole : float) : float -> result float :=
  fun x => if PrimFloat.eqb x hole
           then throw (RuntimeError "CoolProp CLI failed")
           else ok x.

(** A property known only at [point], where it is [value]. *)
Definition only_at (point value : float) : float -> result float :=
  fun x => if PrimFloat.eqb x point
           then ok value
           else throw (RuntimeError "CoolProp CLI failed").

(** The defaults of [solve_property]: [tolerance=1e-3] (the binary64 number
    nearest to it) and [max_iterations=50]. *)
Definition default_tolerance : float := 0x1.0624dd2f1a9fcp-10%float.
Definition default_max_iterations : Z := 50%Z.

(** ** CounterflowHX *)

(** A candidate is feasible when the outlet temperature of the other stream
    was obtained and the approach at that end is at least [dTmin]. *)
Definition feasible (T_other dT_other : option float) : bool :=
  match T_other, dT_other with
  | Some _, Some dT => PrimFloat.leb CounterflowHX.dTmin dT
  | _, _ => false
  end.

(** Pinch at the hot outlet: the other end is the cold outlet. *)
Definition hot_pinch_feasible (c : CounterflowHX.candidate) : bool :=
  feasible (CounterflowHX.T_c_out c) (CounterflowHX.dT_other c).

(** Pinch at the cold outlet: the other end is the hot outlet. *)
Definition cold_pinch_feasible (c : CounterflowHX.candidate) : bool :=
  feasible (CounterflowHX.T_h_out c) (CounterflowHX.dT_other c).

(** The lines printed by the boundary-temperature and exergy computations. *)
Definition is_analysis_line (l : CounterflowHX.line) : bool :=
  match l with
  | CounterflowHX.BoundaryTemperatures _ _ _
  | CounterflowHX.ExergyDestructionLayer _
  | CounterflowHX.EntropyGenerationCheck _
  | CounterflowHX.ExergeticEfficiency _ => true
  | _ => false
  end.

(** The lines that carry a feasibility verdict. *)
Definition is_verdict_line (l : CounterflowHX.line) : bool :=
  match l with
  | CounterflowHX.Case1_dT_cold_outlet _ _
  | CounterflowHX.Case2_dT_hot_outlet _ _ => true
  | _ => false
  end.

(** A single-phase fluid of constant heat capacity 1000 J/kg/K, for both
    streams: [h = 1000 T], [T = h / 1000], and an entropy that grows with the
    temperature. *)
Definition caloric_service
  : string -> string -> float -> string -> float -> string -> result float :=
  fun prop _ value1 _ _ _ =>
    if String.eqb prop "H" then ok (1000 * value1)%float
    else if String.eqb prop "T" then ok (value1 / 1000)%float
    else if String.eqb prop "S" then ok value1
    else throw (ValueError "unknown output").

(** ** Bisection *)

(** The relative error [abs(value - target_value) / abs(target_value)] as the
    code computes it when the divisor is not zero. *)
Definition error_of {F} `{Arith F} (target_value value : F) : F :=
  fdiv (fabs (sub value target_value)) (fabs target_value).

(** The value of the synthetic property [f(x) = a*x + b] at [x]. *)
Definition linear_value {F} `{Arith F} (a b x : F) : F := add (mul a x) b.

(** The line of a round that evaluated [f] at its guess and found the
    relative error not below the tolerance. *)
Definition missed {F} `{Arith F} (f : F -> F) (target_value tolerance : F)
    (l : PropertySolver.line F) : Prop :=
  exists number guess,
    l = PropertySolver.Iter number guess (f guess) (error_of target_value (f guess)) /\
    flt (error_of target_value (f guess)) tolerance = false.

(** The brackets bisection can reach from the caller's bounds: the bounds
    themselves, and a reachable bracket with one end replaced by its
    midpoint, as the program's arithmetic computes it. *)
Inductive bisected {F} `{Arith F} (min_guess max_guess : F) : PropertySolver.locals F -> Prop :=
| bisected_entry (s : PropertySolver.locals F) :
    PropertySolver.low s = min_guess -> PropertySolver.high s = max_guess ->
    bisected min_guess max_guess s
| bisected_upper (s s' : PropertySolver.locals F) :
    bisected min_guess max_guess s ->
    PropertySolver.low s' = PropertySolver.midpoint s ->
    PropertySolver.high s' = PropertySolver.high s ->
    bisected min_guess max_guess s'
| bisected_lower (s s' : PropertySolver.locals F) :
    bisected min_guess max_guess s ->
    PropertySolver.low s' = PropertySolver.low s ->
    PropertySolver.high s' = PropertySolver.midpoint s ->
    bisected min_guess max_guess s'.

(** [g] is the midpoint of a bracket bisection can reach. *)
Definition bisection_midpoint {F} `{Arith F} (min_guess max_guess g : F) : Prop :=
  exists s, bisected min_guess max_guess s /\ g = PropertySolver.midpoint s.

(** The guess a printed line reports, if it is the line of a round. *)
Definition guess_of {F} (l : PropertySolver.line F) : option F :=
  match l with
  | PropertySolver.Iter _ guess _ _ => Some guess
  | PropertySolver.IterError _ guess _ => Some guess
  | _ => None
  end.

(** ** The pinch candidates *)

(** The verdict lines of a run (lines 187-188 and 203-204): one for each
    candidate whose other outlet temperature was obtained, carrying the
    approach at that end and its classification. *)
Definition verdicts_of (case1 case2 : CounterflowHX.candidate) : list CounterflowHX.line :=
  (match CounterflowHX.T_c_out case1 with
   | Some Tc =>
       [CounterflowHX.Case1_dT_cold_outlet
          (CounterflowHX.T_h_in - Tc)
          (CounterflowHX.classify (CounterflowHX.T_h_in - Tc))]
   | None => []
   end ++
   match CounterflowHX.h_h_out case2, CounterflowHX.T_h_out case2 with
   | Some _, Some Th =>
       [CounterflowHX.Case2_dT_hot_outlet
          (Th - CounterflowHX.T_c_in)
          (CounterflowHX.classify (Th - CounterflowHX.T_c_in))]
   | _, _ => []
   end)%list%float.

(** Lines 220-252 for a candidate carried forward with the outlet
    temperatures [T_h_out] and [T_c_out]: its boundary temperatures, then the
    exergy destruction and the efficiency. *)
Definition analysis_of
    (PropsSI : string -> string -> float -> string -> float -> string -> result float)
    (m_dot_h m_dot_c T_h_out T_c_out : float) : M CounterflowHX.line unit unit :=
  bind (CounterflowHX.compute_boundary_temperatures PropsSI
          CounterflowHX.T_h_in T_h_out CounterflowHX.P_h
          CounterflowHX.T_c_in T_c_out CounterflowHX.P_c
          m_dot_h m_dot_c CounterflowHX.fluid_h CounterflowHX.fluid_c)
       (fun b => CounterflowHX.exergy_analysis m_dot_h m_dot_c (Some b)).

(** ** Failure modes *)

(** The exception [e] is one the service raises for some query. *)
Definition raised_by_service {F}
    (service : string -> string -> F -> string -> F -> string -> result F) (e : exn) : Prop :=
  exists prop input1 value1 input2 value2 fluid,
    service prop input1 value1 input2 value2 fluid = inl e.

(** ** The command-line layer *)

(** How a Python program ends: it returns from [main] (exit status 0), calls
    [sys.exit(status)], or dies of an exception nobody caught. *)
Inductive termination : Type :=
| Returned
| Exited (status : Z)
| Uncaught (e : exn).

(** What [subprocess.run(..., capture_output=True, text=True)] hands back. *)
Record CompletedProcess : Type := {
  returncode : Z;
  stdout : string;
  stderr : string
}.

(** *** The string methods the programs use *)
Module Python.
Local Open Scope string_scope.

Definition LF : ascii := "010"%char.
Definition CR : ascii := "013"%char.

(** [str.isspace] on the characters below 256. *)
Definition isspace (c : ascii) : bool :=
  let n := nat_of_ascii c in
  ((9 <=? n) && (n <=? 13) || (28 <=? n) && (n <=? 32) || (n =? 133) || (n =? 160))%nat.

Fixpoint lstrip (s : string) : string :=
  match s with
  | EmptyString => EmptyString
  | String c s' => if isspace c then lstrip s' else s
  end.

Fixpoint rstrip (s : string) : string :=
  match s with
  | EmptyString => EmptyString
  | String c s' =>
      match rstrip s' with
      | EmptyString => if isspace c then EmptyString else String c EmptyString
      | r => String c r
      end
  end.

(** [s.strip()] *)
Definition strip (s : string) : string := rstrip (lstrip s).

(** [s.split(sep)] for a one-character separator: never an empty list. *)
Fixpoint split (sep : ascii) (s : string) : list string :=
  match s with
  | EmptyString => [EmptyString]
  | String c s' =>
      if Ascii.eqb c sep then EmptyString :: split sep s'
      else match split sep s' with
           | seg :: rest => String c seg :: rest
           | [] => [String c EmptyString]
           end
  end.

(** [c in s] for a one-character [c]. *)
Fixpoint contains (c : ascii) (s : string) : bool :=
  match s with
  | EmptyString => false
  | String c' s' => Ascii.eqb c' c || contains c s'
  end.

(** [sep.join(items)] *)
Definition join (sep : string) (items : list string) : string := String.concat sep items.

(** What [print] writes for each call in turn: the text and a line feed. *)
Fixpoint printed (texts : list string) : string :=
  match texts with
  | [] => EmptyString
  | t :: texts' => t ++ String LF (printed texts')
  end.

(** Reading a pipe in text mode: a carriage return, with the line feed that
    follows it if there is one, arrives as one line feed. *)
Fixpoint universal_newlines (after_CR : bool) (s : string) : string :=
  match s with
  | EmptyString => EmptyString
  | String c s' =>
      if Ascii.eqb c LF && after_CR then universal_newlines false s'
      else if Ascii.eqb c CR then String LF (universal_newlines true s')
      else String c (universal_newlines false s')
  end.

End Python.

(** *** [src/programs/coolprop_cli.py] *)
Module CoolPropCLI.
Local Open Scope string_scope.

Definition list_common_fluids : list string :=
  ["Water"; "Air"; "R134a"; "R410A"; "R22"; "R32"; "CO2"; "Ammonia";
   "Propane"; "Butane"; "Methane"; "Ethane"; "Nitrogen"; "Oxygen";
   "Helium"; "Hydrogen"; "Argon"; "R404A"; "R407C"; "R507A"].

Definition usage : list string :=
  ["Usage: python coolprop_cli.py <property> <input1_type> <input1_value> <input2_type> <input2_value> [fluid]";
   "Example: python coolprop_cli.py H P 101325 T 373.15 Water";
   "Example: python coolprop_cli.py H P 101325 T 300 Air";
   "Example: python coolprop_cli.py S P 500000 T 273.15 R134a";
   String Python.LF "Common fluids: " ++ Python.join ", " list_common_fluids;
   String Python.LF "Supported properties: H (Enthalpy), S (Entropy), Q (Quality), T (Temperature), P (Pressure), D (Density), U (Internal Energy), etc.";
   "Supported input types: T (Temperature, K), P (Pressure, Pa), Q (Quality), D (Density, kg/m^3), H (Enthalpy, J/kg), S (Entropy, J/kg/K)"].

Section Main.
(** The CoolProp library call, and Python's [float(text)], [str(number)] and
    [str(exception)]. *)
Variable PropsSI : string -> string -> float -> string -> float -> string -> result float.
Variable float_of_str : string -> result float.
Variable str_of_float : float -> string.
Variable str_of_exn : exn -> string.

Definition result_line (prop in1_type : string) (in1_val : float) (in2_type : string)
    (in2_val : float) (fluid : string) (result : float) : string :=
  prop ++ " at " ++ in1_type ++ "=" ++ str_of_float in1_val ++ ", " ++
  in2_type ++ "=" ++ str_of_float in2_val ++ " for " ++ fluid ++ ": " ++ str_of_float result.

Definition error_lines (fluid : string) (e : exn) : list string :=
  ["Error: " ++ str_of_exn e;
   "Make sure '" ++ fluid ++ "' is a valid CoolProp fluid name.";
   "Common fluids: " ++ Python.join ", " list_common_fluids;
   String Python.LF "For a complete list of fluids, visit: http://www.coolprop.org/fluid_properties/PurePseudoPure.html"].

(** [main()], on [sys.argv]: what it prints, call by call, and how it ends. *)
Definition main (argv : list string) : list string * termination :=
  if (List.length argv <? 6)%nat then (usage, Exited 1)
  else
    let prop := nth 1 argv EmptyString in
    let in1_type := nth 2 argv EmptyString in
    match float_of_str (nth 3 argv EmptyString) with
    | inl e => ([], Uncaught e)
    | inr in1_val =>
        let in2_type := nth 4 argv EmptyString in
        match float_of_str (nth 5 argv EmptyString) with
        | inl e => ([], Uncaught e)
        | inr in2_val =>
            let fluid := if (6 <? List.length argv)%nat then nth 6 argv EmptyString else "Water" in
            match PropsSI prop in1_type in1_val in2_type in2_val fluid with
            | inr result =>
                ([result_line prop in1_type in1_val in2_type in2_val fluid result], Returned)
            | inl e => (error_lines fluid e, Returned)
            end
        end
    end.

End Main.
End CoolPropCLI.

(** *** [call_coolprop_cli] and [main] of [property_solver.py] *)
Module PropertySolverCLI.
Local Open Scope string_scope.

(** The three ways the [try] body of [call_coolprop_cli] ends. *)
Inductive attempt : Type :=
| Value (x : float)
| CalledProcessError (stderr : string)
| Raised (e : exn).

(** What [main] prints. *)
Inductive line : Type :=
| Doc
| Solver (l : PropertySolver.line float)
| Solution (unknown_prop : string) (solved_value : float)
| Error (e : exn).

Section Program.
(** [subprocess.run(cmd, capture_output=True, text=True)] without the check
    of the exit status, and Python's [float(text)] and [str(number)]. *)
Variable subprocess_run : list string -> result CompletedProcess.
Variable float_of_str : string -> result float.
Variable str_of_float : float -> string.

Definition parse_output (stdout : string) : attempt :=
  let output_lines := Python.split Python.LF (Python.strip stdout) in
  let last_line := last output_lines EmptyString in
  if Python.contains ":" last_line then
    let value_str := Python.strip (last (Python.split ":" last_line) EmptyString) in
    match float_of_str value_str with
    | inr x => Value x
    | inl e => Raised e
    end
  else Raised (ValueError ("Unexpected output format: " ++ last_line)).

Definition call_coolprop_cli (prop input1_type : string) (input1_value : float)
    (input2_type : string) (input2_value : float) (fluid : string) : result float :=
  let cmd := ["python"; "coolprop_cli.py"; prop;
              input1_type; str_of_float input1_value;
              input2_type; str_of_float input2_value;
              fluid] in
  let body :=
    match subprocess_run cmd with
    | inl e => Raised e
    | inr result =>
        if (returncode result =? 0)%Z then parse_output (stdout result)
        else CalledProcessError (stderr result)
    end in
  match body with
  | Value x => ok x
  | CalledProcessError err => throw (RuntimeError ("CoolProp CLI failed: " ++ err))
  | Raised (ValueError m) => throw (RuntimeError ("Failed to parse CoolProp output: " ++ m))
  | Raised e => throw e
  end.

Local Open Scope result_scope.

(** The numbers [main] reads from [sys.argv], in the order it reads them. *)
Definition read_arguments (argv : list string)
  : result (float * float * float * float * float) :=
  target_value <~ float_of_str (nth 2 argv EmptyString) ;;
  known_value <~ float_of_str (nth 4 argv EmptyString) ;;
  min_guess <~ float_of_str (nth 6 argv EmptyString) ;;
  max_guess <~ float_of_str (nth 7 argv EmptyString) ;;
  tolerance <~ (if (9 <? List.length argv)%nat then float_of_str (nth 9 argv EmptyString)
                else ok default_tolerance) ;;
  ok (target_value, known_value, min_guess, max_guess, tolerance).

Definition main (argv : list string) : list line * termination :=
  if (List.length argv <? 8)%nat then ([Doc], Exited 1)
  else
    let target_prop := nth 1 argv EmptyString in
    let known_prop := nth 3 argv EmptyString in
    let unknown_prop := nth 5 argv EmptyString in
    match read_arguments argv with
    | inl e => ([], Uncaught e)
    | inr (target_value, known_value, min_guess, max_guess, tolerance) =>
        let fluid := if (8 <? List.length argv)%nat then nth 8 argv EmptyString else "Water" in
        let '(out, r) :=
          PropertySolver.solve_property call_coolprop_cli
            target_prop target_value known_prop known_value unknown_prop
            min_guess max_guess fluid tolerance default_max_iterations in
        match r with
        | inr (solved_value, actual_value, iterations) =>
            ((map Solver out ++ [Solution unknown_prop solved_value])%list, Returned)
        | inl e => ((map Solver out ++ [Error e])%list, Exited 1)
        end
    end.

End Program.
End PropertySolverCLI.

(** *** One program run by another *)

(** The child process of [subprocess.run(cmd, ...)] when [cmd] is the
    interpreter followed by the script and its arguments, and the script is
    [program]: [sys.argv] is the command without the interpreter; what the
    script prints arrives as text read in universal-newlines mode; a script
    that returns has status 0, one that dies of an exception has status 1 and
    its traceback on the error stream. *)
Definition python (program : list string -> list string * termination)
    (traceback : exn -> string) (cmd : list string) : result CompletedProcess :=
  let '(texts, t) := program (tl cmd) in
  ok {| returncode := match t with
                      | Returned => 0
                      | Exited status => status
                      | Uncaught _ => 1
                      end;
        stdout := Python.universal_newlines false (Python.printed texts);
        stderr := match t with
                  | Uncaught e => traceback e
                  | _ => EmptyString
                  end |}.

(** *** Vocabulary of the command-line layer *)

(** [property_solver.py] run where [python coolprop_cli.py] starts
    [src/programs/coolprop_cli.py] over the library call [PropsSI]. *)
Definition coolprop_stack
    (PropsSI : string -> string -> float -> string -> float -> string -> result float)
    (float_of_str : string -> result float) (str_of_float : float -> string)
    (str_of_exn traceback : exn -> string)
  : string -> string -> float -> string -> float -> string -> result float :=
  PropertySolverCLI.call_coolprop_cli
    (python (CoolPropCLI.main PropsSI float_of_str str_of_float str_of_exn) traceback)
    float_of_str str_of_float.

Fixpoint every (p : ascii -> bool) (s : string) : bool :=
  match s with
  | EmptyString => true
  | String c s' => p c && every p s'
  end.

(** A text as [str] gives for a number: not empty, no white space, no colon. *)
Definition number_text (s : string) : bool :=
  negb (String.eqb s EmptyString) &&
  every (fun c => negb (Python.isspace c) && negb (Ascii.eqb c ":")) s.

(** What follows the last [sep] of [s]; all of [s] if it has none. *)
Fixpoint tail_segment (sep : ascii) (s : string) : string :=
  match s with
  | EmptyString => EmptyString
  | String c s' =>
      if Python.contains sep s' then tail_segment sep s'
      else if Ascii.eqb c sep then s' else s
  end.

(** The part of the last line the failing [coolprop_cli.py] prints that
    follows its last colon. *)
Definition address_tail : string :=
  "//www.coolprop.org/fluid_properties/PurePseudoPure.html".

(** A fragment of Python's [float(text)] and [str(number)], enough for the
    runs below. *)
Definition sample_float_of_str (s : string) : result float :=
  if String.eqb s "4468.75" then ok 4468.75%float
  else if String.eqb s "100000" then ok 100000%float
  else if String.eqb s "100000.0" then ok 100000%float
  else if String.eqb s "300" then ok 300%float
  else if String.eqb s "1500" then ok 1500%float
  else if String.eqb s "900.0" then ok 900%float
  else throw (ValueError ("could not convert string to float: '" ++ s ++ "'")).

Definition sample_str_of_float (x : float) : string :=
  if PrimFloat.eqb x 4468.75%float then "4468.75"
  else if PrimFloat.eqb x 100000%float then "100000.0"
  else if PrimFloat.eqb x 900%float then "900.0"
  else "nan".

Definition sample_str_of_exn (e : exn) : string :=
  match e with
  | ZeroDivisionError => "float division by zero"
  | UnboundLocalError name =>
      "cannot access local variable '" ++ name ++ "' where it is not associated with a value"
  | TypeError m | RuntimeError m | ValueError m => m
  end.

Definition sample_argv : list string :=
  ["property_solver.py"; "S"; "4468.75"; "P"; "100000"; "T"; "300"; "1500"; "Air"]%string.

(** ** The script of [fluid-separator.py] (lines 155-204) *)
Module SeparatorScript.
Import FluidSeparator.

(** What the script prints. *)
Inductive line : Type :=
| Heading (title : string)
| QualityAfterThrottling (x_out : float)
| Shown (text : string)
| VaporCoolerDuty (q_dot_kW : float)
| LiquidHeaterDuty (q_dot_kW : float)
| MixerOutlet (T_out m_dot_out : float)
| ComponentLoss (name : string) (xd_kW : float)
| TotalLoss (xd_kW : float)
| DominantComponent (name : string).

(** A method call [self.m(...)] from a caller that prints lines of its own:
    the object after the call and what the call returned. *)
Definition on_object {L S A : Type} (self : S) (m : M Empty_set S A) : M L unit (S * A) :=
  fun u =>
    let '(_, self', r) := m self in
    ([], u, match r with
            | inl e => inl e
            | inr a => inr (self', a)
            end).

(** [max(components, key=components.get)] on the items of the dict in
    insertion order: a later key replaces the best one so far only if its
    value is greater. *)
Fixpoint max_by_value (best : string * float) (items : list (string * float)) : string :=
  match items with
  | [] => fst best
  | item :: items' =>
      if PrimFloat.ltb (snd best) (snd item) then max_by_value item items'
      else max_by_value best items'
  end.

Definition max_key (components : list (string * float)) : result string :=
  match components with
  | [] => throw (ValueError "max() arg is an empty sequence")
  | item :: items => ok (max_by_value item items)
  end.

Section Script.
Variable PropsSI : string -> string -> float -> string -> float -> string -> result float.
Variable fmt : nat -> float -> string.

Local Open Scope float_scope.
Local Open Scope proc_scope.

(** The loop over [components.items()], with [total_xd] as accumulator. *)
Fixpoint report_components (items : list (string * float)) (total_xd : float)
  : M line unit float :=
  match items with
  | [] => ret total_xd
  | (name, xd) :: items' =>
      print (ComponentLoss name (xd / 1000)) ;;
      report_components items' (total_xd + xd)
  end.

(** The whole script; it returns the final values of [components],
    [total_xd] and [dominant]. *)
Definition script : M line unit (list (string * float) * float * string) :=
  let fluid := "Propane"%string in
  let P2 := 650000 in
  parts <- lift (part_A PropsSI) ;;
  let '(valve, separator) := parts in
  print (Heading "=== PART A ===") ;;
  print (QualityAfterThrottling (Throttle.x_out valve)) ;;
  shown <- on_object separator (FlashSeparator.__repr__ fmt) ;;
  let '(separator, text) := shown in
  print (Shown text) ;;
  vapor_cooler <- lift (HeatExchanger.__init__ PropsSI fluid
                          (FlashSeparator.h_vap separator) (FlashSeparator.s_vap separator)
                          P2 305 (FlashSeparator.m_dot_vap separator)) ;;
  liquid_heater <- lift (HeatExchanger.__init__ PropsSI fluid
                           (FlashSeparator.h_liq separator) (FlashSeparator.s_liq separator)
                           P2 345 (FlashSeparator.m_dot_liq separator)) ;;
  print (Heading (newline ++ "=== PART B ===")) ;;
  print (VaporCoolerDuty (HeatExchanger.q_dot vapor_cooler / 1000)) ;;
  print (LiquidHeaterDuty (HeatExchanger.q_dot liquid_heater / 1000)) ;;
  mixer <- lift (Mixer.__init__ PropsSI fluid
                   (HeatExchanger.h_out vapor_cooler) (HeatExchanger.s_out vapor_cooler)
                   (FlashSeparator.m_dot_vap separator)
                   (HeatExchanger.h_out liquid_heater) (HeatExchanger.s_out liquid_heater)
                   (FlashSeparator.m_dot_liq separator) P2) ;;
  print (MixerOutlet (Mixer.T_out mixer) (Mixer.m_dot_out mixer)) ;;
  print (Heading (newline ++ "=== PART C ===")) ;;
  let T0 := 300 in
  let xd_throttle := Throttle.exergy_destruction valve T0 in
  called <- on_object separator (FlashSeparator.exergy_destruction PropsSI T0) ;;
  let '(separator, xd_separator) := called in
  xd_cooler <- lift (HeatExchanger.exergy_destruction vapor_cooler T0 (Some T0)) ;;
  xd_heater <- lift (HeatExchanger.exergy_destruction liquid_heater T0 (Some 450)) ;;
  let xd_mixer := Mixer.exergy_destruction mixer T0 in
  let components :=
    [("Throttle"%string, xd_throttle); ("Flash Separator"%string, xd_separator);
     ("Vapor Cooler"%string, xd_cooler); ("Liquid Heater"%string, xd_heater);
     ("Mixer"%string, xd_mixer)] in
  total_xd <- report_components components 0 ;;
  print (TotalLoss (total_xd / 1000)) ;;
  dominant <- lift (max_key components) ;;
  print (DominantComponent dominant) ;;
  ret (components, total_xd, dominant).

End Script.
End SeparatorScript.

(** *** Vocabulary of the script *)
Section ScriptVocabulary.
Import FluidSeparator SeparatorScript.
Local Open Scope float_scope.

(** The five components of Part C, from the objects of Parts A and B. *)
Definition components_of (valve : Throttle.t float) (separator : FlashSeparator.t float)
    (vapor_cooler liquid_heater : HeatExchanger.t float) (mixer : Mixer.t float)
  : list (string * float) :=
  [("Throttle"%string, Throttle.exergy_destruction valve 300);
   ("Flash Separator"%string,
    300 * (FlashSeparator.m_dot_vap separator * FlashSeparator.s_vap separator
           + FlashSeparator.m_dot_liq separator * FlashSeparator.s_liq separator
           - FlashSeparator.m_dot separator * Throttle.s_out valve));
   ("Vapor Cooler"%string,
    300 * (HeatExchanger.m_dot vapor_cooler
           * (HeatExchanger.s_out vapor_cooler - HeatExchanger.s_in vapor_cooler)
           - HeatExchanger.q_dot vapor_cooler / 300));
   ("Liquid Heater"%string,
    300 * (HeatExchanger.m_dot liquid_heater
           * (HeatExchanger.s_out liquid_heater - HeatExchanger.s_in liquid_heater)
           - HeatExchanger.q_dot liquid_heater / 450));
   ("Mixer"%string, Mixer.exergy_destruction mixer 300)].

(** What the script prints when it runs to its end. *)
Definition transcript (fmt : nat -> float -> string)
    (valve : Throttle.t float) (separator : FlashSeparator.t float)
    (vapor_cooler liquid_heater : HeatExchanger.t float) (mixer : Mixer.t float)
  : list line :=
  let components := components_of valve separator vapor_cooler liquid_heater mixer in
  [Heading "=== PART A ===";
   QualityAfterThrottling (Throttle.x_out valve);
   Shown (match snd (FlashSeparator.__repr__ fmt separator) with
          | inr text => text
          | inl _ => EmptyString
          end);
   Heading (newline ++ "=== PART B ===");
   VaporCoolerDuty (HeatExchanger.q_dot vapor_cooler / 1000);
   LiquidHeaterDuty (HeatExchanger.q_dot liquid_heater / 1000);
   MixerOutlet (Mixer.T_out mixer) (Mixer.m_dot_out mixer);
   Heading (newline ++ "=== PART C ===")]
  ++ map (fun item => ComponentLoss (fst item) (snd item / 1000)) components
  ++ [TotalLoss (fold_left (fun total item => total + snd item) components 0 / 1000);
      DominantComponent (max_by_value (hd ("Throttle"%string, 0) components)
                                      (tl components))].

End ScriptVocabulary.

(** ** The log of the solver *)

(** The numbers of the rounds reported in the output, in the order printed. *)
Definition round_numbers {F} (o : list (PropertySolver.line F)) : list Z :=
  flat_map (fun l => match l with
                     | PropertySolver.Iter number _ _ _ => [number]
                     | PropertySolver.IterError number _ _ => [number]
                     | _ => []
                     end) o.

(** [i + 1, i + 2, ..., i + k] *)
Fixpoint count_from (i : Z) (k : nat) : list Z :=
  match k with
  | O => []
  | Datatypes.S k' => (i + 1)%Z :: count_from (i + 1) k'
  end.

(* ================================================================== *)
(** * Part VI. Properties *)
(* ================================================================== *)

(** ** Generic steps *)

Lemma rbind_inr {A B} (r : result A) (k : A -> result B) (b : B) :
  rbind r k = inr b -> exists a, r = inr a /\ k a = inr b.
Proof.
  destruct r as [e | a]; simpl; intros E; [discriminate | eauto].
Qed.

Ltac invert_rbind E :=
  let a := fresh "v" in
  let Ea := fresh "E" a in
  apply rbind_inr in E; destruct E as (a & Ea & E).

(** One more round of a [for] loop. *)
Lemma for_from_unfold {L S R : Type} (n : nat) (i : Z)
    (round : Z -> M L S (option R)) (s : S) :
  for_from (Datatypes.S n) i round s =
    match round i s with
    | (o, s1, inl e) => (o, s1, inl e)
    | (o, s1, inr (Some x)) => (o ++ [], s1, inr (Some x))
    | (o, s1, inr None) =>
        match for_from n (i + 1)%Z round s1 with
        | (o', s2, r) => (o ++ o', s2, r)
        end
    end.
Proof.
  simpl. unfold bind. destruct (round i s) as [[o s1] [e | [x |]]]; reflexivity.
Qed.

Section ThrottleFacts.
Import FluidSeparator.
Context {F : Type} `{Arith F}.
Variable PropsSI : string -> string -> F -> string -> F -> string -> result F.

(** C9. Every constructed Throttle is isenthalpic: its outlet enthalpy is the
    very value looked up for the inlet at [(T_in, P_in)], whatever the service
    answers to the entropy and quality queries. *)
Theorem throttle_isenthalpic (fluid : string) (T_in P_in P_out m_dot : F)
    (valve : Throttle.t F) :
  Throttle.__init__ PropsSI fluid T_in P_in P_out m_dot = inr valve ->
  Throttle.h_out valve = Throttle.h_in valve /\
  PropsSI "H" "T" T_in "P" P_in fluid = inr (Throttle.h_in valve).
Proof.
  unfold Throttle.__init__; intros E.
  invert_rbind E. invert_rbind E. invert_rbind E. invert_rbind E.
  injection E as <-. simpl. split; [reflexivity | assumption].
Qed.

End ThrottleFacts.

(** The throttle of the Propane scenario over a service that answers 0.5. *)
Lemma throttle_isenthalpic_witness :
  exists valve : FluidSeparator.Throttle.t float,
    FluidSeparator.Throttle.__init__ (constant_service 0.5%float)
      "Propane" 330%float 2500000%float 650000%float 1.5%float = inr valve /\
    FluidSeparator.Throttle.h_out valve = FluidSeparator.Throttle.h_in valve.
Proof.
  eexists; split; [reflexivity |].
  exact (proj1 (throttle_isenthalpic (constant_service 0.5%float)
                  "Propane" 330%float 2500000%float 650000%float 1.5%float
                  _ eq_refl)).
Defined.

Section MixerFacts.
Import FluidSeparator.

(** The balances of [Mixer.__init__] in any arithmetic: the outlet flow is the
    sum of the inlet flows, which is not zero, and the outlet enthalpy is the
    quotient the constructor computes. *)
Lemma mixer_balance {F : Type} `{Arith F}
    (PropsSI : string -> string -> F -> string -> F -> string -> result F)
    (fluid : string) (h_1 s_1 m_dot_1 h_2 s_2 m_dot_2 P : F) (mixer : Mixer.t F) :
  Mixer.__init__ PropsSI fluid h_1 s_1 m_dot_1 h_2 s_2 m_dot_2 P = inr mixer ->
  Mixer.m_dot_out mixer = add m_dot_1 m_dot_2 /\
  Mixer.h_out mixer = fdiv (add (mul m_dot_1 h_1) (mul m_dot_2 h_2)) (add m_dot_1 m_dot_2) /\
  feq (add m_dot_1 m_dot_2) (lit 0) = false.
Proof.
  unfold Mixer.__init__; intros E.
  invert_rbind E. invert_rbind E. invert_rbind E.
  injection E as <-. simpl.
  unfold truediv in Ev.
  destruct (feq (add m_dot_1 m_dot_2) (lit 0)); [discriminate |].
  injection Ev as <-. repeat split.
Qed.

Local Open Scope float_scope.

(** C8. For every Mixer the program constructs (binary64 arithmetic), the
    outlet flow is [m1 + m2] and the outlet enthalpy is the flow-weighted
    average [(m1*h1 + m2*h2) / (m1 + m2)]; with [h1 = 100000], [h2 = 300000]
    and unit flows the outlet enthalpy is exactly [200000]. *)
Theorem mixer_energy_balance
    (PropsSI : string -> string -> float -> string -> float -> string -> result float)
    (fluid : string) (h_1 s_1 m_dot_1 h_2 s_2 m_dot_2 P : float) (mixer : Mixer.t float) :
  Mixer.__init__ PropsSI fluid h_1 s_1 m_dot_1 h_2 s_2 m_dot_2 P = inr mixer ->
  Mixer.m_dot_out mixer = m_dot_1 + m_dot_2 /\
  Mixer.h_out mixer = (m_dot_1 * h_1 + m_dot_2 * h_2) / (m_dot_1 + m_dot_2) /\
  (h_1 = 100000 -> m_dot_1 = 1 -> h_2 = 300000 -> m_dot_2 = 1 ->
   Mixer.h_out mixer = 200000).
Proof.
  intros E. destruct (mixer_balance _ _ _ _ _ _ _ _ _ _ E) as (Em & Eh & _).
  repeat split; try assumption.
  intros -> -> -> ->. rewrite Eh. reflexivity.
Qed.

(** X3. A Mixer whose inlet flows add up to zero cannot be constructed: the
    energy balance raises [ZeroDivisionError] before any lookup. *)
Theorem mixer_zero_flow
    (PropsSI : string -> string -> float -> string -> float -> string -> result float)
    (fluid : string) (h_1 s_1 m_dot_1 h_2 s_2 m_dot_2 P : float) :
  (m_dot_1 + m_dot_2 =? 0) = true ->
  Mixer.__init__ PropsSI fluid h_1 s_1 m_dot_1 h_2 s_2 m_dot_2 P = inl ZeroDivisionError.
Proof.
  intros E. unfold Mixer.__init__, truediv; simpl. rewrite E. reflexivity.
Qed.

End MixerFacts.

(** X3, two closed inlets. *)
Lemma mixer_zero_flow_witness :
  FluidSeparator.Mixer.__init__ (constant_service 300%float) "Propane"
    100000%float 1000%float 0%float 300000%float 2000%float 0%float 650000%float
    = inl ZeroDivisionError.
Proof.
  exact (mixer_zero_flow (constant_service 300%float) "Propane"
           100000%float 1000%float 0%float 300000%float 2000%float 0%float
           650000%float eq_refl).
Defined.

(** The scenario of the specification, at a common pressure of 0.65 MPa. *)
Lemma mixer_energy_balance_witness :
  exists mixer : FluidSeparator.Mixer.t float,
    FluidSeparator.Mixer.__init__ (constant_service 300%float) "Propane"
      100000%float 1000%float 1%float 300000%float 2000%float 1%float 650000%float
      = inr mixer /\
    FluidSeparator.Mixer.m_dot_out mixer = 2%float /\
    FluidSeparator.Mixer.h_out mixer = 200000%float.
Proof.
  eexists; split; [reflexivity |].
  pose proof (mixer_energy_balance (constant_service 300%float) "Propane"
                100000%float 1000%float 1%float 300000%float 2000%float 1%float
                650000%float _ eq_refl) as (Em & _ & Eh).
  split; [exact Em | exact (Eh eq_refl eq_refl eq_refl eq_refl)].
Defined.

Section FlashSeparatorFacts.
Import FluidSeparator.

(** The split of [FlashSeparator.__init__] in any arithmetic. *)
Lemma flash_split {F : Type} `{Arith F}
    (PropsSI : string -> string -> F -> string -> F -> string -> result F)
    (fluid : string) (P x_in m_dot : F) (s_in : option F) (separator : FlashSeparator.t F) :
  FlashSeparator.__init__ PropsSI fluid P x_in m_dot s_in = inr separator ->
  FlashSeparator.m_dot_vap separator = mul x_in m_dot /\
  FlashSeparator.m_dot_liq separator = mul (sub (lit 1) x_in) m_dot /\
  FlashSeparator.m_dot separator = m_dot /\
  FlashSeparator.x_in separator = x_in /\
  FlashSeparator.s_in separator = s_in.
Proof.
  unfold FlashSeparator.__init__; intros E.
  do 6 invert_rbind E.
  injection E as <-. simpl. repeat split.
Qed.

End FlashSeparatorFacts.

Section FlashSeparatorBalance.
Import FluidSeparator.
Local Open Scope float_scope.
Variable PropsSI : string -> string -> float -> string -> float -> string -> result float.

Lemma part_A_objects (valve : Throttle.t float) (separator : FlashSeparator.t float) :
  part_A PropsSI = inr (valve, separator) ->
  Throttle.__init__ PropsSI "Propane" 330 2500000 650000 1.5 = inr valve /\
  FlashSeparator.__init__ PropsSI "Propane" 650000 (Throttle.x_out valve) 1.5
    (Some (Throttle.s_out valve)) = inr separator.
Proof.
  unfold part_A.
  destruct (Throttle.__init__ PropsSI "Propane" 330 2500000 650000 1.5)
    as [e | v]; cbn [rbind]; [discriminate |].
  destruct (FlashSeparator.__init__ PropsSI "Propane" 650000 (Throttle.x_out v) 1.5
              (Some (Throttle.s_out v))) as [e | s] eqn:ES; cbn [rbind]; [discriminate |].
  intros [= <- <-]. split; [reflexivity | exact ES].
Qed.

Lemma throttle_quality (fluid : string) (T_in P_in P_out m_dot : float)
    (valve : Throttle.t float) :
  Throttle.__init__ PropsSI fluid T_in P_in P_out m_dot = inr valve ->
  PropsSI "Q" "H" (Throttle.h_out valve) "P" P_out fluid = inr (Throttle.x_out valve).
Proof.
  unfold Throttle.__init__; intros E.
  do 3 invert_rbind E.
  destruct (PropsSI "Q" "H" _ "P" P_out fluid) as [e | x] eqn:Ex; cbn [rbind] in E;
    [discriminate E |].
  injection E as <-. exact Ex.
Qed.


End FlashSeparatorBalance.



Section FlashSeparatorFrame.
Import FluidSeparator.
Import FlashSeparator.
Context {F : Type} `{Arith F}.
Variable PropsSI : string -> string -> F -> string -> F -> string -> result F.
Variable fmt : nat -> F -> string.

Lemma set_s_in_frame (v : option F) (self : FlashSeparator.t F) :
  same_but_s_in (set_s_in v self) self /\ s_in (set_s_in v self) = v.
Proof.
  unfold same_but_s_in; simpl; repeat split.
Qed.

(** With the inlet entropy present the method only reads the object. *)
Lemma exergy_destruction_known (T0 s : F) (self : FlashSeparator.t F) :
  s_in self = Some s ->
  exergy_destruction PropsSI T0 self =
    ([], self,
     inr (mul T0 (sub (add (mul (m_dot_vap self) (s_vap self))
                           (mul (m_dot_liq self) (s_liq self)))
                      (mul (m_dot self) s)))).
Proof.
  intros E. unfold exergy_destruction, bind, get, ret; simpl.
  rewrite E; simpl. rewrite E. reflexivity.
Qed.

(** C10. [__repr__] leaves a FlashSeparator as it is; so does
    [exergy_destruction] when [s_in] is present.  When [s_in] is [None], a call
    that raises leaves the object as it is, and a call that returns has looked
    up the mixture enthalpy and from it the inlet entropy, stored that entropy
    in [s_in] and changed no other attribute; a further call with the same
    [T0] then leaves the object unchanged and returns the same value. *)
Theorem flash_exergy_destruction_frame (T0 : F) (self : FlashSeparator.t F) :
  (exists text, __repr__ fmt self = ([], self, inr text)) /\
  (forall s, s_in self = Some s ->
     exists value, exergy_destruction PropsSI T0 self = ([], self, inr value)) /\
  (s_in self = None ->
     match exergy_destruction PropsSI T0 self with
     | (_, self', inl _) => self' = self
     | (_, self', inr value) =>
         exists h_mix s,
           PropsSI "H" "P" (P self) "Q" (x_in self) (fluid self) = inr h_mix /\
           PropsSI "S" "H" h_mix "P" (P self) (fluid self) = inr s /\
           self' = set_s_in (Some s) self /\
           s_in self' = Some s /\
           same_but_s_in self' self /\
           exergy_destruction PropsSI T0 self' = ([], self', inr value)
     end).
Proof.
  split; [| split].
  - eexists. reflexivity.
  - intros s E. eexists. apply exergy_destruction_known, E.
  - intros E.
    unfold exergy_destruction at 1. unfold bind, get, ret, lift, modify, raise; simpl.
    rewrite E; simpl.
    destruct (PropsSI "H" "P" (P self) "Q" (x_in self) (fluid self)) as [e | h_mix] eqn:Eh;
      simpl; [reflexivity |].
    destruct (PropsSI "S" "H" h_mix "P" (P self) (fluid self)) as [e | s] eqn:Es;
      simpl; [reflexivity |].
    exists h_mix, s.
    split; [reflexivity |]. split; [exact Es |]. split; [reflexivity |].
    split; [reflexivity |]. split; [apply set_s_in_frame |].
    rewrite (exergy_destruction_known T0 s (set_s_in (Some s) self) eq_refl).
    reflexivity.
Qed.

End FlashSeparatorFrame.

(** C10, a run: a separator built without [s_in] over a service that answers
    7.0 to every query.  The first call stores the entropy 7.0 and changes no
    other attribute; the second call finds the object as the first left it
    and returns the same value. *)
Lemma flash_exergy_destruction_frame_witness :
  exists (separator after : FluidSeparator.FlashSeparator.t float) (value : float),
    FluidSeparator.FlashSeparator.__init__ (constant_service 7%float) "Propane"
      650000%float 0.5%float 1.5%float None = inr separator /\
    FluidSeparator.FlashSeparator.s_in separator = None /\
    FluidSeparator.FlashSeparator.exergy_destruction (constant_service 7%float)
      300%float separator = ([], after, inr value) /\
    FluidSeparator.FlashSeparator.s_in after = Some 7%float /\
    same_but_s_in after separator /\
    FluidSeparator.FlashSeparator.exergy_destruction (constant_service 7%float)
      300%float after = ([], after, inr value).
Proof.
  pose (separator := FluidSeparator.FlashSeparator.Make "Propane"
                       650000%float 0.5%float 1.5%float None 0.75%float 0.75%float
                       7%float 7%float 7%float 7%float 7%float 7%float).
  pose proof (proj2 (proj2 (flash_exergy_destruction_frame (constant_service 7%float)
                              (fun _ _ => EmptyString) 300%float separator))
                eq_refl) as Hcall.
  cbv in Hcall.
  destruct Hcall as (h_mix & s & _ & Es & Eafter & Esin & Hframe & Hagain).
  injection Es as <-.
  exists separator. eexists. eexists.
  split; [reflexivity |]. split; [reflexivity |]. split; [reflexivity |].
  split; [reflexivity |]. split; [exact Hframe | exact Hagain].
Defined.

(** ** The bisection solver *)

Section SolverFacts.
Import PropertySolver.
Context {F : Type} `{Arith F}.
Variable call_coolprop_cli : string -> string -> F -> string -> F -> string -> result F.
Variables (target_prop : string) (target_value : F)
          (known_prop : string) (known_value : F) (unknown_prop : string)
          (min_guess max_guess : F) (fluid : string)
          (tolerance : F) (max_iterations : Z).

Local Notation "'look'" :=
  (lookup call_coolprop_cli target_prop known_prop known_value unknown_prop fluid).
Local Notation "'body'" :=
  (iteration_body call_coolprop_cli target_prop target_value known_prop known_value
                  unknown_prop fluid tolerance).
Local Notation "'loop'" :=
  (bisection_loop call_coolprop_cli target_prop target_value known_prop known_value
                  unknown_prop fluid tolerance max_iterations).
Local Notation "'finish'" :=
  (after_loop call_coolprop_cli target_prop target_value known_prop known_value
              unknown_prop fluid max_iterations).
Local Notation "'solve'" :=
  (solve_property call_coolprop_cli target_prop target_value known_prop known_value
                  unknown_prop min_guess max_guess fluid tolerance max_iterations).
Local Notation "'entry'" := (entry_locals min_guess max_guess).
Local Notation "'heading'" :=
  (banner target_prop target_value known_prop known_value unknown_prop
          min_guess max_guess fluid tolerance max_iterations).

(** *** One round of the loop, case by case *)

Lemma narrow_bound (a guess : F) (s : locals F) :
  actual_value s = Some a ->
  narrow target_value guess s = ([], narrowed target_value a guess s, inr tt).
Proof.
  intros E.
  unfold narrow, read_actual_value, set_low, set_high, modify, bind, get, ret, narrowed;
    simpl.
  rewrite E; simpl.
  destruct (flt a target_value); simpl; rewrite ?E; reflexivity.
Qed.

Lemma narrow_unbound (guess : F) (s : locals F) :
  actual_value s = None ->
  narrow target_value guess s = ([], s, inl (UnboundLocalError "actual_value")).
Proof.
  intros E. unfold narrow, read_actual_value, bind, get, ret, raise; simpl.
  rewrite E; reflexivity.
Qed.

(** The handler of the [except] clause, entered with exception [e]. *)
Lemma body_handler (i : Z) (s : locals F) (e : exn) :
  lookup call_coolprop_cli target_prop known_prop known_value unknown_prop fluid
         (midpoint s) = inl e ->
  body i s =
    if (i =? 0)%Z then ([IterError (i + 1) (midpoint s) e], s, inl e)
    else match actual_value s with
         | Some a => ([IterError (i + 1) (midpoint s) e],
                      narrowed target_value a (midpoint s) s, inr None)
         | None => ([IterError (i + 1) (midpoint s) e], s,
                    inl (UnboundLocalError "actual_value"))
         end.
Proof.
  intros E.
  unfold iteration_body, bind, get, try_except, lift, print, ret, raise; simpl.
  rewrite E; simpl.
  destruct (i =? 0)%Z; [reflexivity |].
  destruct (actual_value s) as [a |] eqn:Ea.
  - rewrite (narrow_bound a _ _ Ea). reflexivity.
  - rewrite (narrow_unbound _ _ Ea). reflexivity.
Qed.

(** The lookup returned and the relative error was computed. *)
Lemma body_evaluated (i : Z) (s : locals F) (v err : F) :
  lookup call_coolprop_cli target_prop known_prop known_value unknown_prop fluid
         (midpoint s) = inr v ->
  relative_error target_value v = inr err ->
  body i s =
    if flt err tolerance
    then ([Iter (i + 1) (midpoint s) v err; Rule; Converged (midpoint s) v err (i + 1)],
          bound v s, inr (Some (midpoint s, v, (i + 1)%Z)))
    else ([Iter (i + 1) (midpoint s) v err],
          narrowed target_value v (midpoint s) (bound v s), inr None).
Proof.
  intros E Eerr.
  unfold iteration_body, bind, get, try_except, lift, print, ret, raise,
    set_actual_value, modify; simpl.
  rewrite E; simpl. rewrite Eerr; simpl.
  destruct (flt err tolerance); simpl; [reflexivity |].
  rewrite (narrow_bound v (midpoint s) (bound v s) eq_refl). reflexivity.
Qed.

(** The lookup returned but the relative error raised ([target_value] is
    zero): the handler runs with the new [actual_value]. *)
Lemma body_division_raises (i : Z) (s : locals F) (v : F) (e : exn) :
  lookup call_coolprop_cli target_prop known_prop known_value unknown_prop fluid
         (midpoint s) = inr v ->
  relative_error target_value v = inl e ->
  body i s =
    if (i =? 0)%Z then ([IterError (i + 1) (midpoint s) e], bound v s, inl e)
    else ([IterError (i + 1) (midpoint s) e],
          narrowed target_value v (midpoint s) (bound v s), inr None).
Proof.
  intros E Eerr.
  unfold iteration_body, bind, get, try_except, lift, print, ret, raise,
    set_actual_value, modify; simpl.
  rewrite E; simpl. rewrite Eerr; simpl.
  destruct (i =? 0)%Z; [reflexivity |].
  rewrite (narrow_bound v (midpoint s) (bound v s) eq_refl). reflexivity.
Qed.

(** A round that falls through to the next one leaves [actual_value] bound. *)
Lemma body_continue_bound (i : Z) (s s' : locals F) (o : list (line F)) :
  body i s = (o, s', inr None) -> exists a, actual_value s' = Some a.
Proof.
  destruct (look (midpoint s)) as [e | v] eqn:E.
  - rewrite (body_handler i s e E).
    destruct (i =? 0)%Z; [discriminate |].
    destruct (actual_value s) as [a |] eqn:Ea; [| discriminate].
    intros [= <- <-]. exists a. unfold narrowed.
    destruct (flt a target_value); exact Ea.
  - destruct (relative_error target_value v) as [e | err] eqn:Eerr.
    + rewrite (body_division_raises i s v e E Eerr).
      destruct (i =? 0)%Z; [discriminate |].
      intros [= <- <-]. exists v. unfold narrowed.
      destruct (flt v target_value); reflexivity.
    + rewrite (body_evaluated i s v err E Eerr).
      destruct (flt err tolerance); [discriminate |].
      intros [= <- <-]. exists v. unfold narrowed.
      destruct (flt v target_value); reflexivity.
Qed.

(** *** The whole call *)

Lemma solve_unfold :
  solve =
    match loop entry with
    | (o, s, inl e) => (heading ++ o, inl e)
    | (o, s, inr (Some answer)) => (heading ++ o, inr answer)
    | (o, s, inr None) =>
        match finish s with
        | (o', _, r) => (heading ++ o ++ o', r)
        end
    end.
Proof.
  unfold solve_property, solve_property_body, bind, print, ret, banner; simpl.
  destruct (loop entry) as [[o s] [e | [answer |]]]; simpl; try reflexivity.
  - rewrite app_nil_r. reflexivity.
  - destruct (finish s) as [[o' s'] r]. reflexivity.
Qed.

Lemma finish_unfold (s : locals F) :
  finish s =
    match look (midpoint s) with
    | inl e => ([], s, inl e)
    | inr v =>
        match relative_error target_value v with
        | inl e => ([], s, inl e)
        | inr err =>
            ([Rule; MaxIterationsReached (midpoint s) v err max_iterations], s,
             inr (midpoint s, v, max_iterations))
        end
    end.
Proof.
  unfold after_loop, bind, get, lift, print, ret; simpl.
  destruct (look (midpoint s)) as [e | v]; simpl; [reflexivity |].
  destruct (relative_error target_value v) as [e | err]; reflexivity.
Qed.

Lemma loop_unfold :
  loop = for_from (Z.to_nat max_iterations) 0%Z body.
Proof. reflexivity. Qed.

(** A lookup that raises at the first midpoint ends the call with that
    exception, whether the midpoint is tried by the first round or, with no
    round at all, by the code after the loop. *)
Lemma first_lookup_fatal (e : exn) :
  look (midpoint entry) = inl e -> snd solve = inl e.
Proof.
  intros E. rewrite solve_unfold, loop_unfold.
  destruct (Z.to_nat max_iterations) as [| n]; simpl.
  - unfold ret. rewrite finish_unfold, E. reflexivity.
  - unfold bind. rewrite (body_handler 0 entry e E). reflexivity.
Qed.

(** With [abs(target_value) == 0] the call raises: the lookup's own exception
    if the first lookup fails, [ZeroDivisionError] otherwise. *)
Lemma zero_target_raises :
  feq (fabs target_value) (lit 0) = true ->
  snd solve = match look (midpoint entry) with
              | inl e => inl e
              | inr _ => inl ZeroDivisionError
              end.
Proof.
  intros Z0.
  destruct (look (midpoint entry)) as [e | v] eqn:E.
  - apply first_lookup_fatal, E.
  - assert (Ediv : relative_error target_value v = inl ZeroDivisionError).
    { unfold relative_error, truediv. rewrite Z0. reflexivity. }
    rewrite solve_unfold, loop_unfold.
    destruct (Z.to_nat max_iterations) as [| n]; simpl.
    + unfold ret. rewrite finish_unfold, E, Ediv. reflexivity.
    + unfold bind. rewrite (body_division_raises 0 entry v _ E Ediv). reflexivity.
Qed.

(** A converged round returns its own number, and the value it returns is
    the one the service gave for the returned guess. *)
Lemma body_returns (i : Z) (s s' : locals F) (o : list (line F)) (g v : F) (k : Z) :
  body i s = (o, s', inr (Some (g, v, k))) ->
  k = (i + 1)%Z /\ look g = inr v.
Proof.
  destruct (look (midpoint s)) as [e | v0] eqn:E.
  - rewrite (body_handler i s e E).
    destruct (i =? 0)%Z; [discriminate |].
    destruct (actual_value s); discriminate.
  - destruct (relative_error target_value v0) as [e | err] eqn:Eerr.
    + rewrite (body_division_raises i s v0 e E Eerr).
      destruct (i =? 0)%Z; discriminate.
    + rewrite (body_evaluated i s v0 err E Eerr).
      destruct (flt err tolerance); [| discriminate].
      intros [= _ _ <- <- <-]. split; [reflexivity | exact E].
Qed.

Lemma for_from_returns (n : nat) :
  forall (i : Z) (s s' : locals F) (o : list (line F)) (g v : F) (k : Z),
    for_from n i body s = (o, s', inr (Some (g, v, k))) ->
    (i + 1 <= k <= i + Z.of_nat n)%Z /\ look g = inr v.
Proof.
  induction n as [| n IH]; intros i s s' o g v k.
  - simpl. unfold ret. discriminate.
  - simpl. unfold bind.
    destruct (body i s) as [[o1 s1] [e | [[[g1 v1] k1] |]]] eqn:Ebody.
    + discriminate.
    + unfold ret. intros [= _ _ <- <- <-].
      destruct (body_returns _ _ _ _ _ _ _ Ebody) as (-> & Hv).
      split; [lia | exact Hv].
    + destruct (for_from n (i + 1)%Z body s1) as [[o2 s2] r2] eqn:Erest.
      intros [= _ _ ->].
      destruct (IH _ _ _ _ _ _ _ Erest) as (Hk & Hv).
      split; [lia | exact Hv].
Qed.

(** X1. Whatever the service and the arithmetic, an answer of
    [solve_property] reports at most [max_iterations] rounds, and its value
    is the one the service gives at the returned guess. *)
Theorem iterations_used_bounded (g v : F) (k : Z) :
  snd (solve_property call_coolprop_cli target_prop target_value known_prop known_value
                     unknown_prop min_guess max_guess fluid tolerance max_iterations)
    = inr (g, v, k) ->
  (k <= max_iterations)%Z /\
  lookup call_coolprop_cli target_prop known_prop known_value unknown_prop fluid g = inr v.
Proof.
  rewrite solve_unfold, loop_unfold.
  destruct (for_from (Z.to_nat max_iterations) 0%Z body entry)
    as [[o s] [e | [answer |]]] eqn:Eloop; simpl.
  - discriminate.
  - intros [= ->].
    destruct (for_from_returns _ _ _ _ _ _ _ _ Eloop) as (Hk & Hv).
    split; [lia | exact Hv].
  - rewrite finish_unfold.
    destruct (look (midpoint s)) as [e | v0] eqn:E; [discriminate |].
    destruct (relative_error target_value v0) as [e | err]; [discriminate |].
    simpl. intros [= <- <- <-]. split; [lia | exact E].
Qed.

(** C1, with the lookup after the loop made explicit.  When the loop has run all its rounds without converging,
    [solve_property] looks the property up once more, at the midpoint of the
    final bracket.  If that lookup returns (and [target_value] is not zero) the
    call returns that midpoint, the value found there and [max_iterations], a
    triple of the same shape as a converged answer, after printing the
    "maximum iterations reached" warning; if that lookup raises, the call
    raises the same exception. *)
Theorem exhausted_iterations_final_lookup (o : list (line F)) (s : locals F) :
  bisection_loop call_coolprop_cli target_prop target_value known_prop known_value
                 unknown_prop fluid tolerance max_iterations
    (entry_locals min_guess max_guess) = (o, s, inr None) ->
  (forall v err,
     lookup call_coolprop_cli target_prop known_prop known_value unknown_prop fluid
       (midpoint s) = inr v ->
     relative_error target_value v = inr err ->
     solve_property call_coolprop_cli target_prop target_value known_prop known_value
                     unknown_prop min_guess max_guess fluid tolerance max_iterations
       = ((banner target_prop target_value known_prop known_value unknown_prop
                min_guess max_guess fluid tolerance max_iterations)
            ++ o ++ [Rule; MaxIterationsReached (midpoint s) v err max_iterations],
          inr (midpoint s, v, max_iterations))) /\
  (forall e,
     lookup call_coolprop_cli target_prop known_prop known_value unknown_prop fluid
       (midpoint s) = inl e ->
     solve_property call_coolprop_cli target_prop target_value known_prop known_value
                     unknown_prop min_guess max_guess fluid tolerance max_iterations
       = ((banner target_prop target_value known_prop known_value unknown_prop
                min_guess max_guess fluid tolerance max_iterations) ++ o,
          inl e)).
Proof.
  intros Eloop. split.
  - intros v err E Eerr.
    rewrite solve_unfold, Eloop, finish_unfold, E, Eerr. reflexivity.
  - intros e E.
    rewrite solve_unfold, Eloop, finish_unfold, E, app_nil_r. reflexivity.
Qed.

(** C2. A lookup that raises at the very first bisection midpoint makes
    [solve_property] raise that exception.  After a round that fell through to
    the next one, [actual_value] holds the value of that round (the value it
    looked up, or the one it inherited when its own lookup failed); if the
    lookup of the next round raises, that round does not raise: it prints the
    error, moves [low] to the guess when the stored value is below the target
    and [high] otherwise, and falls through in turn. *)
Theorem lookup_failure_policy :
  (forall e,
     lookup call_coolprop_cli target_prop known_prop known_value unknown_prop fluid
       (midpoint (entry_locals min_guess max_guess)) = inl e ->
     snd (solve_property call_coolprop_cli target_prop target_value known_prop known_value
                     unknown_prop min_guess max_guess fluid tolerance max_iterations)
       = inl e) /\
  (forall i s o s' e,
     (0 <= i)%Z ->
     iteration_body call_coolprop_cli target_prop target_value known_prop known_value
                      unknown_prop fluid tolerance i s
       = (o, s', inr None) ->
     lookup call_coolprop_cli target_prop known_prop known_value unknown_prop fluid
       (midpoint s') = inl e ->
     exists a,
       actual_value s' = Some a /\
       (forall v,
          lookup call_coolprop_cli target_prop known_prop known_value unknown_prop fluid
            (midpoint s) = inr v -> a = v) /\
       (forall e',
          lookup call_coolprop_cli target_prop known_prop known_value unknown_prop fluid
            (midpoint s) = inl e' -> actual_value s = Some a) /\
       iteration_body call_coolprop_cli target_prop target_value known_prop known_value
                      unknown_prop fluid tolerance (i + 1) s'
         = ([IterError (i + 1 + 1) (midpoint s') e],
            narrowed target_value a (midpoint s') s', inr None)).
Proof.
  split; [exact first_lookup_fatal |].
  intros i s o s' e Hi Hbody E.
  destruct (body_continue_bound i s s' o Hbody) as (a & Ea).
  exists a. split; [exact Ea |]. split; [| split].
  - intros v Ev.
    destruct (relative_error target_value v) as [e' | err] eqn:Eerr.
    + rewrite (body_division_raises i s v e' Ev Eerr) in Hbody.
      destruct (i =? 0)%Z; [discriminate |].
      injection Hbody as _ <-. unfold narrowed in Ea.
      destruct (flt v target_value); simpl in Ea; congruence.
    + rewrite (body_evaluated i s v err Ev Eerr) in Hbody.
      destruct (flt err tolerance); [discriminate |].
      injection Hbody as _ <-. unfold narrowed in Ea.
      destruct (flt v target_value); simpl in Ea; congruence.
  - intros e' Ee'.
    rewrite (body_handler i s e' Ee') in Hbody.
    destruct (i =? 0)%Z; [discriminate |].
    destruct (actual_value s) as [a0 |] eqn:Ea0; [| discriminate].
    injection Hbody as _ <-. unfold narrowed in Ea.
    destruct (flt a0 target_value); simpl in Ea; congruence.
  - rewrite (body_handler (i + 1) s' e E), Ea.
    replace (i + 1 =? 0)%Z with false by (symmetry; apply Z.eqb_neq; lia).
    reflexivity.
Qed.

End SolverFacts.

(** X1, a run with the defaults: [f(x) = x] on [0, 4], target 3. *)
Lemma iterations_used_bounded_witness :
  (2 <= default_max_iterations)%Z /\
  service_of (linear_property 1%float 0%float) "S" "P" 100000%float "T" 3%float "Air"
    = inr 3%float.
Proof.
  exact (iterations_used_bounded (service_of (linear_property 1%float 0%float))
           "S" 3%float "P" 100000%float "T" 0%float 4%float "Air"
           default_tolerance default_max_iterations 3%float 3%float 2%Z eq_refl).
Defined.

(** C1, a run: [f(x) = x] on [0, 4] with target 3.5 and two rounds.  The
    guesses 2 and 3 miss the tolerance, so the answer is the midpoint 3.5 of
    the last bracket [3, 4], the value there, and the round count 2. *)
Lemma exhausted_iterations_final_lookup_witness :
  exists o s,
    PropertySolver.bisection_loop (service_of (linear_property 1%float 0%float))
      "S" 3.5%float "P" 100000%float "T" "Air" default_tolerance 2
      (PropertySolver.entry_locals 0%float 4%float) = (o, s, inr None) /\
    snd (PropertySolver.solve_property (service_of (linear_property 1%float 0%float))
           "S" 3.5%float "P" 100000%float "T" 0%float 4%float "Air"
           default_tolerance 2)
      = inr (3.5%float, 3.5%float, 2%Z).
Proof.
  pose (r := PropertySolver.bisection_loop (service_of (linear_property 1%float 0%float))
              "S" 3.5%float "P" 100000%float "T" "Air" default_tolerance 2
              (PropertySolver.entry_locals 0%float 4%float)).
  exists (fst (fst r)), (snd (fst r)). split; [reflexivity |].
  exact (f_equal snd
           (proj1 (exhausted_iterations_final_lookup
                     (service_of (linear_property 1%float 0%float))
                     "S" 3.5%float "P" 100000%float "T" 0%float 4%float "Air"
                     default_tolerance 2 (fst (fst r)) (snd (fst r)) eq_refl)
              3.5%float 0%float eq_refl eq_refl)).
Defined.

(** C1 fails when the last lookup does: the property is known at 2 only (where it is 10),
    the target is 1 and one round is allowed.  The round does not converge and
    the loop ends, but the lookup at the final midpoint 1 raises, and so does
    [solve_property]. *)
Lemma exhausted_iterations_counterexample :
  exists o s,
    PropertySolver.bisection_loop (service_of (only_at 2%float 10%float))
      "S" 1%float "P" 100000%float "T" "Air" default_tolerance 1
      (PropertySolver.entry_locals 0%float 4%float) = (o, s, inr None) /\
    PropertySolver.midpoint s = 1%float /\
    snd (PropertySolver.solve_property (service_of (only_at 2%float 10%float))
           "S" 1%float "P" 100000%float "T" 0%float 4%float "Air"
           default_tolerance 1)
      = inl (RuntimeError "CoolProp CLI failed").
Proof.
  eexists; eexists; split; [reflexivity |]. split; reflexivity.
Qed.

(** C2, a run: [f(x) = x] except that the state at 3 cannot be resolved;
    bounds [0, 4], target 3.5.  Round 1 finds 2 (below the target, so
    [low = 2]); the lookup of round 2, at 3, raises, and the stored value 2
    moves [low] to 3; round 3 converges at 3.5. *)
Lemma lookup_failure_policy_witness :
  PropertySolver.iteration_body (service_of (identity_but 3%float))
    "S" 3.5%float "P" 100000%float "T" "Air" default_tolerance 1
    (PropertySolver.Locals 2%float 4%float (Some 2%float))
  = ([PropertySolver.IterError 2 3%float (RuntimeError "CoolProp CLI failed")],
     PropertySolver.Locals 3%float 4%float (Some 2%float), inr None) /\
  snd (PropertySolver.solve_property (service_of (identity_but 3%float))
         "S" 3.5%float "P" 100000%float "T" 0%float 4%float "Air"
         default_tolerance default_max_iterations)
    = inr (3.5%float, 3.5%float, 3%Z).
Proof.
  split; [| reflexivity].
  pose (r := PropertySolver.iteration_body (service_of (identity_but 3%float))
              "S" 3.5%float "P" 100000%float "T" "Air" default_tolerance 0
              (PropertySolver.entry_locals 0%float 4%float)).
  assert (Hfirst : r = (fst (fst r), snd (fst r), inr None)) by (vm_compute; reflexivity).
  destruct (proj2 (lookup_failure_policy (service_of (identity_but 3%float))
                     "S" 3.5%float "P" 100000%float "T" 0%float 4%float "Air"
                     default_tolerance default_max_iterations)
              0%Z (PropertySolver.entry_locals 0%float 4%float)
              (fst (fst r)) (snd (fst r))
              (RuntimeError "CoolProp CLI failed")
              (Z.le_refl 0) Hfirst eq_refl)
    as (a & Ea & _ & _ & Hround).
  injection Ea as <-. exact Hround.
Defined.

(** ** Degenerate inputs *)

Section DegenerateInputs.
Import PropertySolver.
Local Open Scope float_scope.

(** C4, as the programs behave.  A zero [target_value] is not detected
    before the division: [solve_property] raises, with the lookup's exception
    when the first lookup fails and with [ZeroDivisionError] otherwise.  In
    the counterflow program a zero cold-side mass flow is detected before the
    division but is not reported: the mass-flow ratio becomes [+inf] and the
    program goes on; a zero ratio is detected before the division of the
    cold-outlet candidate, whose hot-outlet enthalpy, temperature and approach
    are then [None], and the report of that candidate ends with the line
    "mu was zero, cannot compute h_h,out". *)
Theorem degenerate_inputs {F : Type} `{Arith F}
    (call_coolprop_cli : string -> string -> F -> string -> F -> string -> result F)
    (target_prop : string) (target_value : F) (known_prop : string) (known_value : F)
    (unknown_prop : string) (min_guess max_guess : F) (fluid : string)
    (tolerance : F) (max_iterations : Z) :
  (feq (fabs target_value) (lit 0) = true ->
   snd (solve_property call_coolprop_cli target_prop target_value known_prop known_value
                       unknown_prop min_guess max_guess fluid tolerance max_iterations)
     = match lookup call_coolprop_cli target_prop known_prop known_value unknown_prop fluid
                    (midpoint (entry_locals min_guess max_guess)) with
       | inl e => inl e
       | inr _ => inl ZeroDivisionError
       end) /\
  (forall m_dot_h m_dot_c : float,
     CounterflowHX.mass_flow_ratio m_dot_h m_dot_c
       = ok (if m_dot_c =? 0 then infinity else m_dot_h / m_dot_c)) /\
  (forall PropsSI mu h_h_in h_c_in c,
     (mu =? 0) = true ->
     CounterflowHX.evaluate_case PropsSI mu h_h_in h_c_in false = inr c ->
     CounterflowHX.h_h_out c = None /\ CounterflowHX.T_h_out c = None /\
     CounterflowHX.dT_other c = None /\
     CounterflowHX.report_case2 h_h_in h_c_in c tt
       = ([CounterflowHX.Case2_T_c_out (CounterflowHX.T_h_in - CounterflowHX.dTmin);
           CounterflowHX.Case2_h_c_out
             (CounterflowHX.Jperkg_to_kJperkg (CounterflowHX.h_c_out c));
           CounterflowHX.Case2_mu_zero],
          tt, inr tt)).
Proof.
  split; [| split].
  - intros Z0. apply zero_target_raises, Z0.
  - intros m_dot_h m_dot_c.
    unfold CounterflowHX.mass_flow_ratio, truediv; simpl.
    destruct (m_dot_c =? 0); reflexivity.
  - intros PropsSI mu h_h_in h_c_in c Emu E.
    unfold CounterflowHX.evaluate_case in E.
    invert_rbind E. rewrite Emu in E. simpl in E.
    injection E as <-. repeat split.
Qed.

End DegenerateInputs.

(** C4, a run: [f(x) = x] with target 0 on [-1, 1]. *)
Lemma degenerate_inputs_witness :
  snd (PropertySolver.solve_property (service_of (linear_property 1%float 0%float))
         "S" 0%float "P" 100000%float "T" (-1)%float 1%float "Air"
         default_tolerance default_max_iterations)
    = inl ZeroDivisionError.
Proof.
  exact (proj1 (degenerate_inputs (service_of (linear_property 1%float 0%float))
                  "S" 0%float "P" 100000%float "T" (-1)%float 1%float "Air"
                  default_tolerance default_max_iterations)
           eq_refl).
Defined.

(** C4 fails: with target 0 the first round's division raises
    [ZeroDivisionError], the handler prints it and re-raises it out of
    [solve_property]; and a zero cold-side flow passes through the counterflow
    program as an infinite ratio rather than as an error. *)
Lemma degenerate_inputs_counterexample :
  PropertySolver.solve_property (service_of (linear_property 1%float 0%float))
    "S" 0%float "P" 100000%float "T" (-1)%float 1%float "Air"
    default_tolerance default_max_iterations
  = (banner "S" 0%float "P" 100000%float "T" (-1)%float 1%float "Air"
            default_tolerance default_max_iterations
       ++ [PropertySolver.IterError 1 0%float ZeroDivisionError],
     inl ZeroDivisionError) /\
  CounterflowHX.mass_flow_ratio 2%float 0%float = inr infinity.
Proof.
  split; reflexivity.
Qed.

(** ** The counterflow pinch evaluator *)

Section CounterflowFacts.
Import CounterflowHX.
Local Open Scope float_scope.
Variable PropsSI : string -> string -> float -> string -> float -> string -> result float.

(** The candidate with the pinch at the hot outlet always carries its hot
    outlet state and an approach value. *)
Lemma evaluate_hot_pinch_shape (mu h_h_in h_c_in : float) (c : candidate) :
  evaluate_case PropsSI mu h_h_in h_c_in true = inr c ->
  exists T h,
    T_h_out c = Some T /\ h_h_out c = Some h /\
    dT_other c = Some (T_h_in - match T_c_out c with Some Tc => Tc | None => T_c_in end).
Proof.
  unfold evaluate_case; intros E. invert_rbind E. injection E as <-.
  simpl. eauto.
Qed.

(** The candidate with the pinch at the cold outlet always carries its cold
    outlet temperature; its approach is known exactly when the hot outlet
    temperature is. *)
Lemma evaluate_cold_pinch_shape (mu h_h_in h_c_in : float) (c : candidate) :
  evaluate_case PropsSI mu h_h_in h_c_in false = inr c ->
  T_c_out c = Some (T_h_in - dTmin) /\
  dT_other c = match T_h_out c with Some T => Some (T - T_c_in) | None => None end /\
  (h_h_out c = None -> T_h_out c = None).
Proof.
  unfold evaluate_case; intros E. invert_rbind E. invert_rbind E.
  injection E as <-. simpl. repeat split.
  intros ->. reflexivity.
Qed.

Lemma guarded_truediv (a b : float) :
  (b =? 0) = false -> truediv a b = inr (a / b).
Proof.
  intros E. unfold truediv; simpl. rewrite E. reflexivity.
Qed.

(** Membership of a line in an explicit list of lines. *)
Ltac line_in H :=
  simpl in H;
  repeat (destruct H as [H | H]; [try discriminate H |]);
  try contradiction.

Ltac no_analysis_lines :=
  repeat (constructor; [reflexivity |]); constructor.

(** The report of the first candidate never raises and prints no analysis
    line; a verdict is printed only when the cold outlet temperature was
    obtained, and it is the classification of the candidate's approach. *)
Lemma report_case1_lines (h_h_in h_c_in : float) (c : candidate) (T h d : float) :
  T_h_out c = Some T -> h_h_out c = Some h -> dT_other c = Some d ->
  exists o,
    report_case1 h_h_in h_c_in c tt = (o, tt, inr tt) /\
    Forall (fun l => is_analysis_line l = false) o /\
    (forall d' v, In (Case1_dT_cold_outlet d' v) o ->
       d' = d /\ v = classify d /\ exists Tc, T_c_out c = Some Tc) /\
    (forall d' v, ~ In (Case2_dT_hot_outlet d' v) o).
Proof.
  intros ET Eh Ed.
  unfold report_case1, bind, lift, print, ret; simpl.
  rewrite ET, Eh; simpl.
  destruct (T_c_out c) as [Tc |]; simpl; rewrite ?Ed; simpl;
    destruct (h_h_in - h =? 0) eqn:Ez; simpl;
    rewrite ?(guarded_truediv _ _ Ez); simpl.
  all: eexists; split; [reflexivity |].
  all: split; [no_analysis_lines |].
  all: split; intros d' v Hin; line_in Hin.
  all: injection Hin as <- <-; eauto.
Qed.

(** The report of the second candidate, likewise. *)
Lemma report_case2_lines (h_h_in h_c_in : float) (c : candidate) (Tc : float) :
  T_c_out c = Some Tc ->
  dT_other c = match T_h_out c with Some T => Some (T - T_c_in) | None => None end ->
  exists o,
    report_case2 h_h_in h_c_in c tt = (o, tt, inr tt) /\
    Forall (fun l => is_analysis_line l = false) o /\
    (forall d' v, In (Case2_dT_hot_outlet d' v) o ->
       dT_other c = Some d' /\ v = classify d' /\ exists T, T_h_out c = Some T) /\
    (forall d' v, ~ In (Case1_dT_cold_outlet d' v) o).
Proof.
  intros ETc Ed.
  unfold report_case2, bind, lift, print, ret; simpl.
  rewrite ETc; simpl.
  destruct (h_h_out c) as [h |]; simpl.
  - destruct (T_h_out c) as [T |]; simpl; rewrite Ed; simpl;
      destruct (h_h_in - h =? 0) eqn:Ez; simpl;
      rewrite ?(guarded_truediv _ _ Ez); simpl.
    all: eexists; split; [reflexivity |].
    all: split; [no_analysis_lines |].
    all: split; intros d' v Hin; line_in Hin.
    all: injection Hin as <- <-; eauto.
  - eexists; split; [reflexivity |].
    split; [no_analysis_lines |].
    split; intros d' v Hin; line_in Hin.
Qed.

(** [compute_boundary_temperatures] prints no verdict. *)
Lemma boundary_lines (Thi Tho Ph Tci Tco Pc mh mc : float) (fh fc : string)
    (o : list line) (r : result boundary) :
  compute_boundary_temperatures PropsSI Thi Tho Ph Tci Tco Pc mh mc fh fc tt = (o, tt, r) ->
  Forall (fun l => is_verdict_line l = false) o.
Proof.
  unfold compute_boundary_temperatures, bind, lift, print, ret; simpl.
  repeat match goal with
         | |- context [match ?x with inl _ => _ | inr _ => _ end] =>
             destruct x; simpl
         end.
  all: intros [= <- _]; repeat constructor.
Qed.

(** The exergy computations print no verdict, and nothing at all when no
    candidate was carried forward. *)
Lemma exergy_analysis_lines (m_dot_h m_dot_c : float) (chosen : option boundary)
    (o : list line) (r : result unit) :
  exergy_analysis m_dot_h m_dot_c chosen tt = (o, tt, r) ->
  Forall (fun l => is_verdict_line l = false) o /\
  (chosen = None -> o = [] /\ r = inr tt).
Proof.
  destruct chosen as [b |]; simpl.
  - unfold compute_exergy_destruction, compute_exergetic_efficiency,
      bind, lift, print, ret, truediv; simpl.
    repeat match goal with
           | |- context [if ?x then _ else _] => destruct x; simpl
           end.
    all: intros [= <- _]; split; [repeat constructor | discriminate].
  - unfold ret. intros [= <- <-]. split; [constructor | auto].
Qed.

Lemma classify_feasible (d : float) :
  classify d = FEASIBLE <-> (dTmin <=? d) = true.
Proof.
  unfold classify. destruct (dTmin <=? d); split; intros E;
    try reflexivity; discriminate E.
Qed.

Ltac explicit_lines :=
  eexists; split; [reflexivity |]; split; [repeat constructor | reflexivity].

(** The report of the first candidate never raises, prints no line of the
    analysis, and prints the verdict of the candidate exactly when the cold
    outlet temperature was obtained. *)
Lemma report_case1_verdict (h_h_in h_c_in : float) (c : candidate) (T h d : float) :
  T_h_out c = Some T -> h_h_out c = Some h -> dT_other c = Some d ->
  exists o,
    report_case1 h_h_in h_c_in c tt = (o, tt, inr tt) /\
    Forall (fun l => is_analysis_line l = false) o /\
    filter is_verdict_line o
    = match T_c_out c with
      | Some _ => [Case1_dT_cold_outlet d (classify d)]
      | None => []
      end.
Proof.
  intros ET Eh Ed.
  unfold report_case1, bind, lift, print, ret; simpl.
  rewrite ET, Eh; simpl.
  destruct (T_c_out c) as [Tc |]; simpl; rewrite ?Ed; simpl;
    destruct (h_h_in - h =? 0) eqn:Ez; simpl;
    rewrite ?(guarded_truediv _ _ Ez); simpl; explicit_lines.
Qed.

(** The report of the second candidate, likewise: the verdict is printed
    exactly when the hot outlet temperature was obtained. *)
Lemma report_case2_verdict (h_h_in h_c_in : float) (c : candidate) (Tc : float) :
  T_c_out c = Some Tc ->
  dT_other c = match T_h_out c with Some T => Some (T - T_c_in) | None => None end ->
  (h_h_out c = None -> T_h_out c = None) ->
  exists o,
    report_case2 h_h_in h_c_in c tt = (o, tt, inr tt) /\
    Forall (fun l => is_analysis_line l = false) o /\
    filter is_verdict_line o
    = match T_h_out c with
      | Some Th => [Case2_dT_hot_outlet (Th - T_c_in) (classify (Th - T_c_in))]
      | None => []
      end.
Proof.
  intros ETc Ed Hnone.
  unfold report_case2, bind, lift, print, ret; simpl.
  rewrite ETc; simpl.
  destruct (h_h_out c) as [h |]; simpl.
  - destruct (T_h_out c) as [T |]; simpl; rewrite ?Ed; simpl;
      destruct (h_h_in - h =? 0) eqn:Ez; simpl;
      rewrite ?(guarded_truediv _ _ Ez); simpl; explicit_lines.
  - rewrite (Hnone eq_refl). explicit_lines.
Qed.

Lemma filter_none {A : Type} (p : A -> bool) (l : list A) :
  Forall (fun x => p x = false) l -> filter p l = [].
Proof.
  induction 1 as [| x l Hx _ IH]; [reflexivity |]. cbn [filter]. now rewrite Hx.
Qed.

(** The analysis of a candidate prints no verdict, and when it returns it
    has printed the boundary temperatures, the two exergy figures and the
    efficiency, in this order. *)
Lemma analysis_of_lines (m_dot_h m_dot_c Th Tc : float) (o : list line) (r : result unit) :
  analysis_of PropsSI m_dot_h m_dot_c Th Tc tt = (o, tt, r) ->
  Forall (fun l => is_verdict_line l = false) o /\
  (r = inr tt ->
   exists T_b_H T_b_C Q_dot_kW X_dest_kW X_check_kW eta_ex,
     o = [BoundaryTemperatures T_b_H T_b_C Q_dot_kW;
          ExergyDestructionLayer X_dest_kW;
          EntropyGenerationCheck X_check_kW;
          ExergeticEfficiency eta_ex]).
Proof.
  unfold analysis_of, bind.
  destruct (compute_boundary_temperatures PropsSI T_h_in Th P_h T_c_in Tc P_c
              m_dot_h m_dot_c fluid_h fluid_c tt) as [[o1 []] [e | b]] eqn:Eb.
  - intros [= <- <-]. split; [| discriminate].
    exact (boundary_lines _ _ _ _ _ _ _ _ _ _ _ _ Eb).
  - destruct (exergy_analysis m_dot_h m_dot_c (Some b) tt) as [[o2 []] r2] eqn:Ex.
    intros [= <- <-].
    split.
    + apply Forall_app. split.
      * exact (boundary_lines _ _ _ _ _ _ _ _ _ _ _ _ Eb).
      * exact (proj1 (exergy_analysis_lines _ _ _ _ _ Ex)).
    + intros ->. revert Eb Ex.
      unfold compute_boundary_temperatures, exergy_analysis, compute_exergy_destruction,
        compute_exergetic_efficiency, bind, lift, print, ret, truediv; simpl.
      repeat match goal with
             | |- context [match ?x with inl _ => _ | inr _ => _ end] =>
                 destruct x; simpl; try discriminate
             | |- context [if ?x then _ else _] => destruct x; simpl; try discriminate
             end.
      all: intros [= <- _] [= <-]; do 6 eexists; reflexivity.
Qed.

(** The selection and the analysis (lines 213-252): the first feasible
    candidate, the hot pinch before the cold one, is the one analysed. *)
Lemma selection_runs (m_dot_h m_dot_c : float) (case1 case2 : candidate) (T1 d1 Tc2 : float) :
  T_h_out case1 = Some T1 -> dT_other case1 = Some d1 ->
  T_c_out case2 = Some Tc2 ->
  dT_other case2 = match T_h_out case2 with Some T => Some (T - T_c_in) | None => None end ->
  exists o3 r,
    bind (choose_case PropsSI m_dot_h m_dot_c case1 case2)
         (fun chosen => exergy_analysis m_dot_h m_dot_c chosen) tt = (o3, tt, r) /\
    (hot_pinch_feasible case1 = true ->
     exists Tc, T_c_out case1 = Some Tc /\
                analysis_of PropsSI m_dot_h m_dot_c T1 Tc tt = (o3, tt, r)) /\
    (hot_pinch_feasible case1 = false -> cold_pinch_feasible case2 = true ->
     exists Th, T_h_out case2 = Some Th /\
                analysis_of PropsSI m_dot_h m_dot_c Th Tc2 tt = (o3, tt, r)) /\
    (hot_pinch_feasible case1 = false -> cold_pinch_feasible case2 = false ->
     o3 = [] /\ r = inr tt).
Proof.
  intros ET1 Ed1 ETc2 Ed2.
  assert (P1 : passes (T_c_out case1) (dT_other case1) = inr (hot_pinch_feasible case1)).
  { unfold passes, hot_pinch_feasible, feasible. rewrite Ed1.
    destruct (T_c_out case1); reflexivity. }
  assert (P2 : passes (T_h_out case2) (dT_other case2) = inr (cold_pinch_feasible case2)).
  { unfold passes, cold_pinch_feasible, feasible. rewrite Ed2.
    destruct (T_h_out case2); reflexivity. }
  unfold choose_case. unfold bind at 2. unfold lift at 1. rewrite P1. cbn iota.
  destruct (hot_pinch_feasible case1) eqn:F1.
  - assert (exists Tc, T_c_out case1 = Some Tc) as (Tc & ETc).
    { unfold hot_pinch_feasible, feasible in F1.
      destruct (T_c_out case1) as [Tc |]; [now exists Tc | discriminate F1]. }
    rewrite ET1, ETc.
    destruct (analysis_of PropsSI m_dot_h m_dot_c T1 Tc tt) as [[o3 []] r] eqn:Ea.
    exists o3, r. split.
    { revert Ea. unfold analysis_of, bind, lift, as_float, ok, ret.
      destruct (compute_boundary_temperatures PropsSI T_h_in T1 P_h T_c_in Tc P_c
                  m_dot_h m_dot_c fluid_h fluid_c tt) as [[ob []] [e | b]];
        cbn iota beta zeta;
        [intros [= <- <-]; rewrite ?app_nil_r; reflexivity |].
      destruct (exergy_analysis m_dot_h m_dot_c (Some b) tt) as [[ox []] rx].
      intros [= <- <-]. cbn [app]. rewrite ?app_nil_r. reflexivity. }
    split; [intros _; now exists Tc |]. split; discriminate.
  - unfold bind at 2. unfold lift at 1. rewrite P2. cbn iota.
    destruct (cold_pinch_feasible case2) eqn:F2.
    + assert (exists Th, T_h_out case2 = Some Th) as (Th & ETh).
      { unfold cold_pinch_feasible, feasible in F2.
        destruct (T_h_out case2) as [Th |]; [now exists Th | discriminate F2]. }
      rewrite ETh, ETc2.
      destruct (analysis_of PropsSI m_dot_h m_dot_c Th Tc2 tt) as [[o3 []] r] eqn:Ea.
      exists o3, r. split.
      { revert Ea. unfold analysis_of, bind, lift, as_float, ok, ret.
        destruct (compute_boundary_temperatures PropsSI T_h_in Th P_h T_c_in Tc2 P_c
                    m_dot_h m_dot_c fluid_h fluid_c tt) as [[ob []] [e | b]];
          cbn iota beta zeta;
          [intros [= <- <-]; rewrite ?app_nil_r; reflexivity |].
        destruct (exergy_analysis m_dot_h m_dot_c (Some b) tt) as [[ox []] rx].
        intros [= <- <-]. cbn [app]. rewrite ?app_nil_r. reflexivity. }
      split; [discriminate |]. split; [intros _ _; now exists Th | discriminate].
    + exists [], (inr tt). split; [reflexivity |].
      split; [discriminate |]. split; [discriminate | auto].
Qed.

(** C6. In a run of [main] whose inlet lookups and candidate evaluations
    return, the output is the reports followed by the analysis, and:
    - the verdict lines printed are exactly those of [verdicts_of]: for the
      hot-pinch candidate, once its cold outlet temperature was obtained by
      inverting the enthalpy, the approach [T_h_in - T_c_out] with its
      classification, and for the cold-pinch candidate, once its hot outlet
      temperature was obtained, the approach [T_h_out - T_c_in] with its
      classification; the classification is FEASIBLE exactly when the
      approach is at least [dTmin];
    - a candidate is feasible exactly when that temperature was obtained and
      the approach is at least [dTmin];
    - if the hot-pinch candidate is feasible, the analysis is the run of
      [compute_boundary_temperatures] on its two outlet temperatures followed
      by the exergy computations; if it is not and the cold-pinch candidate
      is, the analysis is that run on the cold-pinch candidate's two outlet
      temperatures; if neither is, nothing follows the reports and [main]
      returns;
    - an analysis that returns has printed the boundary temperatures, the
      two exergy figures and the efficiency; the reports hold no such line
      and the analysis holds no verdict. *)
Theorem pinch_gate (m_dot_h m_dot_c mu h_h_in h_c_in : float)
    (case1 case2 : candidate) :
  mass_flow_ratio m_dot_h m_dot_c = inr mu ->
  PropsSI "H" "T" T_h_in "P" P_h fluid_h = inr h_h_in ->
  PropsSI "H" "T" T_c_in "P" P_c fluid_c = inr h_c_in ->
  evaluate_case PropsSI mu h_h_in h_c_in true = inr case1 ->
  evaluate_case PropsSI mu h_h_in h_c_in false = inr case2 ->
  exists reports analysis r,
    main PropsSI m_dot_h m_dot_c tt = (reports ++ analysis, tt, r) /\
    Forall (fun l => is_analysis_line l = false) reports /\
    Forall (fun l => is_verdict_line l = false) analysis /\
    filter is_verdict_line (reports ++ analysis) = verdicts_of case1 case2 /\
    (forall d, classify d = FEASIBLE <-> (dTmin <=? d) = true) /\
    (hot_pinch_feasible case1 = true <->
     exists Tc, T_c_out case1 = Some Tc /\ (dTmin <=? T_h_in - Tc) = true) /\
    (cold_pinch_feasible case2 = true <->
     exists Th, T_h_out case2 = Some Th /\ (dTmin <=? Th - T_c_in) = true) /\
    (hot_pinch_feasible case1 = true ->
     exists Th Tc,
       T_h_out case1 = Some Th /\ T_c_out case1 = Some Tc /\
       analysis_of PropsSI m_dot_h m_dot_c Th Tc tt = (analysis, tt, r)) /\
    (hot_pinch_feasible case1 = false -> cold_pinch_feasible case2 = true ->
     exists Th Tc,
       T_h_out case2 = Some Th /\ T_c_out case2 = Some Tc /\
       analysis_of PropsSI m_dot_h m_dot_c Th Tc tt = (analysis, tt, r)) /\
    (hot_pinch_feasible case1 = false -> cold_pinch_feasible case2 = false ->
     analysis = [] /\ r = inr tt) /\
    ((hot_pinch_feasible case1 = true \/ cold_pinch_feasible case2 = true) ->
     r = inr tt ->
     exists T_b_H T_b_C Q_dot_kW X_dest_kW X_check_kW eta_ex,
       analysis = [BoundaryTemperatures T_b_H T_b_C Q_dot_kW;
                   ExergyDestructionLayer X_dest_kW;
                   EntropyGenerationCheck X_check_kW;
                   ExergeticEfficiency eta_ex]).
Proof.
  intros Hmu Hh Hc H1 H2.
  destruct (evaluate_hot_pinch_shape _ _ _ _ H1) as (T1 & h1 & ET1 & Eh1 & Ed1).
  destruct (evaluate_cold_pinch_shape _ _ _ _ H2) as (ETc2 & Ed2 & Hnone2).
  destruct (report_case1_verdict h_h_in h_c_in case1 T1 h1 _ ET1 Eh1 Ed1)
    as (o1 & E1 & A1 & V1).
  destruct (report_case2_verdict h_h_in h_c_in case2 _ ETc2 Ed2 Hnone2)
    as (o2 & E2 & A2 & V2).
  destruct (selection_runs m_dot_h m_dot_c case1 case2 T1 _ _ ET1 Ed1 ETc2 Ed2)
    as (o3 & r & E3 & G1 & G2 & G0).
  assert (NV3 : Forall (fun l => is_verdict_line l = false) o3).
  { destruct (hot_pinch_feasible case1) eqn:F1.
    - destruct (G1 eq_refl) as (Tc & _ & Ea). exact (proj1 (analysis_of_lines _ _ _ _ _ _ Ea)).
    - destruct (cold_pinch_feasible case2) eqn:F2.
      + destruct (G2 eq_refl eq_refl) as (Th & _ & Ea).
        exact (proj1 (analysis_of_lines _ _ _ _ _ _ Ea)).
      + destruct (G0 eq_refl eq_refl) as (-> & _). constructor. }
  exists ([Given P_h T_h_in P_c T_c_in;
           InletEnthalpies (Jperkg_to_kJperkg h_h_in) (Jperkg_to_kJperkg h_c_in);
           MassFlows m_dot_h m_dot_c mu] ++ o1 ++ o2), o3, r.
  split.
  { unfold main.
    unfold bind at 1 2 3 4 5 6 7 8 9 10. unfold lift, print.
    rewrite Hmu, Hh, Hc, H1, H2, E1, E2.
    rewrite E3. cbn [app]. rewrite <- !app_assoc. reflexivity. }
  split.
  { apply Forall_app. split; [repeat constructor |]. apply Forall_app. split; assumption. }
  split; [exact NV3 |].
  split.
  { rewrite !filter_app, (filter_none _ _ NV3), app_nil_r, V1, V2.
    unfold verdicts_of. cbn [filter is_verdict_line app].
    destruct (h_h_out case2) as [h2 |] eqn:Eh2.
    - destruct (T_c_out case1); destruct (T_h_out case2); reflexivity.
    - rewrite (Hnone2 eq_refl). destruct (T_c_out case1); reflexivity. }
  split; [exact classify_feasible |].
  split.
  { unfold hot_pinch_feasible, feasible. rewrite Ed1.
    destruct (T_c_out case1) as [Tc |].
    - split; [intros E; now exists Tc | intros (Tc' & [= <-] & E); exact E].
    - split; [discriminate | intros (Tc' & Habs & _); discriminate Habs]. }
  split.
  { unfold cold_pinch_feasible, feasible. rewrite Ed2.
    destruct (T_h_out case2) as [Th |].
    - split; [intros E; now exists Th | intros (Th' & [= <-] & E); exact E].
    - split; [discriminate | intros (Th' & Habs & _); discriminate Habs]. }
  split.
  { intros F1. destruct (G1 F1) as (Tc & ETc & Ea). now exists T1, Tc. }
  split.
  { intros F1 F2. destruct (G2 F1 F2) as (Th & ETh & Ea). now exists Th, (T_h_in - dTmin). }
  split; [exact G0 |].
  intros Hf Hr.
  destruct (hot_pinch_feasible case1) eqn:F1.
  - destruct (G1 eq_refl) as (Tc & _ & Ea).
    exact (proj2 (analysis_of_lines _ _ _ _ _ _ Ea) Hr).
  - destruct Hf as [Habs | F2]; [discriminate Habs |].
    destruct (G2 eq_refl F2) as (Th & _ & Ea).
    exact (proj2 (analysis_of_lines _ _ _ _ _ _ Ea) Hr).
Qed.

End CounterflowFacts.

(** C6, a run with the default flows 2.0 and 1.2 kg/s over a fluid of
    constant heat capacity: the hot-pinch candidate would heat the cold
    stream above the hot inlet (approach about -253 K) and is INFEASIBLE, the
    cold-pinch candidate leaves an approach of about 171 K and is FEASIBLE,
    and it is the one whose boundary temperatures and exergy figures are
    computed and printed. *)
Lemma pinch_gate_witness :
  exists case1 case2 reports analysis,
    CounterflowHX.evaluate_case caloric_service (2 / 0x1.3333333333333p+0)%float
      720000%float 310000%float true = inr case1 /\
    CounterflowHX.evaluate_case caloric_service (2 / 0x1.3333333333333p+0)%float
      720000%float 310000%float false = inr case2 /\
    CounterflowHX.main caloric_service 2%float 0x1.3333333333333p+0%float tt
      = ((reports ++ analysis)%list, tt, inr tt) /\
    hot_pinch_feasible case1 = false /\
    cold_pinch_feasible case2 = true /\
    filter is_verdict_line (reports ++ analysis)
      = [CounterflowHX.Case1_dT_cold_outlet (-0x1.faaaaaaaaaaacp+7)%float
           CounterflowHX.INFEASIBLE;
         CounterflowHX.Case2_dT_hot_outlet 0x1.5666666666666p+7%float
           CounterflowHX.FEASIBLE] /\
    analysis_of caloric_service 2%float 0x1.3333333333333p+0%float
      0x1.e133333333333p+8%float 708%float tt = (analysis, tt, inr tt) /\
    List.length analysis = 4%nat.
Proof.
  pose (mu := (2 / 0x1.3333333333333p+0)%float).
  pose (none := CounterflowHX.Candidate None None 0%float None None).
  pose (case1 := match CounterflowHX.evaluate_case caloric_service mu
                         720000%float 310000%float true with
                 | inr c => c
                 | inl _ => none
                 end).
  pose (case2 := match CounterflowHX.evaluate_case caloric_service mu
                         720000%float 310000%float false with
                 | inr c => c
                 | inl _ => none
                 end).
  assert (H1 : CounterflowHX.evaluate_case caloric_service mu 720000%float 310000%float
                 true = inr case1) by (vm_compute; reflexivity).
  assert (H2 : CounterflowHX.evaluate_case caloric_service mu 720000%float 310000%float
                 false = inr case2) by (vm_compute; reflexivity).
  assert (F1 : hot_pinch_feasible case1 = false) by (vm_compute; reflexivity).
  assert (F2 : cold_pinch_feasible case2 = true) by (vm_compute; reflexivity).
  destruct (pinch_gate caloric_service
              2%float 0x1.3333333333333p+0%float mu 720000%float 310000%float
              case1 case2 eq_refl eq_refl eq_refl H1 H2)
    as (reports & analysis & r & Emain & _ & _ & Hv & _ & _ & _ & _ & G2 & _ & Hlines).
  destruct (G2 F1 F2) as (Th & Tc & ETh & ETc & Ea).
  assert (Er : r = inr tt).
  { assert (Em : snd (CounterflowHX.main caloric_service 2%float
                        0x1.3333333333333p+0%float tt) = inr tt)
      by (vm_compute; reflexivity).
    rewrite Emain in Em. exact Em. }
  subst r.
  exists case1, case2, reports, analysis.
  split; [exact H1 |]. split; [exact H2 |]. split; [exact Emain |].
  split; [exact F1 |]. split; [exact F2 |].
  split; [rewrite Hv; vm_compute; reflexivity |].
  split.
  - vm_compute in ETh. vm_compute in ETc.
    injection ETh as <-. injection ETc as <-. exact Ea.
  - destruct (Hlines (or_intror F2) eq_refl) as (a & b & c & d & e & f & ->). reflexivity.
Defined.

(** ** Bisection on a total property, and its guesses *)

Section BisectionOutcome.
Import PropertySolver.
Context {F : Type} `{Arith F}.
Variables (a b : F).
Variables (target_prop : string) (target_value : F)
          (known_prop : string) (known_value : F) (unknown_prop : string)
          (fluid : string) (tolerance : F).

Local Notation "'f'" := (linear_value a b).
Local Notation "'body'" :=
  (iteration_body (service_of (linear_property a b)) target_prop target_value
                  known_prop known_value unknown_prop fluid tolerance).

Hypothesis target_not_zero : feq (fabs target_value) (lit 0) = false.

Lemma relative_error_total (v : F) :
  relative_error target_value v = inr (error_of target_value v).
Proof. unfold relative_error, truediv. rewrite target_not_zero. reflexivity. Qed.

(** One round on a linear property: it converges, or misses and leaves a
    bracket for the next. *)
Lemma linear_round (i : Z) (s : locals F) :
  body i s =
    if flt (error_of target_value (f (midpoint s))) tolerance
    then ([Iter (i + 1) (midpoint s) (f (midpoint s)) (error_of target_value (f (midpoint s)));
           Rule;
           Converged (midpoint s) (f (midpoint s)) (error_of target_value (f (midpoint s)))
                     (i + 1)],
          bound (f (midpoint s)) s,
          inr (Some (midpoint s, f (midpoint s), (i + 1)%Z)))
    else ([Iter (i + 1) (midpoint s) (f (midpoint s)) (error_of target_value (f (midpoint s)))],
          narrowed target_value (f (midpoint s)) (midpoint s) (bound (f (midpoint s)) s),
          inr None).
Proof.
  exact (body_evaluated (service_of (linear_property a b)) target_prop target_value
           known_prop known_value unknown_prop fluid tolerance i s
           (f (midpoint s)) (error_of target_value (f (midpoint s)))
           eq_refl (relative_error_total _)).
Qed.

(** The loop on a linear property: rounds that miss, and then either the
    round that converges or the end of the loop. *)
Lemma linear_rounds (n : nat) :
  forall (i : Z) (s : locals F),
    exists pre s',
      Forall (missed f target_value tolerance) pre /\
      ((for_from n i body s = (pre, s', inr None) /\ List.length pre = n) \/
       (exists g,
          for_from n i body s
          = ((pre ++ [Iter (i + Z.of_nat (List.length pre) + 1) g (f g)
                           (error_of target_value (f g));
                      Rule;
                      Converged g (f g) (error_of target_value (f g))
                                (i + Z.of_nat (List.length pre) + 1)])%list,
             s', inr (Some (g, f g, (i + Z.of_nat (List.length pre) + 1)%Z))) /\
          (List.length pre < n)%nat /\
          flt (error_of target_value (f g)) tolerance = true)).
Proof.
  induction n as [| n IH]; intros i s.
  - exists [], s. split; [constructor |]. left. split; reflexivity.
  - rewrite for_from_unfold, linear_round.
    destruct (flt (error_of target_value (f (midpoint s))) tolerance) eqn:Hit; cbn iota.
    + exists [], (bound (f (midpoint s)) s). split; [constructor |].
      right. exists (midpoint s). cbn [List.length Z.of_nat app].
      rewrite Z.add_0_r. split; [reflexivity |]. split; [lia | exact Hit].
    + destruct (IH (i + 1)%Z
                  (narrowed target_value (f (midpoint s)) (midpoint s)
                            (bound (f (midpoint s)) s)))
        as (pre & s' & Hpre & Hrest).
      exists (Iter (i + 1) (midpoint s) (f (midpoint s))
                   (error_of target_value (f (midpoint s))) :: pre), s'.
      split.
      { constructor; [| exact Hpre]. exists (i + 1)%Z, (midpoint s).
        split; [reflexivity | exact Hit]. }
      destruct Hrest as [(E & Hlen) | (g & E & Hlen & Hg)]; rewrite E.
      * left. split; [reflexivity |]. cbn [List.length]. now rewrite Hlen.
      * right. exists g. cbn [List.length].
        replace (i + Z.of_nat (Datatypes.S (List.length pre)) + 1)%Z
          with (i + 1 + Z.of_nat (List.length pre) + 1)%Z by lia.
        split; [reflexivity |]. split; [lia | exact Hg].
Qed.


End BisectionOutcome.

Section BisectionGuesses.
Import PropertySolver.
Context {F : Type} `{Arith F}.
Variable call_coolprop_cli : string -> string -> F -> string -> F -> string -> result F.
Variables (target_prop : string) (target_value : F)
          (known_prop : string) (known_value : F) (unknown_prop : string)
          (min_guess max_guess : F) (fluid : string)
          (tolerance : F) (max_iterations : Z).

Local Notation "'look'" :=
  (lookup call_coolprop_cli target_prop known_prop known_value unknown_prop fluid).
Local Notation "'body'" :=
  (iteration_body call_coolprop_cli target_prop target_value known_prop known_value
                  unknown_prop fluid tolerance).
Local Notation "'entry'" := (entry_locals min_guess max_guess).

Lemma narrowed_ends (x : F) (s t : locals F) :
  low t = low s -> high t = high s ->
  (low (narrowed target_value x (midpoint s) t) = midpoint s /\
   high (narrowed target_value x (midpoint s) t) = high s) \/
  (low (narrowed target_value x (midpoint s) t) = low s /\
   high (narrowed target_value x (midpoint s) t) = midpoint s).
Proof.
  intros El Eh. unfold narrowed. destruct (flt x target_value); simpl; auto.
Qed.

(** A round reports its guess, the midpoint of the bracket, on its first
    line and no other guess; it returns that guess, or leaves the bracket
    with one end moved to it. *)
Lemma round_guess (i : Z) (s s' : locals F) (o : list (line F))
    (r : result (option (F * F * Z))) :
  body i s = (o, s', r) ->
  (exists l rest, o = l :: rest /\ guess_of l = Some (midpoint s) /\
                  Forall (fun l' => guess_of l' = None) rest) /\
  (forall g v k, r = inr (Some (g, v, k)) -> g = midpoint s) /\
  (r = inr None ->
   (low s' = midpoint s /\ high s' = high s) \/
   (low s' = low s /\ high s' = midpoint s)).
Proof.
  destruct (look (midpoint s)) as [e | v] eqn:E.
  - rewrite (body_handler _ _ _ _ _ _ _ _ i s e E).
    destruct (i =? 0)%Z; [| destruct (actual_value s) as [x |]];
      intros [= <- <- <-];
      (split; [do 2 eexists; split; [reflexivity |]; split; [reflexivity | constructor] |]);
      (split; [discriminate |]); try discriminate.
    intros _. now apply narrowed_ends.
  - destruct (relative_error target_value v) as [e | err] eqn:Eerr.
    + rewrite (body_division_raises _ _ _ _ _ _ _ _ i s v e E Eerr).
      destruct (i =? 0)%Z; intros [= <- <- <-];
        (split; [do 2 eexists; split; [reflexivity |]; split; [reflexivity | constructor] |]);
        (split; [discriminate |]); try discriminate.
      intros _. now apply narrowed_ends.
    + rewrite (body_evaluated _ _ _ _ _ _ _ _ i s v err E Eerr).
      destruct (flt err tolerance); intros [= <- <- <-].
      * split; [do 2 eexists; split; [reflexivity |]; split;
                [reflexivity | repeat constructor] |].
        split; [| discriminate]. intros g v' k [= <- _ _]. reflexivity.
      * split; [do 2 eexists; split; [reflexivity |]; split; [reflexivity | constructor] |].
        split; [discriminate |]. intros _. now apply narrowed_ends.
Qed.

Lemma rounds_guesses (n : nat) :
  forall (i : Z) (s s' : locals F) (o : list (line F)) (r : result (option (F * F * Z))),
    bisected min_guess max_guess s ->
    for_from n i body s = (o, s', r) ->
    Forall (fun l => forall g, guess_of l = Some g ->
                     bisection_midpoint min_guess max_guess g) o /\
    (forall g v k, r = inr (Some (g, v, k)) -> bisection_midpoint min_guess max_guess g) /\
    (r = inr None -> bisected min_guess max_guess s').
Proof.
  induction n as [| n IH]; intros i s s' o r Hs.
  - simpl. unfold ret. intros [= <- <- <-].
    split; [constructor |]. split; [discriminate | intros _; exact Hs].
  - rewrite for_from_unfold.
    destruct (body i s) as [[o1 s1] r1] eqn:Ebody.
    destruct (round_guess _ _ _ _ _ Ebody) as ((l & rest & -> & Hl & Hrest) & Hret & Hnext).
    assert (Ho1 : Forall (fun l0 => forall g, guess_of l0 = Some g ->
                            bisection_midpoint min_guess max_guess g) (l :: rest)).
    { constructor.
      - intros g Hg. rewrite Hl in Hg. injection Hg as <-. now exists s.
      - revert Hrest. apply Forall_impl. intros l' -> g Hg. discriminate Hg. }
    destruct r1 as [e | [[[g1 v1] k1] |]].
    + intros [= <- <- <-]. split; [exact Ho1 |]. split; discriminate.
    + intros [= <- <- <-]. rewrite app_nil_r. split; [exact Ho1 |].
      split; [| discriminate].
      intros g v k [= <- <- <-]. rewrite (Hret g1 v1 k1 eq_refl). now exists s.
    + destruct (for_from n (i + 1)%Z body s1) as [[o2 s2] r2] eqn:Erest.
      intros [= <- <- <-].
      assert (Hs1 : bisected min_guess max_guess s1).
      { destruct (Hnext eq_refl) as [[El Eh] | [El Eh]].
        - exact (bisected_upper _ _ s s1 Hs El Eh).
        - exact (bisected_lower _ _ s s1 Hs El Eh). }
      destruct (IH _ _ _ _ _ Hs1 Erest) as (Ho2 & Hr2 & Hn2).
      split; [| split; assumption].
      apply (proj2 (Forall_app _ (l :: rest) o2)). split; assumption.
Qed.

(** A run that does not stop in its first round does not print the summary
    of convergence after the first round's line. *)
Lemma later_output (n : nat) (s1 : locals F) (o : list (line F)) (s2 : locals F)
    (r : result (option (F * F * Z))) (g v err : F) (k : Z) :
  for_from n 1%Z body s1 = (o, s2, r) ->
  match r with
  | inl _ => o
  | inr (Some _) => o
  | inr None =>
      match after_loop call_coolprop_cli target_prop target_value known_prop known_value
                       unknown_prop fluid max_iterations s2 with
      | (o', _, _) => (o ++ o')%list
      end
  end <> [Rule; Converged g v err k].
Proof.
  destruct n as [| n].
  - simpl. unfold ret. intros [= <- <- <-].
    rewrite finish_unfold.
    destruct (lookup _ _ _ _ _ _ _) as [e | v0]; [discriminate |].
    destruct (relative_error target_value v0); discriminate.
  - rewrite for_from_unfold.
    destruct (body 1%Z s1) as [[o1 s1'] r1] eqn:Ebody.
    destruct (round_guess _ _ _ _ _ Ebody) as ((l & rest & -> & Hl & _) & _ & _).
    assert (Hhead : forall tail, (l :: tail) <> [Rule; Converged g v err k]).
    { intros tail [= -> _]. discriminate Hl. }
    destruct r1 as [e | [x |]].
    + intros [= <- <- <-]. apply Hhead.
    + intros [= <- <- <-]. apply Hhead.
    + destruct (for_from n (1 + 1)%Z body s1') as [[o2 s2'] r2].
      intros [= <- <- <-].
      destruct r2 as [e | [x |]]; try apply Hhead.
      destruct (after_loop _ _ _ _ _ _ _ _ s2') as [[o' s3] r3]. apply Hhead.
Qed.


End BisectionGuesses.





(* ================================================================== *)
(** * Part VII. Properties of the code around the claims *)
(* ================================================================== *)

(** ** The solver: how it can fail *)

Section SolverFailureModes.
Import PropertySolver.
Context {F : Type} `{Arith F}.
Variable call_coolprop_cli : string -> string -> F -> string -> F -> string -> result F.
Variables (target_prop : string) (target_value : F)
          (known_prop : string) (known_value : F) (unknown_prop : string)
          (min_guess max_guess : F) (fluid : string)
          (tolerance : F) (max_iterations : Z).

Local Notation "'look'" :=
  (lookup call_coolprop_cli target_prop known_prop known_value unknown_prop fluid).
Local Notation "'body'" :=
  (iteration_body call_coolprop_cli target_prop target_value known_prop known_value
                  unknown_prop fluid tolerance).
Local Notation "'entry'" := (entry_locals min_guess max_guess).

Lemma relative_error_raises (v : F) (e : exn) :
  relative_error target_value v = inl e ->
  e = ZeroDivisionError /\ feq (fabs target_value) (lit 0) = true.
Proof.
  unfold relative_error, truediv.
  destruct (feq (fabs target_value) (lit 0)); [| discriminate].
  intros [= <-]. split; reflexivity.
Qed.

(** A round after the first, entered with [actual_value] bound, never raises. *)
Lemma later_round_never_raises (i : Z) (s s' : locals F) (o : list (line F)) (e : exn) :
  (1 <= i)%Z -> actual_value s <> None ->
  body i s <> (o, s', inl e).
Proof.
  intros Hi Hb.
  assert (Ei : (i =? 0)%Z = false) by (apply Z.eqb_neq; lia).
  destruct (look (midpoint s)) as [e0 | v] eqn:E.
  - rewrite (body_handler _ _ _ _ _ _ _ _ i s e0 E), Ei.
    destruct (actual_value s); [discriminate | contradiction].
  - destruct (relative_error target_value v) as [e0 | err] eqn:Eerr.
    + rewrite (body_division_raises _ _ _ _ _ _ _ _ i s v e0 E Eerr), Ei. discriminate.
    + rewrite (body_evaluated _ _ _ _ _ _ _ _ i s v err E Eerr).
      destruct (flt err tolerance); discriminate.
Qed.

Lemma later_rounds_never_raise (n : nat) :
  forall (i : Z) (s s' : locals F) (o : list (line F)) (e : exn),
    (1 <= i)%Z -> actual_value s <> None ->
    for_from n i body s <> (o, s', inl e).
Proof.
  induction n as [| n IH]; intros i s s' o e Hi Hb.
  - simpl. unfold ret. discriminate.
  - rewrite for_from_unfold.
    destruct (body i s) as [[o1 s1] [e1 | [x |]]] eqn:Ebody.
    + exfalso. exact (later_round_never_raises i s s1 o1 e1 Hi Hb Ebody).
    + discriminate.
    + destruct (for_from n (i + 1)%Z body s1) as [[o2 s2] r2] eqn:Erest.
      intros [= _ _ ->].
      destruct (body_continue_bound _ _ _ _ _ _ _ _ _ _ _ _ Ebody) as (a & Ea).
      apply (IH (i + 1)%Z s1 s2 o2 e); [lia | congruence | exact Erest].
Qed.

(** X4. [solve_property] fails in three ways only: [ZeroDivisionError] when
    [abs(target_value) == 0]; the exception of the lookup at the first
    midpoint; or, once the loop has run out without converging, the exception
    of the lookup at the final midpoint.  A lookup that fails in any later
    round never ends the call, and no [UnboundLocalError] comes from reading
    [actual_value] in the handler. *)
Theorem solve_failure_modes (e : exn) :
  snd (solve_property call_coolprop_cli target_prop target_value known_prop known_value
                      unknown_prop min_guess max_guess fluid tolerance max_iterations)
    = inl e ->
  (e = ZeroDivisionError /\ feq (fabs target_value) (lit 0) = true) \/
  lookup call_coolprop_cli target_prop known_prop known_value unknown_prop fluid
         (midpoint (entry_locals min_guess max_guess)) = inl e \/
  (exists o s,
     bisection_loop call_coolprop_cli target_prop target_value known_prop known_value
                    unknown_prop fluid tolerance max_iterations
                    (entry_locals min_guess max_guess) = (o, s, inr None) /\
     lookup call_coolprop_cli target_prop known_prop known_value unknown_prop fluid
            (midpoint s) = inl e).
Proof.
  rewrite solve_unfold.
  destruct (bisection_loop _ _ _ _ _ _ _ _ _ entry) as [[o s] [e0 | [answer |]]] eqn:Eloop;
    simpl.
  - intros [= ->]. rewrite loop_unfold in Eloop.
    destruct (Z.to_nat max_iterations) as [| n]; [discriminate Eloop |].
    rewrite for_from_unfold in Eloop.
    destruct (body 0%Z entry) as [[o1 s1] [e1 | [x |]]] eqn:Ebody.
    + injection Eloop as _ _ ->.
      destruct (look (midpoint entry)) as [e0 | v] eqn:E.
      * rewrite (body_handler _ _ _ _ _ _ _ _ 0%Z entry e0 E) in Ebody. simpl in Ebody.
        injection Ebody as _ _ ->. right; left. reflexivity.
      * destruct (relative_error target_value v) as [e0 | err] eqn:Eerr.
        -- rewrite (body_division_raises _ _ _ _ _ _ _ _ 0%Z entry v e0 E Eerr) in Ebody.
           simpl in Ebody. injection Ebody as _ _ ->.
           left. exact (relative_error_raises v e Eerr).
        -- rewrite (body_evaluated _ _ _ _ _ _ _ _ 0%Z entry v err E Eerr) in Ebody.
           destruct (flt err tolerance); discriminate Ebody.
    + discriminate Eloop.
    + destruct (for_from n (0 + 1)%Z body s1) as [[o2 s2] r2] eqn:Erest.
      injection Eloop as _ _ ->.
      destruct (body_continue_bound _ _ _ _ _ _ _ _ _ _ _ _ Ebody) as (a & Ea).
      exfalso. apply (later_rounds_never_raise n (0 + 1)%Z s1 s2 o2 e); [lia | congruence | exact Erest].
  - discriminate.
  - rewrite finish_unfold.
    destruct (look (midpoint s)) as [e0 | v] eqn:E.
    + intros [= ->]. right; right. exists o, s. split; [reflexivity | exact E].
    + destruct (relative_error target_value v) as [e0 | err] eqn:Eerr; [| discriminate].
      intros [= ->]. left. exact (relative_error_raises v e Eerr).
Qed.

End SolverFailureModes.

(** X4, a run: the property is known at 2 only; after the single round the
    lookup at the final midpoint 1 raises. *)
Lemma solve_failure_modes_witness :
  exists o s,
    PropertySolver.bisection_loop (service_of (only_at 2%float 10%float))
      "S" 1%float "P" 100000%float "T" "Air" default_tolerance 1
      (PropertySolver.entry_locals 0%float 4%float) = (o, s, inr None) /\
    service_of (only_at 2%float 10%float) "S" "P" 100000%float "T"
      (PropertySolver.midpoint s) "Air" = inl (RuntimeError "CoolProp CLI failed").
Proof.
  assert (E : snd (PropertySolver.solve_property (service_of (only_at 2%float 10%float))
                     "S" 1%float "P" 100000%float "T" 0%float 4%float "Air"
                     default_tolerance 1)
               = inl (RuntimeError "CoolProp CLI failed")) by (vm_compute; reflexivity).
  destruct (solve_failure_modes (service_of (only_at 2%float 10%float))
              "S" 1%float "P" 100000%float "T" 0%float 4%float "Air"
              default_tolerance 1 (RuntimeError "CoolProp CLI failed") E)
    as [(Habs & _) | [Habs | Hlast]].
  - discriminate Habs.
  - vm_compute in Habs. discriminate Habs.
  - exact Hlast.
Defined.

(** ** The counterflow program: how it can fail *)

Section CounterflowFailureModes.
Import CounterflowHX.
Local Open Scope float_scope.
Variable PropsSI : string -> string -> float -> string -> float -> string -> result float.

Ltac run_inner :=
  match goal with
  | |- (let (p, r) := ?m in _) = _ -> _ =>
      let o' := fresh "o'" in let r' := fresh "r'" in let E := fresh "E" in
      destruct m as [[o' []] r'] eqn:E; simpl
  end.

Ltac by_service :=
  right; do 6 eexists; eassumption.

Lemma truediv_raises (a b : float) (e : exn) :
  truediv a b = inl e -> e = ZeroDivisionError.
Proof.
  unfold truediv. destruct (feq b (lit 0)); [| discriminate].
  intros [= <-]. reflexivity.
Qed.

Lemma boundary_raises (Thi Tho Ph Tci Tco Pc mh mc : float) (fh fc : string)
    (o : list line) (e : exn) :
  compute_boundary_temperatures PropsSI Thi Tho Ph Tci Tco Pc mh mc fh fc tt
    = (o, tt, inl e) ->
  e = ZeroDivisionError \/ raised_by_service PropsSI e.
Proof.
  unfold compute_boundary_temperatures, bind, lift, print, ret.
  repeat match goal with
         | |- context [match PropsSI ?p ?a ?b ?c ?d ?f with inl _ => _ | inr _ => _ end] =>
             let E := fresh "E" in
             destruct (PropsSI p a b c d f) eqn:E;
             [intros [= _ <-]; by_service |]
         end.
  repeat match goal with
         | |- context [match truediv ?a ?b with inl _ => _ | inr _ => _ end] =>
             let E := fresh "E" in
             destruct (truediv a b) eqn:E;
             [intros [= _ <-]; left; exact (truediv_raises _ _ _ E) |]
         end.
  simpl. discriminate.
Qed.

Lemma exergy_analysis_raises (m_dot_h m_dot_c : float) (chosen : option boundary)
    (o : list line) (e : exn) :
  exergy_analysis m_dot_h m_dot_c chosen tt = (o, tt, inl e) ->
  e = ZeroDivisionError.
Proof.
  destruct chosen as [b |]; simpl; [| unfold ret; discriminate].
  unfold compute_exergy_destruction, compute_exergetic_efficiency,
    bind, lift, print, ret.
  repeat match goal with
         | |- context [match truediv ?a ?b with inl _ => _ | inr _ => _ end] =>
             let E := fresh "E" in
             destruct (truediv a b) eqn:E;
             [intros [= _ <-]; exact (truediv_raises _ _ _ E) |]
         end.
  simpl.
  match goal with
  | |- context [if ?c then _ else _] => destruct c eqn:Ec
  end; simpl.
  - match goal with
    | |- context [truediv ?a ?b] => rewrite (guarded_truediv a b)
    end; [simpl; discriminate |].
    apply negb_true_iff in Ec. exact Ec.
  - discriminate.
Qed.

Lemma evaluate_case_raises (mu h_h_in h_c_in : float) (pinch_hot : bool) (e : exn) :
  evaluate_case PropsSI mu h_h_in h_c_in pinch_hot = inl e ->
  raised_by_service PropsSI e.
Proof.
  unfold evaluate_case. destruct pinch_hot.
  - destruct (PropsSI "H" "T" (T_c_in + dTmin) "P" P_h fluid_h) eqn:E; simpl;
      [intros [= <-]; do 6 eexists; exact E | discriminate].
  - destruct (PropsSI "H" "T" (T_h_in - dTmin) "P" P_c fluid_c) eqn:E; simpl;
      [intros [= <-]; do 6 eexists; exact E |].
    destruct (mu =? 0) eqn:Emu; simpl; [discriminate |].
    rewrite (guarded_truediv _ _ Emu). simpl. discriminate.
Qed.

Lemma carry_forward_raises (m_dot_h m_dot_c Th Tc : float) (o : list line) (e : exn) :
  bind (lift (ok Th)) (fun Th' =>
    bind (lift (ok Tc)) (fun Tc' =>
      bind (compute_boundary_temperatures PropsSI T_h_in Th' P_h T_c_in Tc' P_c
              m_dot_h m_dot_c fluid_h fluid_c)
           (fun b => ret (Some b)))) tt = (o, tt, inl e) ->
  e = ZeroDivisionError \/ raised_by_service PropsSI e.
Proof.
  unfold bind, lift, ret. simpl.
  destruct (compute_boundary_temperatures _ _ _ _ _ _ _ _ _ _ _ tt)
    as [[ob []] [e' | b]] eqn:Eb; simpl; [| discriminate].
  intros [= _ <-]. exact (boundary_raises _ _ _ _ _ _ _ _ _ _ _ _ Eb).
Qed.

Lemma second_choice_raises (m_dot_h m_dot_c : float) (case2 : candidate)
    (Tc2 : float) (o : list line) (e : exn) :
  T_c_out case2 = Some Tc2 ->
  dT_other case2 = match T_h_out case2 with Some T => Some (T - T_c_in) | None => None end ->
  bind (lift (passes (T_h_out case2) (dT_other case2))) (fun use2 : bool =>
    if use2 then
      bind (lift (as_float (T_h_out case2))) (fun Th' =>
        bind (lift (as_float (T_c_out case2))) (fun Tc' =>
          bind (compute_boundary_temperatures PropsSI T_h_in Th' P_h T_c_in Tc' P_c
                  m_dot_h m_dot_c fluid_h fluid_c)
               (fun b => ret (Some b))))
    else ret None) tt = (o, tt, inl e) ->
  e = ZeroDivisionError \/ raised_by_service PropsSI e.
Proof.
  intros ETc2 Ed2.
  unfold passes. rewrite Ed2, ETc2. unfold bind at 1. unfold lift at 1.
  destruct (T_h_out case2) as [Th2 |]; simpl.
  - destruct (dTmin <=? Th2 - T_c_in).
    + run_inner.
      intros [= _ ->]. exact (carry_forward_raises m_dot_h m_dot_c Th2 Tc2 o' e E).
    + unfold ret. discriminate.
  - unfold ret. discriminate.
Qed.

Lemma choose_case_raises (m_dot_h m_dot_c : float) (case1 case2 : candidate)
    (T1 d1 Tc2 : float) (o : list line) (e : exn) :
  T_h_out case1 = Some T1 -> dT_other case1 = Some d1 ->
  T_c_out case2 = Some Tc2 ->
  dT_other case2 = match T_h_out case2 with Some T => Some (T - T_c_in) | None => None end ->
  choose_case PropsSI m_dot_h m_dot_c case1 case2 tt = (o, tt, inl e) ->
  e = ZeroDivisionError \/ raised_by_service PropsSI e.
Proof.
  intros ET1 Ed1 ETc2 Ed2.
  unfold choose_case. unfold bind at 1. unfold lift at 1.
  unfold passes at 1. rewrite Ed1, ET1.
  destruct (T_c_out case1) as [Tc1 |]; simpl.
  - destruct (dTmin <=? d1).
    + run_inner.
      intros [= _ ->]. exact (carry_forward_raises m_dot_h m_dot_c T1 Tc1 o' e E).
    + run_inner.
      intros [= _ ->]. exact (second_choice_raises _ _ _ _ _ _ ETc2 Ed2 E).
  - run_inner.
    intros [= _ ->]. exact (second_choice_raises _ _ _ _ _ _ ETc2 Ed2 E).
Qed.

(** X6. Whatever the PropertyService and the mass flows, an exception that
    leaves [main] is either one that a PropertyService lookup raised or a
    [ZeroDivisionError] of the boundary-temperature and exergy quotients: the
    values that may be [None] are never used as numbers, and the guarded
    quotients (the mass-flow ratio, the implied ratios, the efficiency) never
    raise. *)
Theorem counterflow_failure_modes (m_dot_h m_dot_c : float) (out : list line) (e : exn) :
  main PropsSI m_dot_h m_dot_c tt = (out, tt, inl e) ->
  e = ZeroDivisionError \/ raised_by_service PropsSI e.
Proof.
  unfold main. unfold bind at 1. unfold lift at 1.
  assert (Emu : mass_flow_ratio m_dot_h m_dot_c
                = inr (if m_dot_c =? 0 then infinity else m_dot_h / m_dot_c)).
  { unfold mass_flow_ratio, truediv; simpl. destruct (m_dot_c =? 0); reflexivity. }
  rewrite Emu. set (mu := if m_dot_c =? 0 then infinity else m_dot_h / m_dot_c).
  unfold bind at 1. unfold lift at 1.
  destruct (PropsSI "H" "T" T_h_in "P" P_h fluid_h) as [e0 | h_h_in] eqn:Eh;
    [intros [= _ <-]; by_service |].
  unfold bind at 1. unfold lift at 1.
  destruct (PropsSI "H" "T" T_c_in "P" P_c fluid_c) as [e0 | h_c_in] eqn:Ec;
    [intros [= _ <-]; by_service |].
  unfold bind at 1 2 3 4. unfold print, lift at 1.
  destruct (evaluate_case PropsSI mu h_h_in h_c_in true) as [e0 | case1] eqn:H1;
    [intros [= _ <-]; right; exact (evaluate_case_raises _ _ _ _ _ H1) |].
  unfold bind at 1. unfold lift at 1.
  destruct (evaluate_case PropsSI mu h_h_in h_c_in false) as [e0 | case2] eqn:H2;
    [intros [= _ <-]; right; exact (evaluate_case_raises _ _ _ _ _ H2) |].
  destruct (evaluate_hot_pinch_shape _ _ _ _ _ H1) as (T1 & h1 & ET1 & Eh1 & Ed1).
  destruct (evaluate_cold_pinch_shape _ _ _ _ _ H2) as (ETc2 & Ed2 & _).
  destruct (report_case1_lines h_h_in h_c_in case1 T1 h1 _ ET1 Eh1 Ed1)
    as (o1 & E1 & _).
  destruct (report_case2_lines h_h_in h_c_in case2 _ ETc2 Ed2)
    as (o2 & E2 & _).
  unfold bind at 1. rewrite E1. unfold bind at 1. rewrite E2.
  unfold bind.
  destruct (choose_case PropsSI m_dot_h m_dot_c case1 case2 tt) as [[o3 []] [e3 | chosen]] eqn:E3.
  - intros [= _ <-]. exact (choose_case_raises _ _ _ _ _ _ _ _ _ ET1 Ed1 ETc2 Ed2 E3).
  - destruct (exergy_analysis m_dot_h m_dot_c chosen tt) as [[o4 []] [e4 | []]] eqn:E4.
    + intros [= _ <-]. left. exact (exergy_analysis_raises _ _ _ _ _ E4).
    + discriminate.
Qed.

End CounterflowFailureModes.

(** X6, a run: a service that answers 300 to every query makes the hot-pinch
    candidate feasible, and the boundary temperature of a stream whose
    entropy does not change divides by zero. *)
Lemma counterflow_failure_modes_witness :
  exists out,
    CounterflowHX.main (constant_service 300%float) 2%float 0x1.3333333333333p+0%float tt
      = (out, tt, inl ZeroDivisionError).
Proof.
  pose (r := CounterflowHX.main (constant_service 300%float)
               2%float 0x1.3333333333333p+0%float tt).
  assert (E : r = (fst (fst r), tt, inl ZeroDivisionError)) by (vm_compute; reflexivity).
  pose proof (counterflow_failure_modes (constant_service 300%float)
                2%float 0x1.3333333333333p+0%float _ _ E) as _.
  exists (fst (fst r)). exact E.
Defined.

(** ** The command-line layer *)

Section Strings.
Local Open Scope string_scope.
Import Python.

Lemma append_assoc (a b c : string) : (a ++ b) ++ c = a ++ (b ++ c).
Proof. induction a as [| x a IH]; simpl; [reflexivity | now rewrite IH]. Qed.

Lemma contains_app (c : ascii) (a b : string) :
  contains c (a ++ b) = contains c a || contains c b.
Proof.
  induction a as [| x a IH]; simpl; [reflexivity |].
  rewrite IH. now rewrite orb_assoc.
Qed.

Lemma every_contains (p : ascii -> bool) (c : ascii) (s : string) :
  every p s = true -> p c = false -> contains c s = false.
Proof.
  intros Hs Hc. induction s as [| x s IH]; simpl in *; [reflexivity |].
  apply andb_true_iff in Hs as [Hx Hs]. rewrite (IH Hs), orb_false_r.
  destruct (Ascii.eqb_spec x c) as [-> |]; [congruence | reflexivity].
Qed.

Lemma universal_newlines_app (f : bool) (a : string) (c : ascii) (b : string) :
  Ascii.eqb c LF = false -> Ascii.eqb c CR = false ->
  universal_newlines f (a ++ String c b)
  = universal_newlines f a ++ String c (universal_newlines false b).
Proof.
  intros Hlf Hcr. revert f. induction a as [| x a IH]; intros f; simpl.
  - now rewrite Hlf, Hcr.
  - destruct (Ascii.eqb x LF && f); [apply IH |].
    destruct (Ascii.eqb x CR); simpl; now rewrite IH.
Qed.

Lemma universal_newlines_without_CR (s : string) :
  contains CR s = false -> universal_newlines false s = s.
Proof.
  induction s as [| x s IH]; simpl; [reflexivity |].
  intros Hs. apply orb_false_iff in Hs as [Hx Hs].
  rewrite andb_false_r, Hx. now rewrite IH.
Qed.

Lemma lstrip_app (a : string) (c : ascii) (b : string) :
  isspace c = false -> lstrip (a ++ String c b) = lstrip a ++ String c b.
Proof.
  intros Hc. induction a as [| x a IH]; simpl.
  - now rewrite Hc.
  - destruct (isspace x); [exact IH | reflexivity].
Qed.

Lemma rstrip_app (a b : string) :
  rstrip b <> EmptyString -> rstrip (a ++ b) = a ++ rstrip b.
Proof.
  intros Hb. induction a as [| x a IH]; simpl; [reflexivity |].
  rewrite IH. destruct a; simpl; destruct (rstrip b); congruence.
Qed.

Lemma rstrip_LF (a : string) : rstrip (a ++ String LF EmptyString) = rstrip a.
Proof. induction a as [| x a IH]; simpl; [reflexivity | now rewrite IH]. Qed.

Lemma rstrip_every (s : string) :
  every (fun c => negb (isspace c)) s = true -> rstrip s = s.
Proof.
  induction s as [| x s IH]; simpl; [reflexivity |].
  intros Hs. apply andb_true_iff in Hs as [Hx Hs]. rewrite (IH Hs).
  apply negb_true_iff in Hx. rewrite Hx. now destruct s.
Qed.

Lemma rstrip_cons (c : ascii) (s : string) :
  rstrip s <> EmptyString -> rstrip (String c s) = String c (rstrip s).
Proof. simpl. destruct (rstrip s); congruence. Qed.

Lemma tail_segment_without (sep : ascii) (s : string) :
  contains sep s = false -> tail_segment sep s = s.
Proof.
  destruct s as [| x s]; simpl; [reflexivity |].
  intros Hs. apply orb_false_iff in Hs as [Hx Hs]. now rewrite Hs, Hx.
Qed.

Lemma split_without (sep : ascii) (s : string) :
  contains sep s = false -> split sep s = [s].
Proof.
  induction s as [| x s IH]; simpl; [reflexivity |].
  intros Hs. apply orb_false_iff in Hs as [Hx Hs]. now rewrite Hx, (IH Hs).
Qed.

Lemma split_with (sep : ascii) (s : string) :
  contains sep s = true -> exists x y l, split sep s = x :: y :: l.
Proof.
  induction s as [| c s IH]; simpl; [discriminate |].
  destruct (Ascii.eqb c sep); simpl.
  - intros _. destruct (contains sep s) eqn:Hs.
    + destruct (IH eq_refl) as (x & y & l & ->). now exists EmptyString, x, (y :: l).
    + rewrite (split_without _ _ Hs). now exists EmptyString, s, [].
  - intros Hs. destruct (IH Hs) as (x & y & l & ->). now exists (String c x), y, l.
Qed.

(** The last item of [s.split(sep)] is what follows the last [sep] of [s]. *)
Lemma last_split (sep : ascii) (s : string) :
  last (split sep s) EmptyString = tail_segment sep s.
Proof.
  induction s as [| c s IH]; [reflexivity |].
  cbn [split tail_segment].
  destruct (contains sep s) eqn:Hs.
  - destruct (split_with _ _ Hs) as (x & y & l & E). rewrite E in *.
    rewrite <- IH. now destruct (Ascii.eqb c sep).
  - rewrite (split_without _ _ Hs). now destruct (Ascii.eqb c sep).
Qed.

Lemma tail_segment_app (sep : ascii) (a b : string) :
  contains sep b = false -> tail_segment sep (a ++ b) = tail_segment sep a ++ b.
Proof.
  intros Hb. induction a as [| x a IH]; simpl.
  - now apply tail_segment_without.
  - rewrite contains_app, Hb, orb_false_r.
    destruct (contains sep a); [exact IH |].
    now destruct (Ascii.eqb x sep).
Qed.

Lemma tail_segment_after (sep : ascii) (a b : string) :
  contains sep b = false -> tail_segment sep (a ++ String sep b) = b.
Proof.
  intros Hb. induction a as [| x a IH]; simpl.
  - now rewrite Hb, Ascii.eqb_refl.
  - rewrite contains_app. simpl. rewrite Ascii.eqb_refl, orb_true_r. exact IH.
Qed.

End Strings.

Section CoolPropStack.
Local Open Scope string_scope.
Import Python.
Variable PropsSI : string -> string -> float -> string -> float -> string -> result float.
Variable float_of_str : string -> result float.
Variable str_of_float : float -> string.
Variables str_of_exn traceback : exn -> string.

Lemma number_text_spec (r : string) :
  number_text r = true ->
  r <> EmptyString /\
  every (fun c => negb (isspace c)) r = true /\
  contains LF r = false /\ contains CR r = false /\ contains ":" r = false.
Proof.
  unfold number_text. intros Hr. apply andb_true_iff in Hr as [Hn He].
  split; [| split; [| repeat split]].
  - intros ->. discriminate Hn.
  - clear Hn. induction r as [| x r IH]; simpl in *; [reflexivity |].
    apply andb_true_iff in He as [Hx He]. apply andb_true_iff in Hx as [Hx _].
    now rewrite Hx, (IH He).
  - now apply (every_contains _ _ _ He).
  - now apply (every_contains _ _ _ He).
  - now apply (every_contains _ _ _ He).
Qed.

(** What the caller reads back from a line that ends in a colon, a blank and
    a number text. *)
Lemma parse_output_value (X r : string) (x : float) :
  number_text r = true -> float_of_str r = ok x ->
  PropertySolverCLI.parse_output float_of_str
    (universal_newlines false (printed [X ++ String ":" (String " " r)]))
  = PropertySolverCLI.Value x.
Proof.
  intros Hr Hx. destruct (number_text_spec r Hr) as (Hne & Hsp & Hlf & Hcr & Hcolon).
  assert (Hrs : rstrip r = r) by now apply rstrip_every.
  unfold PropertySolverCLI.parse_output, strip. cbn [printed].
  rewrite append_assoc. cbn [String.append].
  rewrite universal_newlines_app by reflexivity.
  rewrite (universal_newlines_without_CR (String " " (r ++ String LF EmptyString)))
    by (cbn [contains]; rewrite contains_app, Hcr; reflexivity).
  rewrite lstrip_app by reflexivity.
  assert (Hline : rstrip (String ":" (String " " (r ++ String LF EmptyString)))
                  = String ":" (String " " r)).
  { rewrite !rstrip_cons.
    - now rewrite rstrip_LF, Hrs.
    - rewrite rstrip_LF, Hrs. exact Hne.
    - rewrite rstrip_cons; [discriminate |]. rewrite rstrip_LF, Hrs. exact Hne. }
  rewrite rstrip_app by (rewrite Hline; discriminate).
  rewrite Hline, !last_split.
  rewrite tail_segment_app by (cbn [contains]; rewrite Hlf; reflexivity).
  rewrite contains_app. cbn [contains]. rewrite Ascii.eqb_refl, orb_true_r.
  cbn [orb].
  rewrite tail_segment_after by (cbn [contains]; rewrite Hcolon; reflexivity).
  cbn [lstrip]. change (isspace " ") with true. cbn iota.
  assert (Hls : lstrip r = r).
  { destruct r as [| c r]; [reflexivity |]. simpl in Hsp |- *.
    apply andb_true_iff in Hsp as [Hc _]. apply negb_true_iff in Hc. now rewrite Hc. }
  now rewrite Hls, Hrs, Hx.
Qed.

Lemma result_line_shape (prop in1_type : string) (in1_val : float) (in2_type : string)
    (in2_val : float) (fluid : string) (x : float) :
  exists X,
    CoolPropCLI.result_line str_of_float prop in1_type in1_val in2_type in2_val fluid x
    = X ++ String ":" (String " " (str_of_float x)).
Proof.
  unfold CoolPropCLI.result_line.
  exists (prop ++ " at " ++ in1_type ++ "=" ++ str_of_float in1_val ++ ", " ++
          in2_type ++ "=" ++ str_of_float in2_val ++ " for " ++ fluid).
  now rewrite !append_assoc.
Qed.

(** X7. A query the library answers comes back unchanged through the
    whole chain, [call_coolprop_cli] starting [coolprop_cli.py] and reading
    its output: whatever the property names and the fluid name contain (blanks,
    colons, line breaks), the value parsed from the last printed line is the
    library's, provided [str] and [float] round-trip the three numbers and
    the text of the result has no blank and no colon. *)
Theorem coolprop_stack_round_trip
    (prop input1_type : string) (input1_value : float)
    (input2_type : string) (input2_value : float) (fluid : string) (x : float) :
  float_of_str (str_of_float input1_value) = ok input1_value ->
  float_of_str (str_of_float input2_value) = ok input2_value ->
  float_of_str (str_of_float x) = ok x ->
  number_text (str_of_float x) = true ->
  PropsSI prop input1_type input1_value input2_type input2_value fluid = ok x ->
  coolprop_stack PropsSI float_of_str str_of_float str_of_exn traceback
    prop input1_type input1_value input2_type input2_value fluid = ok x.
Proof.
  intros H1 H2 Hx Hr Hp.
  unfold coolprop_stack, PropertySolverCLI.call_coolprop_cli, python, CoolPropCLI.main.
  cbn [tl List.length Nat.ltb Nat.leb nth].
  rewrite H1, H2. unfold ok at 1 2. cbn iota. rewrite Hp. unfold ok at 1. cbn iota.
  cbn [returncode stdout stderr Z.eqb].
  destruct (result_line_shape prop input1_type input1_value input2_type input2_value fluid x)
    as [X ->].
  unfold ok at 1. cbn iota. cbn [returncode stdout Z.eqb].
  now rewrite (parse_output_value X (str_of_float x) x Hr Hx).
Qed.

(** What the caller reads back from the four lines of a failed query. *)
Lemma parse_output_error (fluid : string) (e : exn) :
  PropertySolverCLI.parse_output float_of_str
    (universal_newlines false (printed (CoolPropCLI.error_lines str_of_exn fluid e)))
  = match float_of_str address_tail with
    | inr x => PropertySolverCLI.Value x
    | inl e' => PropertySolverCLI.Raised e'
    end.
Proof.
  set (tail := "or a complete list of fluids, visit: http://www.coolprop.org/fluid_properties/PurePseudoPure.html").
  assert (Hshape : exists P,
            printed (CoolPropCLI.error_lines str_of_exn fluid e)
            = P ++ String "F" (tail ++ String LF EmptyString)).
  { unfold CoolPropCLI.error_lines. cbn [printed].
    exists (("Error: " ++ str_of_exn e) ++ String LF
            (("Make sure '" ++ fluid ++ "' is a valid CoolProp fluid name.") ++ String LF
             (("Common fluids: " ++ join ", " CoolPropCLI.list_common_fluids) ++
              String LF (String LF EmptyString)))).
    rewrite !append_assoc. cbn [String.append]. rewrite !append_assoc.
    cbn [String.append].
    reflexivity. }
  destruct Hshape as [P ->].
  unfold PropertySolverCLI.parse_output, strip.
  rewrite universal_newlines_app by reflexivity.
  rewrite (universal_newlines_without_CR (tail ++ String LF EmptyString)) by reflexivity.
  rewrite lstrip_app by reflexivity.
  rewrite rstrip_app by (vm_compute; discriminate).
  change (rstrip (String "F" (tail ++ String LF EmptyString))) with (String "F" tail).
  rewrite !last_split.
  rewrite tail_segment_app by reflexivity.
  rewrite contains_app.
  replace (contains ":" (String "F" tail)) with true by reflexivity.
  rewrite orb_true_r.
  change (String "F" tail)
    with ("For a complete list of fluids, visit: http" ++ String ":" address_tail).
  rewrite <- append_assoc.
  rewrite tail_segment_after by reflexivity.
  change (rstrip (lstrip address_tail)) with address_tail.
  reflexivity.
Qed.

(** A query the library rejects, as its caller sees it. *)
Lemma rejected_query
    (prop input1_type : string) (input1_value : float)
    (input2_type : string) (input2_value : float) (fluid : string) (e : exn) :
  float_of_str (str_of_float input1_value) = ok input1_value ->
  float_of_str (str_of_float input2_value) = ok input2_value ->
  PropsSI prop input1_type input1_value input2_type input2_value fluid = inl e ->
  coolprop_stack PropsSI float_of_str str_of_float str_of_exn traceback
    prop input1_type input1_value input2_type input2_value fluid
  = match float_of_str address_tail with
    | inr x => ok x
    | inl (ValueError m) => inl (RuntimeError ("Failed to parse CoolProp output: " ++ m))
    | inl e' => inl e'
    end.
Proof.
  intros H1 H2 Hp.
  unfold coolprop_stack, PropertySolverCLI.call_coolprop_cli, python, CoolPropCLI.main.
  cbn [tl List.length Nat.ltb Nat.leb nth].
  rewrite H1, H2. unfold ok at 1 2. cbn iota. rewrite Hp.
  unfold ok at 1. cbn iota. cbn [returncode stdout Z.eqb].
  rewrite parse_output_error.
  destruct (float_of_str address_tail) as [[] |]; reflexivity.
Qed.

(** X8. A query the library rejects, with whatever exception and for
    whatever fluid, is not reported as such: [coolprop_cli.py] prints its
    four lines and returns with status 0, and [call_coolprop_cli] takes what
    follows the last colon of the last line, the tail of the web address, for
    the number.  Its caller gets [RuntimeError] with the message of [float]
    on that tail after the words Failed to parse CoolProp output; the
    library's own message is lost. *)
Theorem coolprop_stack_failure
    (prop input1_type : string) (input1_value : float)
    (input2_type : string) (input2_value : float) (fluid : string) (e : exn) (m : string) :
  float_of_str (str_of_float input1_value) = ok input1_value ->
  float_of_str (str_of_float input2_value) = ok input2_value ->
  float_of_str address_tail = inl (ValueError m) ->
  PropsSI prop input1_type input1_value input2_type input2_value fluid = inl e ->
  coolprop_stack PropsSI float_of_str str_of_float str_of_exn traceback
    prop input1_type input1_value input2_type input2_value fluid
  = inl (RuntimeError ("Failed to parse CoolProp output: " ++ m)) /\
  snd (CoolPropCLI.main PropsSI float_of_str str_of_float str_of_exn
         ["coolprop_cli.py"; prop; input1_type; str_of_float input1_value;
          input2_type; str_of_float input2_value; fluid]) = Returned.
Proof.
  intros H1 H2 Hm Hp. split.
  - rewrite (rejected_query _ _ _ _ _ _ e H1 H2 Hp), Hm. reflexivity.
  - unfold CoolPropCLI.main. cbn [List.length Nat.ltb Nat.leb nth].
    rewrite H1, H2. unfold ok at 1 2. cbn iota. rewrite Hp. reflexivity.
Qed.

End CoolPropStack.

Section EndToEnd.
Local Open Scope string_scope.
Import PropertySolver.
Variable PropsSI : string -> string -> float -> string -> float -> string -> result float.
Variable float_of_str : string -> result float.
Variable str_of_float : float -> string.
Variables str_of_exn traceback : exn -> string.

(** With at least one round allowed, a lookup that raises at the first
    midpoint ends the call after the heading and that round's error line. *)
Lemma first_failure_run {F : Type} `{Arith F}
    (call : string -> string -> F -> string -> F -> string -> result F)
    (target_prop : string) (target_value : F) (known_prop : string) (known_value : F)
    (unknown_prop : string) (min_guess max_guess : F) (fluid : string) (tolerance : F)
    (max_iterations : Z) (e : exn) :
  (0 < max_iterations)%Z ->
  lookup call target_prop known_prop known_value unknown_prop fluid
         (midpoint (entry_locals min_guess max_guess)) = inl e ->
  solve_property call target_prop target_value known_prop known_value unknown_prop
                 min_guess max_guess fluid tolerance max_iterations
  = ((banner target_prop target_value known_prop known_value unknown_prop
             min_guess max_guess fluid tolerance max_iterations
      ++ [IterError 1 (midpoint (entry_locals min_guess max_guess)) e])%list, inl e).
Proof.
  intros Hpos E. rewrite solve_unfold, loop_unfold.
  destruct (Z.to_nat max_iterations) as [| n] eqn:En; [lia |].
  rewrite for_from_unfold, (body_handler _ _ _ _ _ _ _ _ 0%Z _ e E). reflexivity.
Qed.

(** X9. End to end: when the library rejects the state at the first
    midpoint (an unknown fluid, say), [main] of [property_solver.py] prints the
    heading, the error line of round 1 and the final error line, both with the
    parse failure of X8 in place of the library's message, and exits with
    status 1. *)
Theorem main_reports_unresolved_state
    (argv : list string) (target_value known_value min_guess max_guess tolerance : float)
    (e : exn) (m : string) :
  (8 <= List.length argv)%nat ->
  PropertySolverCLI.read_arguments float_of_str argv
    = ok (target_value, known_value, min_guess, max_guess, tolerance) ->
  float_of_str (str_of_float known_value) = ok known_value ->
  float_of_str (str_of_float (midpoint (entry_locals min_guess max_guess)))
    = ok (midpoint (entry_locals min_guess max_guess)) ->
  float_of_str address_tail = inl (ValueError m) ->
  PropsSI (nth 1 argv EmptyString) (nth 3 argv EmptyString) known_value (nth 5 argv EmptyString)
          (midpoint (entry_locals min_guess max_guess))
          (if (8 <? List.length argv)%nat then nth 8 argv EmptyString else "Water") = inl e ->
  PropertySolverCLI.main
    (python (CoolPropCLI.main PropsSI float_of_str str_of_float str_of_exn) traceback)
    float_of_str str_of_float argv
  = ((map PropertySolverCLI.Solver
        (banner (nth 1 argv EmptyString) target_value (nth 3 argv EmptyString) known_value (nth 5 argv EmptyString)
                min_guess max_guess
                (if (8 <? List.length argv)%nat then nth 8 argv EmptyString else "Water")
                tolerance default_max_iterations
         ++ [IterError 1 (midpoint (entry_locals min_guess max_guess))
               (RuntimeError ("Failed to parse CoolProp output: " ++ m))])
      ++ [PropertySolverCLI.Error
            (RuntimeError ("Failed to parse CoolProp output: " ++ m))])%list,
     Exited 1).
Proof.
  intros Hlen Hargs Hk Hg Hm Hp.
  unfold PropertySolverCLI.main.
  replace (List.length argv <? 8)%nat with false by (symmetry; apply Nat.ltb_ge, Hlen).
  rewrite Hargs. unfold ok at 1. cbn iota.
  rewrite (first_failure_run _ _ _ _ _ _ _ _ _ _ default_max_iterations
             (RuntimeError ("Failed to parse CoolProp output: " ++ m))).
  - reflexivity.
  - reflexivity.
  - unfold lookup.
    pose proof (rejected_query PropsSI float_of_str str_of_float str_of_exn traceback
                  _ _ _ _ _ _ e Hk Hg Hp) as Hq.
    rewrite Hm in Hq. exact Hq.
Qed.

End EndToEnd.

(** X7, a run: entropy of Air at 100000 Pa and 900 K. *)
Lemma coolprop_stack_round_trip_witness :
  coolprop_stack (constant_service 4468.75%float)
    sample_float_of_str sample_str_of_float sample_str_of_exn sample_str_of_exn
    "S" "P" 100000%float "T" 900%float "Air" = ok 4468.75%float.
Proof.
  apply coolprop_stack_round_trip; reflexivity.
Defined.

(** X8, a run: a library that knows the property at 2 only, asked at 900. *)
Lemma coolprop_stack_failure_witness :
  coolprop_stack (service_of (only_at 2%float 10%float))
    sample_float_of_str sample_str_of_float sample_str_of_exn sample_str_of_exn
    "S" "P" 100000%float "T" 900%float "Air"
  = inl (RuntimeError
           ("Failed to parse CoolProp output: " ++
            "could not convert string to float: '" ++ address_tail ++ "'")%string).
Proof.
  apply (coolprop_stack_failure _ _ _ _ _ _ _ _ _ _ _ (RuntimeError "CoolProp CLI failed"));
    reflexivity.
Defined.

(** X9, a run: the command line of the module's docstring over the same library. *)
Lemma main_reports_unresolved_state_witness :
  snd (PropertySolverCLI.main
         (python (CoolPropCLI.main (service_of (only_at 2%float 10%float))
                    sample_float_of_str sample_str_of_float sample_str_of_exn)
                 sample_str_of_exn)
         sample_float_of_str sample_str_of_float sample_argv)
  = Exited 1.
Proof.
  rewrite (main_reports_unresolved_state (service_of (only_at 2%float 10%float))
             sample_float_of_str sample_str_of_float sample_str_of_exn sample_str_of_exn
             sample_argv 4468.75%float 100000%float 300%float 1500%float default_tolerance
             (RuntimeError "CoolProp CLI failed")
             ("could not convert string to float: '" ++ address_tail ++ "'")%string).
  - reflexivity.
  - vm_compute. lia.
  - reflexivity.
  - reflexivity.
  - reflexivity.
  - reflexivity.
  - reflexivity.
Defined.

(** ** The script of the separator *)

Section FloatOrder.

(** [<] on binary64 numbers is transitive, [NaN] included. *)
Lemma SFltb_trans (x y z : spec_float) :
  SFltb x y = true -> SFltb y z = true -> SFltb x z = true.
Proof.
  unfold SFltb, SFcompare.
  destruct x as [sx | sx | | sx mx ex], y as [sy | sy | | sy my ey],
           z as [sz | sz | | sz mz ez];
    try destruct sx; try destruct sy; try destruct sz;
    try discriminate; try reflexivity;
    rewrite ?Pos.compare_cont_spec; cbn [Pos.switch_Eq];
    fold (Pos.compare mx my); fold (Pos.compare my mz); fold (Pos.compare mx mz);
    destruct (Z.compare_spec ex ey), (Z.compare_spec ey ez), (Z.compare_spec ex ez);
    try discriminate; try reflexivity; try lia;
    destruct (Pos.compare_spec mx my), (Pos.compare_spec my mz), (Pos.compare_spec mx mz);
    simpl; try discriminate; try reflexivity; try lia.
Qed.

Lemma ltb_trans (x y z : float) :
  PrimFloat.ltb x y = true -> PrimFloat.ltb y z = true -> PrimFloat.ltb x z = true.
Proof. rewrite !FloatAxioms.ltb_spec. apply SFltb_trans. Qed.

End FloatOrder.

Section SeparatorScriptFacts.
Import FluidSeparator SeparatorScript.
Local Open Scope float_scope.
Variable PropsSI : string -> string -> float -> string -> float -> string -> result float.
Variable fmt : nat -> float -> string.

Ltac lookups H :=
  repeat match type of H with
         | context [PropsSI ?p ?a ?b ?c ?d ?f] =>
             let E := fresh "E" in
             destruct (PropsSI p a b c d f) eqn:E; cbn [rbind] in H;
             [injection H as <-; do 6 eexists; exact E |]
         end.

Lemma throttle_raises (fluid : string) (T_in P_in P_out m_dot : float) (e : exn) :
  Throttle.__init__ PropsSI fluid T_in P_in P_out m_dot = inl e ->
  raised_by_service PropsSI e.
Proof.
  unfold Throttle.__init__. intros H. lookups H. discriminate H.
Qed.

Lemma flash_raises (fluid : string) (P x_in m_dot : float) (s_in : option float) (e : exn) :
  FlashSeparator.__init__ PropsSI fluid P x_in m_dot s_in = inl e ->
  raised_by_service PropsSI e.
Proof.
  unfold FlashSeparator.__init__. intros H. lookups H. discriminate H.
Qed.

Lemma flash_s_in (fluid : string) (P x_in m_dot : float) (s_in : option float)
    (self : FlashSeparator.t float) :
  FlashSeparator.__init__ PropsSI fluid P x_in m_dot s_in = inr self ->
  FlashSeparator.s_in self = s_in.
Proof.
  unfold FlashSeparator.__init__. intros H.
  repeat match type of H with
         | context [PropsSI ?p ?a ?b ?c ?d ?f] =>
             destruct (PropsSI p a b c d f); cbn [rbind] in H; [discriminate H |]
         end.
  injection H as <-. reflexivity.
Qed.

Lemma part_A_raises (e : exn) :
  part_A PropsSI = inl e -> raised_by_service PropsSI e.
Proof.
  unfold part_A.
  destruct (Throttle.__init__ PropsSI "Propane" 330 2500000 650000 1.5)
    as [e1 | valve] eqn:EV; cbn [rbind].
  - intros [= <-]. exact (throttle_raises _ _ _ _ _ _ EV).
  - destruct (FlashSeparator.__init__ PropsSI "Propane" 650000 (Throttle.x_out valve) 1.5
                (Some (Throttle.s_out valve))) as [e2 | separator] eqn:ES; cbn [rbind].
    + intros [= <-]. exact (flash_raises _ _ _ _ _ _ ES).
    + discriminate.
Qed.

Lemma part_A_s_in (valve : Throttle.t float) (separator : FlashSeparator.t float) :
  part_A PropsSI = inr (valve, separator) ->
  FlashSeparator.s_in separator = Some (Throttle.s_out valve).
Proof.
  unfold part_A.
  destruct (Throttle.__init__ PropsSI "Propane" 330 2500000 650000 1.5)
    as [e1 | v] eqn:EV; cbn [rbind]; [discriminate |].
  destruct (FlashSeparator.__init__ PropsSI "Propane" 650000 (Throttle.x_out v) 1.5
              (Some (Throttle.s_out v))) as [e2 | s] eqn:ES; cbn [rbind]; [discriminate |].
  intros [= <- <-]. exact (flash_s_in _ _ _ _ _ _ ES).
Qed.

Lemma heat_exchanger_raises (fluid : string) (h_in s_in P T_out m_dot : float) (e : exn) :
  HeatExchanger.__init__ PropsSI fluid h_in s_in P T_out m_dot = inl e ->
  raised_by_service PropsSI e.
Proof.
  unfold HeatExchanger.__init__. intros H. lookups H. discriminate H.
Qed.

Lemma mixer_raises (fluid : string) (h_1 s_1 m_dot_1 h_2 s_2 m_dot_2 P : float) (e : exn) :
  Mixer.__init__ PropsSI fluid h_1 s_1 m_dot_1 h_2 s_2 m_dot_2 P = inl e ->
  e = ZeroDivisionError \/ raised_by_service PropsSI e.
Proof.
  unfold Mixer.__init__. intros H.
  match type of H with
  | context [truediv ?a ?b] => destruct (truediv a b) eqn:ED; cbn [rbind] in H
  end.
  - injection H as <-. left. exact (truediv_raises _ _ _ ED).
  - right. lookups H. discriminate H.
Qed.

(** The loop of Part C prints one line for each component and adds up. *)
Lemma report_components_returns (items : list (string * float)) (total_xd : float) :
  report_components items total_xd tt
  = (map (fun item => ComponentLoss (fst item) (snd item / 1000)) items, tt,
     inr (fold_left (fun total item => total + snd item) items total_xd)).
Proof.
  revert total_xd. induction items as [| [name xd] items IH]; intros total_xd.
  - reflexivity.
  - cbn [report_components]. unfold bind, print. rewrite IH. reflexivity.
Qed.

(** Neither boundary temperature of Part C is zero. *)
Lemma heat_exchanger_loss_returns (self : HeatExchanger.t float) (T_boundary : float) :
  PrimFloat.eqb T_boundary 0 = false ->
  HeatExchanger.exergy_destruction self 300 (Some T_boundary)
  = inr (300 * (HeatExchanger.m_dot self
                * (HeatExchanger.s_out self - HeatExchanger.s_in self)
                - HeatExchanger.q_dot self / T_boundary)).
Proof.
  intros HT. unfold HeatExchanger.exergy_destruction, truediv.
  cbn [feq lit float_arith float_of_Z]. rewrite HT. reflexivity.
Qed.

(** The best key so far is replaced by strictly greater values only, and the
    key returned is one no value of which is exceeded. *)
Lemma max_by_value_spec (items : list (string * float)) (best : string * float) :
  exists top,
    In top (best :: items) /\ max_by_value best items = fst top /\
    (top = best \/ PrimFloat.ltb (snd best) (snd top) = true) /\
    forall item, In item (best :: items) -> PrimFloat.ltb (snd top) (snd item) = false.
Proof.
  revert best. induction items as [| item items IH]; intros best.
  - exists best. repeat split; [now left | now left |].
    intros item [<- | []].
    destruct (PrimFloat.ltb (snd best) (snd best)) eqn:E; [| reflexivity].
    rewrite FloatAxioms.ltb_spec in E. unfold SFltb in E.
    destruct (Prim2SF (snd best)) as [s | s | | s m e']; simpl in E;
      try destruct s; try discriminate E;
      rewrite Z.compare_refl, Pos.compare_cont_refl in E; discriminate E.
  - cbn [max_by_value].
    destruct (PrimFloat.ltb (snd best) (snd item)) eqn:Hlt.
    + destruct (IH item) as (top & Hin & Hmax & Hrel & Htop).
      exists top. split; [now right |]. split; [exact Hmax |]. split.
      * right. destruct Hrel as [-> | Hrel]; [exact Hlt |].
        exact (ltb_trans _ _ _ Hlt Hrel).
      * intros it [<- | Hit]; [| now apply Htop].
        destruct (PrimFloat.ltb (snd top) (snd best)) eqn:Hb; [| reflexivity].
        rewrite <- (Htop item (or_introl eq_refl)).
        symmetry. exact (ltb_trans _ _ _ Hb Hlt).
    + destruct (IH best) as (top & Hin & Hmax & Hrel & Htop).
      exists top. split.
      { destruct Hin as [<- | Hin]; [now left | now right; right]. }
      split; [exact Hmax |]. split; [exact Hrel |].
      intros it [<- | [<- | Hit]].
      * apply Htop. now left.
      * destruct Hrel as [-> | Hrel]; [exact Hlt |].
        destruct (PrimFloat.ltb (snd top) (snd item)) eqn:Hi; [| reflexivity].
        rewrite <- Hlt. symmetry. exact (ltb_trans _ _ _ Hrel Hi).
      * apply Htop. now right.
Qed.

(** Once the five objects exist the script runs to its end. *)
Lemma script_completes (valve : Throttle.t float) (separator : FlashSeparator.t float)
    (vapor_cooler liquid_heater : HeatExchanger.t float) (mixer : Mixer.t float) :
  part_A PropsSI = inr (valve, separator) ->
  HeatExchanger.__init__ PropsSI "Propane"
    (FlashSeparator.h_vap separator) (FlashSeparator.s_vap separator)
    650000 305 (FlashSeparator.m_dot_vap separator) = inr vapor_cooler ->
  HeatExchanger.__init__ PropsSI "Propane"
    (FlashSeparator.h_liq separator) (FlashSeparator.s_liq separator)
    650000 345 (FlashSeparator.m_dot_liq separator) = inr liquid_heater ->
  Mixer.__init__ PropsSI "Propane"
    (HeatExchanger.h_out vapor_cooler) (HeatExchanger.s_out vapor_cooler)
    (FlashSeparator.m_dot_vap separator)
    (HeatExchanger.h_out liquid_heater) (HeatExchanger.s_out liquid_heater)
    (FlashSeparator.m_dot_liq separator) 650000 = inr mixer ->
  script PropsSI fmt tt
  = (transcript fmt valve separator vapor_cooler liquid_heater mixer, tt,
     inr (components_of valve separator vapor_cooler liquid_heater mixer,
          fold_left (fun total item => total + snd item)
            (components_of valve separator vapor_cooler liquid_heater mixer) 0,
          max_by_value
            (hd ("Throttle"%string, 0)
                (components_of valve separator vapor_cooler liquid_heater mixer))
            (tl (components_of valve separator vapor_cooler liquid_heater mixer)))).
Proof.
  intros EA EC EH EM.
  pose proof (part_A_s_in _ _ EA) as Es.
  unfold script, bind, lift, print, ret, on_object.
  rewrite EA. cbn iota beta zeta.
  unfold FlashSeparator.__repr__ at 1. unfold bind, get, ret. cbn iota beta zeta.
  rewrite EC, EH. cbn iota beta zeta. rewrite EM. cbn iota beta zeta.
  rewrite (exergy_destruction_known PropsSI 300 _ separator Es). cbn iota beta zeta.
  rewrite (heat_exchanger_loss_returns vapor_cooler 300 eq_refl).
  rewrite (heat_exchanger_loss_returns liquid_heater 450 eq_refl). cbn iota beta zeta.
  rewrite report_components_returns. cbn iota beta zeta.
  unfold max_key, ok. cbn iota beta zeta.
  reflexivity.
Qed.

Ltac no_part_C :=
  let Hin := fresh "Hin" in
  intros Hin; cbn [In app] in Hin;
  repeat (destruct Hin as [Hin | Hin]; [discriminate Hin |]); exact Hin.

(** X11. Whatever the library, an exception that leaves the script is
    one a lookup raised or the [ZeroDivisionError] of the Mixer's energy
    balance, and it is raised before the heading of Part C is printed: with
    the inlet entropy handed over from the valve the separator looks nothing
    up, and the two boundary temperatures, 300 and 450, are not zero, so once
    the five objects exist the script runs to its end. *)
Theorem script_failure_modes (out : list line) (e : exn) :
  script PropsSI fmt tt = (out, tt, inl e) ->
  (e = ZeroDivisionError \/ raised_by_service PropsSI e) /\
  ~ In (Heading (newline ++ "=== PART C ===")) out.
Proof.
  destruct (part_A PropsSI) as [e0 | [valve separator]] eqn:EA.
  { unfold script, bind, lift. rewrite EA. cbn iota beta zeta.
    intros [= <- <-]. split; [right; exact (part_A_raises _ EA) | intros []]. }
  destruct (HeatExchanger.__init__ PropsSI "Propane"
              (FlashSeparator.h_vap separator) (FlashSeparator.s_vap separator)
              650000 305 (FlashSeparator.m_dot_vap separator))
    as [e1 | vapor_cooler] eqn:EC.
  { unfold script, bind, lift, print, ret, on_object. rewrite EA. cbn iota beta zeta.
    unfold FlashSeparator.__repr__ at 1. unfold bind, get, ret. cbn iota beta zeta.
    rewrite EC. cbn iota beta zeta.
    intros [= <- <-].
    split; [right; exact (heat_exchanger_raises _ _ _ _ _ _ _ EC) | no_part_C]. }
  destruct (HeatExchanger.__init__ PropsSI "Propane"
              (FlashSeparator.h_liq separator) (FlashSeparator.s_liq separator)
              650000 345 (FlashSeparator.m_dot_liq separator))
    as [e2 | liquid_heater] eqn:EH.
  { unfold script, bind, lift, print, ret, on_object. rewrite EA. cbn iota beta zeta.
    unfold FlashSeparator.__repr__ at 1. unfold bind, get, ret. cbn iota beta zeta.
    rewrite EC, EH. cbn iota beta zeta.
    intros [= <- <-].
    split; [right; exact (heat_exchanger_raises _ _ _ _ _ _ _ EH) | no_part_C]. }
  destruct (Mixer.__init__ PropsSI "Propane"
              (HeatExchanger.h_out vapor_cooler) (HeatExchanger.s_out vapor_cooler)
              (FlashSeparator.m_dot_vap separator)
              (HeatExchanger.h_out liquid_heater) (HeatExchanger.s_out liquid_heater)
              (FlashSeparator.m_dot_liq separator) 650000)
    as [e3 | mixer] eqn:EM.
  { unfold script, bind, lift, print, ret, on_object. rewrite EA. cbn iota beta zeta.
    unfold FlashSeparator.__repr__ at 1. unfold bind, get, ret. cbn iota beta zeta.
    rewrite EC, EH. cbn iota beta zeta. rewrite EM. cbn iota beta zeta.
    intros [= <- <-].
    split; [exact (mixer_raises _ _ _ _ _ _ _ _ _ EM) | no_part_C]. }
  rewrite (script_completes _ _ _ _ _ EA EC EH EM). discriminate.
Qed.

(** X12. A script that runs to its end has the five components in the
    order Throttle, Flash Separator, Vapor Cooler, Liquid Heater, Mixer, prints
    the dominant component last, and no component has an exergy destruction
    greater (in the sense of [>] on binary64 numbers) than the one it names
    as dominant. *)
Theorem dominant_component_maximal
    (out : list line) (components : list (string * float)) (total_xd : float)
    (dominant : string) :
  script PropsSI fmt tt = (out, tt, inr (components, total_xd, dominant)) ->
  map fst components
    = ["Throttle"; "Flash Separator"; "Vapor Cooler"; "Liquid Heater"; "Mixer"]%string /\
  last out (Heading EmptyString) = DominantComponent dominant /\
  exists xd,
    In (dominant, xd) components /\
    forall name x, In (name, x) components -> PrimFloat.ltb xd x = false.
Proof.
  destruct (part_A PropsSI) as [e0 | [valve separator]] eqn:EA.
  { unfold script, bind, lift. rewrite EA. cbn iota beta zeta. discriminate. }
  destruct (HeatExchanger.__init__ PropsSI "Propane"
              (FlashSeparator.h_vap separator) (FlashSeparator.s_vap separator)
              650000 305 (FlashSeparator.m_dot_vap separator))
    as [e1 | vapor_cooler] eqn:EC.
  { unfold script, bind, lift, print, ret, on_object. rewrite EA. cbn iota beta zeta.
    unfold FlashSeparator.__repr__ at 1. unfold bind, get, ret. cbn iota beta zeta.
    rewrite EC. cbn iota beta zeta. discriminate. }
  destruct (HeatExchanger.__init__ PropsSI "Propane"
              (FlashSeparator.h_liq separator) (FlashSeparator.s_liq separator)
              650000 345 (FlashSeparator.m_dot_liq separator))
    as [e2 | liquid_heater] eqn:EH.
  { unfold script, bind, lift, print, ret, on_object. rewrite EA. cbn iota beta zeta.
    unfold FlashSeparator.__repr__ at 1. unfold bind, get, ret. cbn iota beta zeta.
    rewrite EC, EH. cbn iota beta zeta. discriminate. }
  destruct (Mixer.__init__ PropsSI "Propane"
              (HeatExchanger.h_out vapor_cooler) (HeatExchanger.s_out vapor_cooler)
              (FlashSeparator.m_dot_vap separator)
              (HeatExchanger.h_out liquid_heater) (HeatExchanger.s_out liquid_heater)
              (FlashSeparator.m_dot_liq separator) 650000)
    as [e3 | mixer] eqn:EM.
  { unfold script, bind, lift, print, ret, on_object. rewrite EA. cbn iota beta zeta.
    unfold FlashSeparator.__repr__ at 1. unfold bind, get, ret. cbn iota beta zeta.
    rewrite EC, EH. cbn iota beta zeta. rewrite EM. cbn iota beta zeta. discriminate. }
  rewrite (script_completes _ _ _ _ _ EA EC EH EM).
  assert (Hdom : exists xd,
            In (max_by_value
                  (hd ("Throttle"%string, 0)
                      (components_of valve separator vapor_cooler liquid_heater mixer))
                  (tl (components_of valve separator vapor_cooler liquid_heater mixer)), xd)
               (components_of valve separator vapor_cooler liquid_heater mixer) /\
            forall name x,
              In (name, x) (components_of valve separator vapor_cooler liquid_heater mixer) ->
              PrimFloat.ltb xd x = false).
  { set (components0 := components_of valve separator vapor_cooler liquid_heater mixer).
    destruct (max_by_value_spec (tl components0) (hd ("Throttle"%string, 0) components0))
      as ([name xd] & Hin & Hmax & _ & Htop).
    exists xd. rewrite Hmax. split.
    - exact Hin.
    - intros n x Hx. exact (Htop (n, x) Hx). }
  intros [= <- <- <- <-].
  split; [reflexivity |]. split; [reflexivity | exact Hdom].
Qed.

End SeparatorScriptFacts.

(** X11, a run: a library that does not know the quality [Q]. *)
Lemma script_failure_modes_witness :
  raised_by_service caloric_service (ValueError "unknown output").
Proof.
  pose (r := SeparatorScript.script caloric_service (fun _ _ => EmptyString) tt).
  assert (E : r = (fst (fst r), tt, inl (ValueError "unknown output")))
    by (vm_compute; reflexivity).
  destruct (proj1 (script_failure_modes caloric_service (fun _ _ => EmptyString) _ _ E))
    as [Habs | Hs].
  - discriminate Habs.
  - exact Hs.
Defined.

(** X12, a run: a library that answers 300 to every query. *)
Lemma dominant_component_maximal_witness :
  exists out components total_xd dominant xd,
    SeparatorScript.script (constant_service 300%float) (fun _ _ => EmptyString) tt
      = (out, tt, inr (components, total_xd, dominant)) /\
    In (dominant, xd) components /\
    forall name x, In (name, x) components -> PrimFloat.ltb xd x = false.
Proof.
  pose (r := SeparatorScript.script (constant_service 300%float) (fun _ _ => EmptyString) tt).
  destruct (snd r) as [e | [[components total_xd] dominant]] eqn:Er;
    [vm_compute in Er; discriminate Er |].
  assert (E : r = (fst (fst r), tt, inr (components, total_xd, dominant))).
  { rewrite <- Er. vm_compute. reflexivity. }
  destruct (dominant_component_maximal (constant_service 300%float)
              (fun _ _ => EmptyString) _ _ _ _ E) as (_ & _ & xd & Hin & Htop).
  exists (fst (fst r)), components, total_xd, dominant, xd.
  split; [exact E | split; [exact Hin | exact Htop]].
Defined.

(** ** The solver: the log *)

Section SolverLog.
Import PropertySolver.
Context {F : Type} `{Arith F}.
Variable call_coolprop_cli : string -> string -> F -> string -> F -> string -> result F.
Variables (target_prop : string) (target_value : F)
          (known_prop : string) (known_value : F) (unknown_prop : string)
          (min_guess max_guess : F) (fluid : string)
          (tolerance : F) (max_iterations : Z).

Local Notation "'look'" :=
  (lookup call_coolprop_cli target_prop known_prop known_value unknown_prop fluid).
Local Notation "'body'" :=
  (iteration_body call_coolprop_cli target_prop target_value known_prop known_value
                  unknown_prop fluid tolerance).

Lemma round_numbers_app (o o' : list (line F)) :
  round_numbers (o ++ o') = (round_numbers o ++ round_numbers o')%list.
Proof. apply flat_map_app. Qed.

Lemma last_app_cons {A : Type} (l l' : list A) (x d : A) :
  last (l ++ x :: l') d = last (x :: l') d.
Proof.
  induction l as [| y l IH]; [reflexivity |].
  cbn [app]. rewrite <- IH. cbn [last]. destruct (l ++ x :: l') eqn:E; [| reflexivity].
  destruct l; discriminate E.
Qed.

(** One round prints one numbered line, and a round that returns has printed
    the summary of convergence last. *)
Lemma round_log (i : Z) (s s1 : locals F) (o1 : list (line F))
    (r1 : result (option (F * F * Z))) :
  body i s = (o1, s1, r1) ->
  round_numbers o1 = [(i + 1)%Z] /\
  forall g v n, r1 = inr (Some (g, v, n)) ->
    n = (i + 1)%Z /\ exists err, last o1 Rule = Converged g v err n.
Proof.
  destruct (look (midpoint s)) as [e | v0] eqn:E.
  - rewrite (body_handler _ _ _ _ _ _ _ _ i s e E).
    destruct (i =? 0)%Z; [| destruct (actual_value s)];
      intros [= <- <- <-]; (split; [reflexivity | discriminate]).
  - destruct (relative_error target_value v0) as [e | err] eqn:Eerr.
    + rewrite (body_division_raises _ _ _ _ _ _ _ _ i s v0 e E Eerr).
      destruct (i =? 0)%Z; intros [= <- <- <-]; (split; [reflexivity | discriminate]).
    + rewrite (body_evaluated _ _ _ _ _ _ _ _ i s v0 err E Eerr).
      destruct (flt err tolerance); intros [= <- <- <-];
        (split; [reflexivity |]); [| discriminate].
      intros g v n [= <- <- <-]. split; [reflexivity |]. now exists err.
Qed.

Lemma rounds_log (n : nat) :
  forall (i : Z) (s s' : locals F) (o : list (line F)) (r : result (option (F * F * Z))),
    for_from n i body s = (o, s', r) ->
    exists k : nat,
      (k <= n)%nat /\ round_numbers o = count_from i k /\
      (r = inr None -> k = n) /\
      forall g v m, r = inr (Some (g, v, m)) ->
        m = (i + Z.of_nat k)%Z /\ exists err, last o Rule = Converged g v err m.
Proof.
  induction n as [| n IH]; intros i s s' o r.
  - simpl. unfold ret. intros [= <- <- <-].
    exists O. split; [lia |]. split; [reflexivity |]. split; [reflexivity | discriminate].
  - rewrite for_from_unfold.
    destruct (body i s) as [[o1 s1] r1] eqn:Ebody.
    destruct (round_log _ _ _ _ _ Ebody) as (Hnum & Hret).
    destruct r1 as [e | [[[g1 v1] m1] |]].
    + intros [= <- <- <-]. exists 1%nat.
      split; [lia |]. split; [exact Hnum |]. split; discriminate.
    + intros [= <- <- <-]. exists 1%nat.
      split; [lia |]. rewrite app_nil_r. split; [exact Hnum |].
      split; [discriminate |].
      intros g v m [= <- <- <-].
      destruct (Hret g1 v1 m1 eq_refl) as (-> & err & Hlast).
      split; [lia |]. now exists err.
    + destruct (for_from n (i + 1)%Z body s1) as [[o2 s2] r2] eqn:Erest.
      intros [= <- <- <-].
      destruct (IH _ _ _ _ _ Erest) as (k & Hk & Hnums & Hnone & Hsome).
      exists (Datatypes.S k). split; [lia |]. split.
      { rewrite round_numbers_app, Hnum, Hnums. reflexivity. }
      split.
      { intros E. now rewrite (Hnone E). }
      intros g v m E. destruct (Hsome g v m E) as (-> & err & Hlast).
      split; [lia |]. exists err.
      destruct o2 as [| l o2]; [discriminate Hlast |].
      rewrite last_app_cons. exact Hlast.
Qed.

(** X13. The log agrees with the answer.  Whatever the service and the
    arithmetic, every round prints exactly one numbered line, a result line
    or an error line, and the numbers run 1, 2, ..., k without a gap, with k
    at most [max_iterations].  When the call returns, either it converged,
    [iterations_used] is k, the number of the last round printed, and the
    last line printed is the summary of convergence with the returned guess
    and value; or all [max_iterations] rounds were printed and the last line
    is the warning with the returned guess and value. *)
Theorem solver_log_rounds :
  exists k : nat,
    (k <= Z.to_nat max_iterations)%nat /\
    round_numbers
      (fst (solve_property call_coolprop_cli target_prop target_value known_prop known_value
                           unknown_prop min_guess max_guess fluid tolerance max_iterations))
      = count_from 0 k /\
    forall g v n,
      snd (solve_property call_coolprop_cli target_prop target_value known_prop known_value
                          unknown_prop min_guess max_guess fluid tolerance max_iterations)
        = inr (g, v, n) ->
      exists err,
        (n = Z.of_nat k /\
         last (fst (solve_property call_coolprop_cli target_prop target_value known_prop
                                   known_value unknown_prop min_guess max_guess fluid
                                   tolerance max_iterations)) Rule
           = Converged g v err n) \/
        (n = max_iterations /\ k = Z.to_nat max_iterations /\
         last (fst (solve_property call_coolprop_cli target_prop target_value known_prop
                                   known_value unknown_prop min_guess max_guess fluid
                                   tolerance max_iterations)) Rule
           = MaxIterationsReached g v err n).
Proof.
  rewrite solve_unfold, loop_unfold.
  destruct (for_from (Z.to_nat max_iterations) 0%Z body (entry_locals min_guess max_guess))
    as [[o s] r] eqn:Eloop.
  destruct (rounds_log _ _ _ _ _ _ Eloop) as (k & Hk & Hnums & Hnone & Hsome).
  exists k. split; [exact Hk |].
  destruct r as [e | [[[g1 v1] m1] |]]; cbn [fst snd].
  - split; [| discriminate]. rewrite round_numbers_app. exact Hnums.
  - split; [rewrite round_numbers_app; exact Hnums |].
    intros g v n [= <- <- <-].
    destruct (Hsome g1 v1 m1 eq_refl) as (-> & err & Hlast).
    exists err. left. split; [lia |].
    destruct o as [| l o]; [discriminate Hlast |].
    rewrite last_app_cons. exact Hlast.
  - rewrite finish_unfold.
    destruct (look (midpoint s)) as [e | v0]; cbn [fst snd].
    { split; [| discriminate]. rewrite !round_numbers_app, app_nil_r. exact Hnums. }
    destruct (relative_error target_value v0) as [e | err]; cbn [fst snd].
    { split; [| discriminate]. rewrite !round_numbers_app, app_nil_r. exact Hnums. }
    split.
    { rewrite !round_numbers_app. cbn [round_numbers flat_map app].
      rewrite app_nil_r. exact Hnums. }
    intros g v n [= <- <- <-]. exists err. right.
    split; [reflexivity |]. split; [exact (Hnone eq_refl) |].
    rewrite app_assoc. change [Rule; MaxIterationsReached (midpoint s) v0 err max_iterations]
      with ([Rule] ++ [MaxIterationsReached (midpoint s) v0 err max_iterations])%list.
    rewrite app_assoc. apply last_last.
Qed.

End SolverLog.

(** X13, a run with the defaults: [f(x) = x] on [0, 4], target 3. *)
Lemma solver_log_rounds_witness :
  exists k : nat,
    (k <= 50)%nat /\
    round_numbers
      (fst (PropertySolver.solve_property (service_of (linear_property 1%float 0%float))
              "S" 3%float "P" 100000%float "T" 0%float 4%float "Air"
              default_tolerance default_max_iterations))
    = count_from 0 k.
Proof.
  destruct (solver_log_rounds (service_of (linear_property 1%float 0%float))
              "S" 3%float "P" 100000%float "T" 0%float 4%float "Air"
              default_tolerance default_max_iterations) as (k & Hk & Hnums & _).
  exists k. split; [exact Hk | exact Hnums].
Defined.
